(** * Gulf Air mobile client: booking lifecycle as exercised by the screens

    A shallow embedding of the parts of the Expo/React Native client that
    decide the check-in window, the booking requests and the session token:

    - [src/utils/api.js]: the shared axios client, its two interceptors, the
      process-wide token and the [bookingsAPI] / [authAPI] wrappers;
    - [src/app/my-trips.jsx]: [formatDate], [canCheckIn], [getCheckInMessage],
      [handleCheckIn], [loadUserBookings];
    - the manage-booking screen: [handleRescheduleBooking];
    - [src/app/book.jsx]: the confirm-booking button, [createBooking] and the
      cancel screen's [handleCancelBooking];
    - [src/app/login.jsx], [src/app/menu.jsx]: [handleLogin], [handleLogout].

    More of the screens follows the samples: [handleSignup] of
    [src/app/my-trips.jsx]; [loadBookingDetails] of the manage-booking and
    cancel screens, [loadAvailableFlights], [parseDate] and
    [getFlightDuration]; [loadLoyaltyData] of [src/app/falcon-flyer.jsx]; and
    of [src/app/book.jsx] the passenger counts, the calendar ([selectDate],
    [generateMonthDays], [formatFullDate]), [searchFlights],
    [groupFlightsByDate] and [getAirportName].

    JavaScript values are a small dynamic value type, effects (requests put on
    the wire, alerts, navigation, React state setters) are recorded in a trace
    threaded through an exception-and-state monad, and the built-in [Date] is
    an interface with one concrete instance that follows the ECMAScript date
    time string format. *)

From Stdlib Require Import ZArith QArith Qround String Ascii Lia.
From stdpp Require Import base strings list gmap pretty.

Set Warnings "-register-all".
Local Open Scope string_scope.
Local Open Scope Z_scope.

(** ** JavaScript values *)

Module JS.

(** JSON-shaped values as the client sees them.  Numbers are the integers the
    client computes with (ids, miles, points, thresholds) plus [NaN]; amounts
    with decimals are only passed through by the code modelled here. *)
Inductive jsval :=
| VUndefined
| VNull
| VBool (b : bool)
| VNaN
| VNum (n : Z)
| VStr (s : string)
| VArr (l : list jsval)
| VObj (o : gmap string jsval).

(** [!!v] *)
Definition truthy (v : jsval) : bool :=
  match v with
  | VUndefined | VNull | VNaN => false
  | VBool b => b
  | VNum n => negb (n =? 0)
  | VStr s => negb (bool_decide (s = ""))
  | VArr _ | VObj _ => true
  end.

(** [a || b] *)
Definition or_else (a b : jsval) : jsval := if truthy a then a else b.

(** [v === 'literal'] *)
Definition is_str (v : jsval) (s : string) : bool :=
  match v with VStr t => bool_decide (t = s) | _ => false end.

Definition join (sep : string) (l : list string) : string :=
  match l with
  | [] => ""
  | x :: r => fold_left (fun acc y => acc +:+ sep +:+ y) r x
  end.

(** [String(v)] and the conversion done by template literals. *)
Fixpoint ToString (v : jsval) : string :=
  match v with
  | VUndefined => "undefined"
  | VNull => "null"
  | VBool true => "true"
  | VBool false => "false"
  | VNaN => "NaN"
  | VNum n => pretty n
  | VStr s => s
  | VArr l =>
      join "," (map (fun x => match x with
                              | VUndefined | VNull => ""
                              | _ => ToString x
                              end) l)
  | VObj _ => "[object Object]"
  end.

(** [ToNumber], with [None] for [NaN].  Of the strings only the empty one is
    converted; the client subtracts numbers of the response body. *)
Definition ToNumber (v : jsval) : option Z :=
  match v with
  | VNum n => Some n
  | VNull => Some 0
  | VBool b => Some (if b then 1 else 0)
  | VStr "" => Some 0
  | _ => None
  end.

Definition of_number (n : option Z) : jsval :=
  match n with Some z => VNum z | None => VNaN end.

(** [a - b] *)
Definition minus (a b : jsval) : jsval :=
  of_number (x ← ToNumber a; y ← ToNumber b; Some (x - y)).

(** ** Strings *)

(** Strings are sequences of code units below 256. *)

Definition is_digit (c : ascii) : bool :=
  let n := nat_of_ascii c in (48 <=? n)%nat && (n <=? 57)%nat.

(** White space of [String.prototype.trim] and of the class [\s], among the
    code units below 256. *)
Definition is_space (c : ascii) : bool :=
  let n := nat_of_ascii c in
  ((9 <=? n)%nat && (n <=? 13)%nat) || (n =? 32)%nat || (n =? 160)%nat.

Fixpoint all_digits (s : string) : bool :=
  match s with
  | "" => true
  | String c r => is_digit c && all_digits r
  end.

Fixpoint trimStart (s : string) : string :=
  match s with
  | String c r => if is_space c then trimStart r else s
  | "" => ""
  end.

Fixpoint trimEnd (s : string) : string :=
  match s with
  | "" => ""
  | String c r =>
      match trimEnd r with
      | "" => if is_space c then "" else String c ""
      | r' => String c r'
      end
  end.

Definition trim (s : string) : string := trimEnd (trimStart s).

(** The line feed of ['\n']. *)
Definition nl : string := String (ascii_of_nat 10) "".

(** [s.includes(sub)] *)
Fixpoint includes (s sub : string) : bool :=
  String.prefix sub s ||
  match s with
  | "" => false
  | String _ r => includes r sub
  end.

(** Case conversion, of the letters a to z. *)
Definition lower (c : ascii) : ascii :=
  let n := nat_of_ascii c in
  if (65 <=? n)%nat && (n <=? 90)%nat then ascii_of_nat (n + 32) else c.

Fixpoint toLowerCase (s : string) : string :=
  match s with
  | "" => ""
  | String c r => String (lower c) (toLowerCase r)
  end.

Definition upper (c : ascii) : ascii :=
  let n := nat_of_ascii c in
  if (97 <=? n)%nat && (n <=? 122)%nat then ascii_of_nat (n - 32) else c.

(** [s.charAt(0).toUpperCase() + s.slice(1)] *)
Definition capitalize (s : string) : string :=
  match s with
  | "" => ""
  | String c r => String (upper c) r
  end.

End JS.
Export JS.

(** ** Regular expressions of the client *)

Module Regex.

(** The pattern [/\.(\d{3})\d+$/] tried at the start of [s]: a dot, three
    digits (the group), one or more digits, end of input.  The result is the
    captured group. *)
Definition match_micros (s : string) : option string :=
  match s with
  | String dot (String a (String b (String c (String d r)))) =>
      if bool_decide (dot = "."%char) &&
         is_digit a && is_digit b && is_digit c && is_digit d && all_digits r
      then Some (String a (String b (String c "")))
      else None
  | _ => None
  end.

(** [s.replace(/\.(\d{3})\d+$/, '.$1')]: the leftmost match is replaced, and
    a match always runs to the end of the input. *)
Fixpoint replace_micros (s : string) : string :=
  match match_micros s with
  | Some g => "." +:+ g
  | None =>
      match s with
      | "" => ""
      | String c r => String c (replace_micros r)
      end
  end.

(** [/^\d{4}-\d{2}-\d{2}$/.test(s)] *)
Definition is_date_only (s : string) : bool :=
  match s with
  | String y1 (String y2 (String y3 (String y4 (String h1
      (String m1 (String m2 (String h2 (String d1 (String d2 ""))))))))) =>
      is_digit y1 && is_digit y2 && is_digit y3 && is_digit y4 &&
      bool_decide (h1 = "-"%char) && is_digit m1 && is_digit m2 &&
      bool_decide (h2 = "-"%char) && is_digit d1 && is_digit d2
  | _ => false
  end.

(** The class [[^\s@]]. *)
Definition is_addr_char (c : ascii) : bool :=
  negb (is_space c) && negb (bool_decide (c = "@"%char)).

(** [[^\s@]+$] *)
Fixpoint addr_run (s : string) : bool :=
  match s with
  | "" => false
  | String c "" => is_addr_char c
  | String c r => is_addr_char c && addr_run r
  end.

(** [[^\s@]+\.[^\s@]+$], given that one class character has been read when
    [seen] is set.  The class contains the dot, so every dot that follows a
    class character is tried as the separator. *)
Fixpoint addr_domain (seen : bool) (s : string) : bool :=
  match s with
  | "" => false
  | String c r =>
      (seen && bool_decide (c = "."%char) && addr_run r) ||
      (is_addr_char c && addr_domain true r)
  end.

(** [[^\s@]+@...], with the same flag. *)
Fixpoint addr_local (seen : bool) (s : string) : bool :=
  match s with
  | "" => false
  | String c r =>
      (seen && bool_decide (c = "@"%char) && addr_domain false r) ||
      (is_addr_char c && addr_local true r)
  end.

(** [/^[^\s@]+@[^\s@]+\.[^\s@]+$/.test(s)] *)
Definition emailRegex_test (s : string) : bool := addr_local false s.

End Regex.
Export Regex.

(** ** The built-in [Date] *)

(** What the screens use of [Date]: parsing a string to a time value in
    milliseconds since the epoch ([None] is the time value [NaN] of an
    invalid date), and the day of the month and the month of a time value in
    local time. *)
Class DateEngine := {
  Date_parse : string → option Z;
  Date_getDate : Z → Z;
  Date_getMonth : Z → Z
}.

(** [TimeClip] *)
Definition TimeClip (t : Z) : option Z :=
  if Z.abs t <=? 8640000000000000 then Some t else None.

(** [new Date(v).getTime()] for a value that is not itself a [Date]. *)
Definition new_Date `{DateEngine} (v : jsval) : option Z :=
  match v with
  | VStr s => Date_parse s
  | VUndefined | VNaN => None
  | VNull => Some 0
  | VBool b => Some (if b then 1 else 0)
  | VNum n => TimeClip n
  | VArr _ | VObj _ => Date_parse (ToString v)
  end.

(** ** A [Date] that follows the ECMAScript specification *)

Module ESDate.

Definition msPerDay : Z := 86400000.

Definition DaysInYear (y : Z) : Z :=
  if negb (y mod 4 =? 0) then 365
  else if negb (y mod 100 =? 0) then 366
  else if negb (y mod 400 =? 0) then 365
  else 366.

Definition DayFromYear (y : Z) : Z :=
  365 * (y - 1970) + (y - 1969) / 4 - (y - 1901) / 100 + (y - 1601) / 400.

Definition Day (t : Z) : Z := t / msPerDay.

(** The largest [y] with [DayFromYear y <= d]: the estimate from the mean
    length of a year is off by at most one. *)
Definition YearFromDay (d : Z) : Z :=
  let y := 1970 + (400 * d) / 146097 in
  if d <? DayFromYear y then y - 1
  else if DayFromYear (y + 1) <=? d then y + 1
  else y.

Definition YearFromTime (t : Z) : Z := YearFromDay (Day t).

Definition DayWithinYear (t : Z) : Z := Day t - DayFromYear (YearFromTime t).

Definition InLeapYear (t : Z) : Z :=
  if DaysInYear (YearFromTime t) =? 366 then 1 else 0.

Definition MonthFromTime (t : Z) : Z :=
  let d := DayWithinYear t in
  let l := InLeapYear t in
  if d <? 31 then 0
  else if d <? 59 + l then 1
  else if d <? 90 + l then 2
  else if d <? 120 + l then 3
  else if d <? 151 + l then 4
  else if d <? 181 + l then 5
  else if d <? 212 + l then 6
  else if d <? 243 + l then 7
  else if d <? 273 + l then 8
  else if d <? 304 + l then 9
  else if d <? 334 + l then 10
  else 11.

Definition DateFromTime (t : Z) : Z :=
  let d := DayWithinYear t in
  let l := InLeapYear t in
  match MonthFromTime t with
  | 0 => d + 1
  | 1 => d - 30
  | 2 => d - 58 - l
  | 3 => d - 89 - l
  | 4 => d - 119 - l
  | 5 => d - 150 - l
  | 6 => d - 180 - l
  | 7 => d - 211 - l
  | 8 => d - 242 - l
  | 9 => d - 272 - l
  | 10 => d - 303 - l
  | _ => d - 333 - l
  end.

(** Day number of the first day of month [m] (0 to 11) of year [y]. *)
Definition monthStart (y m : Z) : Z :=
  let l := if DaysInYear y =? 366 then 1 else 0 in
  match m with
  | 0 => 0
  | 1 => 31
  | 2 => 59 + l
  | 3 => 90 + l
  | 4 => 120 + l
  | 5 => 151 + l
  | 6 => 181 + l
  | 7 => 212 + l
  | 8 => 243 + l
  | 9 => 273 + l
  | 10 => 304 + l
  | _ => 334 + l
  end.

Definition MakeDay (year month date : Z) : Z :=
  let ym := year + month / 12 in
  let mn := month mod 12 in
  DayFromYear ym + monthStart ym mn + date - 1.

Definition MakeTime (hour min sec ms : Z) : Z :=
  hour * 3600000 + min * 60000 + sec * 1000 + ms.

Definition MakeDate (day time : Z) : Z := day * msPerDay + time.

(** *** The date time string format *)

Definition digit (c : ascii) : option Z :=
  if is_digit c then Some (Z.of_nat (nat_of_ascii c) - 48) else None.

Definition take2 (s : string) : option (Z * string) :=
  match s with
  | String a (String b r) =>
      x ← digit a; y ← digit b; Some (10 * x + y, r)
  | _ => None
  end.

(** The digits at the start of [s], and the rest of the input. *)
Fixpoint take_digits (s : string) : list Z * string :=
  match s with
  | String c r =>
      match digit c with
      | Some x => let '(ds, r') := take_digits r in (x :: ds, r')
      | None => ([], s)
      end
  | "" => ([], "")
  end.

(** A fraction of a second, of one digit or more, in milliseconds: the
    first three digits count, the further ones are cut off. *)
Definition take_fraction (s : string) : option (Z * string) :=
  match take_digits s with
  | ([], _) => None
  | ([a], r) => Some (100 * a, r)
  | ([a; b], r) => Some (100 * a + 10 * b, r)
  | (a :: b :: c :: _, r) => Some (100 * a + 10 * b + c, r)
  end.

Definition take4 (s : string) : option (Z * string) :=
  match s with
  | String a (String b (String c (String d r))) =>
      x ← digit a; y ← digit b; z ← digit c; w ← digit d;
      Some (1000 * x + 100 * y + 10 * z + w, r)
  | _ => None
  end.

Definition expect (c : ascii) (s : string) : option string :=
  match s with
  | String d r => if bool_decide (c = d) then Some r else None
  | "" => None
  end.

(** [YYYY], [YYYY-MM] or [YYYY-MM-DD], and the rest of the input. *)
Definition parse_date (s : string) : option (Z * Z * Z * string) :=
  '(y, r) ← take4 s;
  match expect "-" r with
  | None => Some (y, 1, 1, r)
  | Some r1 =>
      '(m, r2) ← take2 r1;
      match expect "-" r2 with
      | None => Some (y, m, 1, r2)
      | Some r3 => '(d, r4) ← take2 r3; Some (y, m, d, r4)
      end
  end.

(** [HH:mm], [HH:mm:ss] or [HH:mm:ss.sss], and the rest of the input.  The
    format has three digits in the fraction; engines read a fraction of any
    length and keep its milliseconds, as is done here. *)
Definition parse_time (s : string) : option (Z * Z * Z * Z * string) :=
  '(h, r) ← take2 s;
  r0 ← expect ":" r;
  '(mi, r1) ← take2 r0;
  match expect ":" r1 with
  | None => Some (h, mi, 0, 0, r1)
  | Some r2 =>
      '(sec, r3) ← take2 r2;
      match expect "." r3 with
      | None => Some (h, mi, sec, 0, r3)
      | Some r4 => '(ms, r5) ← take_fraction r4; Some (h, mi, sec, ms, r5)
      end
  end.

(** The UTC offset in minutes: absent, [Z], [+HH:mm] or [-HH:mm]. *)
Definition parse_offset (s : string) : option (option Z) :=
  match s with
  | "" => Some None
  | String sign r =>
      if bool_decide (sign = "Z"%char) && bool_decide (r = "") then Some (Some 0)
      else
      '(h, r0) ← take2 r;
      r1 ← expect ":" r0;
      '(mi, r2) ← take2 r1;
      if bool_decide (r2 = "") && (h <=? 23) && (mi <=? 59) then
        if bool_decide (sign = "+"%char) then Some (Some (h * 60 + mi))
        else if bool_decide (sign = "-"%char) then Some (Some (- (h * 60 + mi)))
        else None
      else None
  end.

Definition time_in_range (h mi sec ms : Z) : bool :=
  ((h <=? 23) && (mi <=? 59) && (sec <=? 59)) ||
  ((h =? 24) && (mi =? 0) && (sec =? 0) && (ms =? 0)).

Section engine.
(** The offset of local time from UTC, in milliseconds, taken constant. *)
Variable LocalTZA : Z.

Definition LocalTime (t : Z) : Z := t + LocalTZA.
Definition UTC (t : Z) : Z := t - LocalTZA.

(** [Date.parse]: strings of the date time string format, four-digit years.
    A date-only form is UTC, a date-time form without offset is local
    time.  What an engine makes of a string outside the format is its own
    choice; here such a string is an invalid date. *)
Definition parse (s : string) : option Z :=
  '(y, m, d, r) ← parse_date s;
  if (1 <=? m) && (m <=? 12) && (1 <=? d) && (d <=? 31) then
    let day := MakeDay y (m - 1) d in
    match r with
    | "" => TimeClip (MakeDate day 0)
    | String T r1 =>
        if bool_decide (T = "T"%char) then
          '(h, mi, sec, ms, r2) ← parse_time r1;
          off ← parse_offset r2;
          if time_in_range h mi sec ms then
            let t := MakeDate day (MakeTime h mi sec ms) in
            TimeClip (match off with
                      | Some minutes => t - minutes * 60000
                      | None => UTC t
                      end)
          else None
        else None
    end
  else None.

Definition getDate (t : Z) : Z := DateFromTime (LocalTime t).
Definition getMonth (t : Z) : Z := MonthFromTime (LocalTime t).

Definition engine : DateEngine :=
  {| Date_parse := parse; Date_getDate := getDate; Date_getMonth := getMonth |}.
End engine.

End ESDate.

(** ** My Trips: dates and the check-in window *)

Module MyTrips.

Definition airportMap : gmap string string :=
  list_to_map
    [ ("BAH", "Bahrain"); ("DXB", "Dubai"); ("DOH", "Doha"); ("KWI", "Kuwait");
      ("RUH", "Riyadh"); ("JED", "Jeddah"); ("CAI", "Cairo"); ("BEY", "Beirut");
      ("AMM", "Amman");
      ("LHR", "London"); ("CDG", "Paris"); ("FRA", "Frankfurt");
      ("MAD", "Madrid"); ("FCO", "Rome"); ("ATH", "Athens");
      ("BOM", "Mumbai"); ("DEL", "Delhi"); ("BKK", "Bangkok");
      ("KUL", "Kuala Lumpur"); ("SIN", "Singapore"); ("HKG", "Hong Kong");
      ("NBO", "Nairobi"); ("JNB", "Johannesburg"); ("ADD", "Addis Ababa") ].

(** The names every object literal inherits from [Object.prototype]. *)
Definition inherited_names : list string :=
  [ "constructor"; "hasOwnProperty"; "isPrototypeOf"; "propertyIsEnumerable";
    "toLocaleString"; "toString"; "valueOf"; "__proto__";
    "__defineGetter__"; "__defineSetter__"; "__lookupGetter__";
    "__lookupSetter__" ].

(** What is found under an inherited name: a function or, under
    [__proto__], the prototype.  The values hold neither, and an empty object
    stands for it: truthy, and no text. *)
Definition inherited_member : jsval := VObj ∅.

(** [airportMap[airportCode] || airportCode] *)
Definition getDestinationName (airportCode : jsval) : jsval :=
  match airportMap !! ToString airportCode with
  | Some name => or_else (VStr name) airportCode
  | None =>
      if bool_decide (ToString airportCode ∈ inherited_names)
      then inherited_member else airportCode
  end.

Definition months : list string :=
  ["JAN"; "FEB"; "MAR"; "APR"; "MAY"; "JUN";
   "JUL"; "AUG"; "SEP"; "OCT"; "NOV"; "DEC"].

(** [months[i]] inside a template literal. *)
Definition month_text (i : Z) : string :=
  if i <? 0 then "undefined"
  else default "undefined" (months !! Z.to_nat i).

(** The string handed to [new Date] by [formatDate]. *)
Definition formatDate_input (dateString : jsval) : string :=
  let input := replace_micros (ToString dateString) in
  if is_date_only input then input +:+ "T12:00:00" else input.

Definition formatDate `{DateEngine} (dateString : jsval) : string :=
  if negb (truthy dateString) then "N/A"
  else
    match Date_parse (formatDate_input dateString) with
    | None => "N/A"
    | Some date =>
        let day := Date_getDate date in
        let month := month_text (Date_getMonth date) in
        pretty day +:+ " " +:+ month
    end.

(** The value handed to [new Date] by [canCheckIn] and [getCheckInMessage]. *)
Definition normalized (departureTime : jsval) : jsval :=
  match departureTime with
  | VStr s => VStr (replace_micros s)
  | v => v
  end.

(** [(departure - now) / (1000 * 60 * 60)]; [None] is [NaN].  Both time values
    are whole milliseconds, and the quotient is kept exact: the double the
    code computes compares with 0 and with 24 as the exact quotient does. *)
Definition hoursUntilDeparture `{DateEngine} (now : Z) (departureTime : jsval)
  : option Q :=
  departure ← new_Date (normalized departureTime);
  Some (Qmake (departure - now) (1000 * 60 * 60)).

(** Arithmetic and comparisons on a possibly-[NaN] number. *)
Definition num_le (x : option Q) (y : Q) : bool :=
  match x with Some a => Qle_bool a y | None => false end.

Definition num_gt (x : option Q) (y : Q) : bool :=
  match x with Some a => negb (Qle_bool a y) | None => false end.

Definition num_sub (x : option Q) (y : Q) : option Q := a ← x; Some (a - y)%Q.
Definition num_div (x : option Q) (y : Q) : option Q := a ← x; Some (a / y)%Q.
Definition Math_floor (x : option Q) : option Z := a ← x; Some (Qfloor a).
Definition Math_ceil (x : option Q) : option Z := a ← x; Some (Qceiling a).

Definition int_gt (x : option Z) (y : Z) : bool :=
  match x with Some a => y <? a | None => false end.

Definition int_text (x : option Z) : string :=
  match x with Some a => pretty a | None => "NaN" end.

Definition canCheckIn `{DateEngine} (now : Z) (departureTime bookingStatus : jsval)
  : bool :=
  if negb (is_str bookingStatus "confirmed") then false
  else
    let h := hoursUntilDeparture now departureTime in
    num_le h 24 && num_gt h 0.

Definition getCheckInMessage `{DateEngine} (now : Z)
    (departureTime bookingStatus : jsval) : string :=
  if is_str bookingStatus "checked_in" then
    "You have already checked in for this flight."
  else if is_str bookingStatus "cancelled" then
    "This booking has been cancelled."
  else
    let h := hoursUntilDeparture now departureTime in
    if num_le h 0 then "This flight has already departed."
    else if num_gt h 24 then
      let hoursUntilCheckIn := num_sub h 24 in
      let daysUntilCheckIn := Math_floor (num_div hoursUntilCheckIn 24) in
      if int_gt daysUntilCheckIn 0 then
        "Check-in opens in " +:+ int_text daysUntilCheckIn +:+ " day" +:+
        (if int_gt daysUntilCheckIn 1 then "s" else "") +:+
        " (24 hours before departure)."
      else
        "Check-in opens in " +:+ int_text (Math_ceil hoursUntilCheckIn) +:+
        " hours."
    else "You can check-in now!".

End MyTrips.

(** ** Effects: the world a handler runs in *)

Module Effects.

(** A thrown value.  A [TypeError] (reading a property of [undefined], calling
    what is no function) carries an engine-chosen text, for which a fixed one
    stands. *)
Inductive exn :=
| Error (message : string)
| TypeError.

Definition exn_message (e : exn) : string :=
  match e with
  | Error m => m
  | TypeError => "TypeError"
  end.

Inductive res (A : Type) :=
| Ok (a : A)
| Throw (e : exn).
Arguments Ok {A} a.
Arguments Throw {A} e.

#[global] Instance res_ret : MRet res := λ A a, Ok a.

#[global] Instance res_bind : MBind res := λ A B f r,
  match r with
  | Ok a => f a
  | Throw e => Throw e
  end.

(** An axios request as it leaves the request interceptor; the two fixed
    headers [Content-Type] and [Accept] of the client are left out. *)
Record request := Request {
  method : string;
  url : string;
  data : jsval;
  baseURL : string;
  timeout : Z;
  Authorization : option string
}.

(** What the network makes of a request that was sent: a response with a
    status and a body, or no response at all. *)
Inductive reply :=
| Responded (status : Z) (body : jsval)
| NoResponse.

(** The error that reaches the response interceptor: [error.response] is
    set, or only [error.request], or neither (the request was never sent). *)
Inductive axios_error :=
| WithResponse (status : Z) (data : jsval)
| WithRequest
| Neither (message : string).

Inductive event :=
| Sent (r : request)
| Alert (title message : string)
| Push (path : string)
| Replace (path : string)
| Back
| ConsoleLog (text : string)
| SetState (name : string) (value : jsval)
| After (ms : Z) (e : event).     (* [setTimeout(() => e, ms)] *)

Record World := {
  authToken : jsval;              (* global.authToken *)
  transport : request → reply;    (* the network and the backend behind it *)
  latency : request → Z;          (* milliseconds until that outcome *)
  startTime : Z;                  (* time value when the handler starts *)
  elapsed : Z;                    (* milliseconds since then *)
  trace : list event              (* effects so far, oldest first *)
}.

Definition M (A : Type) : Type := World → res A * World.

#[global] Instance M_ret : MRet M := λ A a w, (Ok a, w).

#[global] Instance M_bind : MBind M := λ A B f m w,
  match m w with
  | (Ok a, w') => f a w'
  | (Throw e, w') => (Throw e, w')
  end.

Definition throw {A} (e : exn) : M A := λ w, (Throw e, w).

(** [try { m } catch (error) { h error }] *)
Definition try_catch {A} (m : M A) (h : exn → M A) : M A := λ w,
  match m w with
  | (Ok a, w') => (Ok a, w')
  | (Throw e, w') => h e w'
  end.

(** [try { m } finally { f }], for an [f] that does not throw. *)
Definition finally {A} (m : M A) (f : M unit) : M A := λ w,
  let '(r, w') := m w in
  let '(_, w'') := f w' in
  (r, w'').

Definition set_trace (t : list event) (w : World) : World :=
  {| authToken := authToken w; transport := transport w; latency := latency w;
     startTime := startTime w; elapsed := elapsed w; trace := t |}.

Definition set_elapsed (ms : Z) (w : World) : World :=
  {| authToken := authToken w; transport := transport w; latency := latency w;
     startTime := startTime w; elapsed := ms; trace := trace w |}.

Definition set_authToken (v : jsval) (w : World) : World :=
  {| authToken := v; transport := transport w; latency := latency w;
     startTime := startTime w; elapsed := elapsed w; trace := trace w |}.

Definition emit (e : event) : M unit := λ w,
  (Ok (), set_trace (trace w ++ [e]) w).

Definition wait (ms : Z) : M unit := λ w,
  (Ok (), set_elapsed (elapsed w + ms) w).

Definition read_global : M jsval := λ w, (Ok (authToken w), w).

Definition write_global (v : jsval) : M unit := λ w,
  (Ok (), set_authToken v w).

Definition net (config : request) : M (reply * Z) := λ w,
  (Ok (transport w config, latency w config), w).

Definition elapsed_now : M Z := λ w, (Ok (elapsed w), w).

(** [new Date().getTime()] *)
Definition Date_now : M Z := λ w, (Ok (startTime w + elapsed w), w).

Definition of_res {A} (r : res A) : M A := λ w, (r, w).

(** [Promise.race([m, timeoutPromise])] for a timer that rejects with
    ['Request timeout'] once [elapsed] passes [deadline]: what [m] put on the
    wire stays sent, its result is dropped when the timer wins. *)
Definition race {A} (deadline : Z) (m : M A) : M A := λ w,
  let '(r, w') := m w in
  if deadline <? elapsed w' then
    (Throw (Error "Request timeout"), set_elapsed deadline w')
  else (r, w').

(** [v.k] *)
Definition prop (v : jsval) (k : string) : res jsval :=
  match v with
  | VUndefined | VNull => Throw TypeError
  | VObj o => Ok (default VUndefined (o !! k))
  | _ => Ok VUndefined
  end.

(** [v?.k] *)
Definition opt_prop (v : jsval) (k : string) : jsval :=
  match v with
  | VObj o => default VUndefined (o !! k)
  | _ => VUndefined
  end.

(** [v.includes(sub)]: a string method, an array method, and a [TypeError]
    on anything else. *)
Definition js_includes (v : jsval) (sub : string) : res bool :=
  match v with
  | VStr s => Ok (includes s sub)
  | VArr l => Ok (existsb (λ x, is_str x sub) l)
  | _ => Throw TypeError
  end.

(** [v.substring(from, to)] for [from <= to]: a string method, and a
    [TypeError] on every other value, which has no such method. *)
Definition substring_method (v : jsval) (from to : nat) : res string :=
  match v with
  | VStr s => Ok (String.substring from (to - from) s)
  | _ => Throw TypeError
  end.

(** [v.toString()] *)
Definition toString_method (v : jsval) : res string :=
  match v with
  | VUndefined | VNull => Throw TypeError
  | _ => Ok (ToString v)
  end.

(** [v.filter(f)] *)
Fixpoint filter_elements (f : jsval → res bool) (l : list jsval)
  : res (list jsval) :=
  match l with
  | [] => Ok []
  | x :: r =>
      keep ← f x;
      r' ← filter_elements f r;
      Ok (if keep : bool then x :: r' else r')
  end.

Definition array_filter (v : jsval) (f : jsval → res bool) : res (list jsval) :=
  match v with
  | VArr l => filter_elements f l
  | _ => Throw TypeError
  end.

(** [l.map(f)] *)
Fixpoint array_map (f : jsval → res jsval) (l : list jsval) : res (list jsval) :=
  match l with
  | [] => Ok []
  | x :: r =>
      y ← f x;
      r' ← array_map f r;
      Ok (y :: r')
  end.

(** [error.message] of what [new Error(v)] builds. *)
Definition new_Error (v : jsval) : exn :=
  match v with
  | VUndefined => Error ""
  | _ => Error (ToString v)
  end.

End Effects.
Export Effects.

(** ** [src/utils/api.js] *)

Module Api.

Definition API_BASE_URL : string := "http://localhost:8000".

(** The defaults given to [axios.create]. *)
Definition apiClient (method url : string) (data : jsval) : request :=
  {| method := method; url := url; data := data;
     baseURL := API_BASE_URL; timeout := 15000; Authorization := None |}.

Definition LOGIN := "/auth/login".
Definition REGISTER := "/auth/register".
Definition LOGOUT := "/auth/logout".
Definition PROFILE := "/auth/profile".
Definition FLIGHTS := "/api/flights".
Definition SEARCH_FLIGHTS := "/api/flights/search".
Definition FLIGHT_STATUS := "/api/flights/status".
Definition BOOKINGS := "/api/bookings".
Definition CREATE_BOOKING := "/api/bookings".
Definition CHECK_IN := "/api/bookings".
Definition LOYALTY_STATUS := "/api/loyalty/status".
Definition LOYALTY_TIERS := "/api/loyalty/tiers".
Definition LOYALTY_ENROLL := "/api/loyalty/enroll".

Definition getAuthToken : M jsval :=
  token ← read_global;
  mret (or_else token VNull).

Definition setAuthToken (token : jsval) : M unit :=
  write_global token.

Definition clearAuthToken : M unit :=
  write_global VNull.

(** The request interceptor.  Before it sets the header it logs the first
    twenty characters of a truthy token, [token.substring(0, 20)], which
    fails on a token that is no text. *)
Definition request_interceptor (config : request) : M request :=
  token ← getAuthToken;
  _ ← of_res (if truthy token then substring_method token 0 20 else Ok "null");
  if truthy token then
    mret {| method := method config; url := url config; data := data config;
            baseURL := baseURL config; timeout := timeout config;
            Authorization := Some ("Bearer " +:+ ToString token) |}
  else mret config.

Definition cannot_connect : string :=
  "Cannot connect to server. Please check your internet connection and ensure the backend is running.".

(** [data?.detail || data?.message || `HTTP error! status: ${status}`] *)
Definition raw_message (status : Z) (data : jsval) : jsval :=
  or_else (opt_prop data "detail")
    (or_else (opt_prop data "message")
       (VStr ("HTTP error! status: " +:+ pretty status))).

(** The message of the error thrown for a response with an error status. *)
Definition server_error_message (status : Z) (data : jsval) : res jsval :=
  let message := raw_message status data in
  if status =? 400 then
    match js_includes message "already cancelled" with
    | Throw e => Throw e
    | Ok true => Ok (VStr "Booking already cancelled")
    | Ok false =>
    match js_includes message "cancelled" with
    | Throw e => Throw e
    | Ok true => Ok (VStr "Booking already cancelled")
    | Ok false =>
    match js_includes message "not found" with
    | Throw e => Throw e
    | Ok true => Ok (VStr "Booking not found")
    | Ok false =>
    match js_includes message "cannot be cancelled" with
    | Throw e => Throw e
    | Ok true => Ok (VStr "Booking cannot be cancelled at this time")
    | Ok false =>
    match js_includes message "Invalid credentials" with
    | Throw e => Throw e
    | Ok true => Ok (VStr "Invalid credentials")
    | Ok false =>
    match js_includes message "Please provide" with
    | Throw e => Throw e
    | Ok true => Ok (VStr "Please provide email, Falcon Flyer number, or username")
    | Ok false => Ok message
    end end end end end end
  else if status =? 404 then Ok (VStr "Booking not found")
  else if status =? 403 then Ok (VStr "Not authorized to perform this action")
  else Ok message.

(** The response interceptor, on a response: [response.data]. *)
Definition response_fulfilled (body : jsval) : jsval := body.

(** The response interceptor, on an error: what it throws. *)
Definition response_rejected (error : axios_error) : exn :=
  match error with
  | WithResponse status data =>
      match server_error_message status data with
      | Ok message => new_Error message
      | Throw e => e
      end
  | WithRequest => Error cannot_connect
  | Neither message =>
      Error (if bool_decide (message = "")
             then "An unexpected error occurred" else message)
  end.

(** [validateStatus] of axios. *)
Definition validateStatus (status : Z) : bool :=
  (200 <=? status) && (status <? 300).

(** The adapter: the request goes on the wire; axios gives up, with no
    response, when the configured timeout passes first (a timeout of 0 never
    does); a response is an error unless its status validates. *)
Definition adapter (config : request) : M (axios_error + jsval) :=
  _ ← emit (Sent config);
  '(answer, ms) ← net config;
  if (0 <? timeout config) && (timeout config <? ms) then
    _ ← wait (timeout config);
    mret (inl WithRequest)
  else
    _ ← wait (Z.max 0 ms);
    mret (match answer with
          | Responded status body =>
              if validateStatus status then inr body
              else inl (WithResponse status body)
          | NoResponse => inl WithRequest
          end).

(** One call through the shared client.  axios chains the request
    interceptor, the adapter and the response interceptor as promises: what
    the request interceptor throws skips the adapter and reaches the error
    handler of the response interceptor, as an error that has neither a
    response nor a request. *)
Definition call (method url : string) (data : jsval) : M jsval :=
  r ← try_catch
         (config ← request_interceptor (apiClient method url data);
          adapter config)
         (λ error, mret (inl (Neither (exn_message error))));
  match r with
  | inr body => mret (response_fulfilled body)
  | inl error => throw (response_rejected error)
  end.

Definition testAPIConnection : M bool :=
  try_catch (_ ← call "get" "/" VUndefined; mret true) (λ _, mret false).

Module authAPI.
Definition login (credentials : jsval) : M jsval := call "post" LOGIN credentials.
Definition register (userData : jsval) : M jsval := call "post" REGISTER userData.
Definition logout : M jsval := call "post" LOGOUT VUndefined.
Definition getProfile : M jsval := call "get" PROFILE VUndefined.
End authAPI.

Module flightsAPI.
Definition getAllFlights : M jsval := call "get" FLIGHTS VUndefined.
Definition getFlight (id : jsval) : M jsval :=
  call "get" (FLIGHTS +:+ "/" +:+ ToString id) VUndefined.
Definition searchFlights (departure arrival : jsval) : M jsval :=
  call "get" (SEARCH_FLIGHTS +:+ "/" +:+ ToString departure +:+ "/" +:+
              ToString arrival) VUndefined.
Definition getFlightStatus (flightNumber : jsval) : M jsval :=
  call "get" (FLIGHT_STATUS +:+ "/" +:+ ToString flightNumber) VUndefined.
End flightsAPI.

Module bookingsAPI.
Definition getBookings : M jsval := call "get" BOOKINGS VUndefined.
Definition createBooking (bookingData : jsval) : M jsval :=
  call "post" CREATE_BOOKING bookingData.
Definition getBooking (id : jsval) : M jsval :=
  call "get" (BOOKINGS +:+ "/" +:+ ToString id) VUndefined.
Definition cancelBooking (id : jsval) : M jsval :=
  call "delete" (BOOKINGS +:+ "/" +:+ ToString id) VUndefined.
Definition checkIn (id : jsval) : M jsval :=
  call "post" (CHECK_IN +:+ "/" +:+ ToString id +:+ "/checkin") VUndefined.
(** Declared with two parameters: further arguments of a call are dropped. *)
Definition rescheduleBooking (bookingId newFlightId : jsval)
    (_more : list jsval) : M jsval :=
  call "post" (BOOKINGS +:+ "/" +:+ ToString bookingId +:+ "/reschedule")
    (VObj {[ "new_flight_id" := newFlightId ]}).
End bookingsAPI.

Module loyaltyAPI.
Definition getStatus : M jsval := call "get" LOYALTY_STATUS VUndefined.
Definition getTiers : M jsval := call "get" LOYALTY_TIERS VUndefined.
Definition enroll (enrollmentData : jsval) : M jsval :=
  call "post" LOYALTY_ENROLL enrollmentData.
End loyaltyAPI.

(** Every function the API objects offer. *)
Inductive endpoint :=
| auth_login (credentials : jsval)
| auth_register (userData : jsval)
| auth_logout
| auth_getProfile
| flights_getAllFlights
| flights_getFlight (id : jsval)
| flights_searchFlights (departure arrival : jsval)
| flights_getFlightStatus (flightNumber : jsval)
| bookings_getBookings
| bookings_createBooking (bookingData : jsval)
| bookings_getBooking (id : jsval)
| bookings_cancelBooking (id : jsval)
| bookings_checkIn (id : jsval)
| bookings_rescheduleBooking (bookingId newFlightId : jsval) (more : list jsval)
| loyalty_getStatus
| loyalty_getTiers
| loyalty_enroll (enrollmentData : jsval).

Definition invoke (e : endpoint) : M jsval :=
  match e with
  | auth_login credentials => authAPI.login credentials
  | auth_register userData => authAPI.register userData
  | auth_logout => authAPI.logout
  | auth_getProfile => authAPI.getProfile
  | flights_getAllFlights => flightsAPI.getAllFlights
  | flights_getFlight id => flightsAPI.getFlight id
  | flights_searchFlights departure arrival =>
      flightsAPI.searchFlights departure arrival
  | flights_getFlightStatus flightNumber => flightsAPI.getFlightStatus flightNumber
  | bookings_getBookings => bookingsAPI.getBookings
  | bookings_createBooking bookingData => bookingsAPI.createBooking bookingData
  | bookings_getBooking id => bookingsAPI.getBooking id
  | bookings_cancelBooking id => bookingsAPI.cancelBooking id
  | bookings_checkIn id => bookingsAPI.checkIn id
  | bookings_rescheduleBooking bookingId newFlightId more =>
      bookingsAPI.rescheduleBooking bookingId newFlightId more
  | loyalty_getStatus => loyaltyAPI.getStatus
  | loyalty_getTiers => loyaltyAPI.getTiers
  | loyalty_enroll enrollmentData => loyaltyAPI.enroll enrollmentData
  end.

End Api.
Export Api.

(** ** [src/app/my-trips.jsx]: the screen *)

Module MyTripsScreen.
Import MyTrips.

Section screen.
Context `{DateEngine}.

(** The callback of [activeBookings.map]; the bundled picture is left out. *)
Definition transformBooking (now : Z) (booking : jsval) : res jsval :=
  id ← prop booking "id";
  id_text ← toString_method id;
  let flight := opt_prop booking "flight" in
  let departure_time := opt_prop flight "departure_time" in
  let booking_status := opt_prop booking "booking_status" in
  Ok (VObj (list_to_map [
    ("id", VStr id_text);
    ("destination",
       getDestinationName
         (or_else (opt_prop flight "arrival_airport") (VStr "Unknown")));
    ("date", VStr (formatDate departure_time));
    ("bookingReference", opt_prop booking "booking_reference");
    ("canCheckIn", VBool (canCheckIn now departure_time booking_status));
    ("checkInMessage",
       VStr (getCheckInMessage now departure_time booking_status));
    ("bookingStatus", booking_status);
    ("seatClass", opt_prop booking "seat_class");
    ("seatNumber", opt_prop booking "seat_number");
    ("passengerName", opt_prop booking "passenger_name");
    ("totalPrice", opt_prop booking "total_price");
    ("flight", flight) ])).

(** The callback of [userBookings.filter]. *)
Definition isActive (booking : jsval) : res bool :=
  booking_status ← prop booking "booking_status";
  Ok (negb (is_str booking_status "cancelled")).

Definition setBookings (l : list jsval) : M unit := emit (SetState "bookings" (VArr l)).
Definition setIsLoggedIn (b : bool) : M unit := emit (SetState "isLoggedIn" (VBool b)).
Definition setIsLoading (b : bool) : M unit := emit (SetState "isLoading" (VBool b)).

Definition isAuthError (message : string) : bool :=
  includes message "401" || includes message "403" ||
  includes message "unauthorized" || includes message "Not authenticated" ||
  includes message "Authentication failed".

Definition loadUserBookings : M unit :=
  try_catch
    (started ← elapsed_now;
     let deadline := started + 10000 in
     isConnected ← race deadline testAPIConnection;
     if negb isConnected then
       _ ← setBookings []; _ ← setIsLoggedIn false; setIsLoading false
     else
       token ← getAuthToken;
       if negb (truthy token) then
         _ ← setIsLoggedIn false; setBookings []
       else
         userBookings ← race deadline bookingsAPI.getBookings;
         activeBookings ← of_res (array_filter userBookings isActive);
         now ← Date_now;
         transformedBookings ← of_res (array_map (transformBooking now) activeBookings);
         _ ← setBookings transformedBookings;
         _ ← setIsLoggedIn true;
         setIsLoading false)
    (λ error,
       if isAuthError (exn_message error) then
         _ ← setIsLoggedIn false; setBookings []
       else
         _ ← setIsLoggedIn true; setBookings []).

Definition checkAuthAndLoadBookings : M unit :=
  try_catch
    (_ ← setIsLoading true;
     token ← getAuthToken;
     if negb (truthy token) then
       _ ← setIsLoggedIn false; setIsLoading false
     else loadUserBookings)
    (λ _, _ ← setIsLoggedIn false; setIsLoading false).

(** The pictograph of the alert titles, as the bytes of the source file. *)
Definition party : string := "ðŸŽ‰".

(** The rewards summary of [handleCheckIn]: title and message. *)
Definition rewardsSummary (rewards tierUpgrade : jsval) : res (string * string) :=
  miles_earned ← prop rewards "miles_earned";
  points_earned ← prop rewards "points_earned";
  flight_distance ← prop rewards "flight_distance";
  seat_class ← prop rewards "seat_class";
  seat_class_text ←
    match seat_class with
    | VStr sc => Ok (capitalize sc)
    | _ => Throw TypeError
    end;
  loyalty_tier ← prop rewards "loyalty_tier";
  total_miles ← prop rewards "total_miles";
  total_points ← prop rewards "total_points";
  let message :=
    "You've earned " +:+ ToString miles_earned +:+ " miles and " +:+
    ToString points_earned +:+ " points!" +:+ nl +:+ nl +:+
    "Flight: " +:+ ToString flight_distance +:+ " miles" +:+ nl +:+
    "Seat Class: " +:+ seat_class_text +:+ nl +:+
    "Loyalty Tier: " +:+ ToString loyalty_tier +:+ nl +:+ nl +:+
    "Total Miles: " +:+ ToString total_miles +:+ nl +:+
    "Total Points: " +:+ ToString total_points in
  let title := "Check-in Successful! " +:+ party in
  if truthy tierUpgrade && truthy (opt_prop tierUpgrade "upgraded") then
    let new_tier := ToString (opt_prop tierUpgrade "new_tier") in
    Ok (party +:+ " TIER UPGRADE! " +:+ party,
        "CONGRATULATIONS! You've been upgraded to " +:+ new_tier +:+
        " tier!" +:+ nl +:+ nl +:+
        "Previous Tier: " +:+ ToString (opt_prop tierUpgrade "old_tier") +:+ nl +:+
        "New Tier: " +:+ new_tier +:+ nl +:+ nl +:+
        "You earned " +:+ ToString miles_earned +:+ " miles and " +:+
        ToString points_earned +:+ " points!" +:+ nl +:+
        "Total Miles: " +:+ ToString total_miles +:+ nl +:+ nl +:+
        "Enjoy your new " +:+ new_tier +:+ " benefits!")
  else if truthy tierUpgrade && truthy (opt_prop tierUpgrade "next_tier_threshold") then
    let pointsToNext := minus (opt_prop tierUpgrade "next_tier_threshold") total_points in
    Ok (title, message +:+ nl +:+ nl +:+ "Points to next tier: " +:+ ToString pointsToNext)
  else Ok (title, message).

Definition handleCheckIn (bookingId : jsval) : M unit :=
  try_catch
    (response ← bookingsAPI.checkIn bookingId;
     response_data ← of_res (prop response "data");
     shown ←
       (if truthy response_data && truthy (opt_prop response_data "loyalty_rewards")
        then
          '(title, message) ←
             of_res (rewardsSummary (opt_prop response_data "loyalty_rewards")
                                    (opt_prop response_data "tier_upgrade"));
          emit (Alert title message)
        else emit (Alert "Success" "Check-in completed successfully!"));
     loadUserBookings)
    (λ error,
       let message := exn_message error in
       emit (Alert "Error"
               (if bool_decide (message = "")
                then "Check-in failed. Please try again." else message))).

End screen.
End MyTripsScreen.

(** ** The manage-booking screen *)

Module ManageBookingScreen.

Definition handleRescheduleBooking
    (booking selectedNewFlight selectedSeatClass selectedSeatNumber : jsval)
  : M unit :=
  if negb (truthy selectedNewFlight) then
    emit (Alert "Error" "Please select a new flight.")
  else
    try_catch
      (booking_id ← of_res (prop booking "id");
       new_flight_id ← of_res (prop selectedNewFlight "id");
       seat_class ←
         (if truthy selectedSeatClass then mret selectedSeatClass
          else of_res (prop booking "seat_class"));
       seat_number ←
         (if truthy selectedSeatNumber then mret selectedSeatNumber
          else of_res (prop booking "seat_number"));
       response ←
         bookingsAPI.rescheduleBooking booking_id new_flight_id
           [seat_class; seat_number];
       emit (Alert "Reschedule Successful"
               ("Your booking has been rescheduled successfully! New flight: " +:+
                ToString (opt_prop selectedNewFlight "flight_number"))))
      (λ error,
         let msg := toLowerCase (exn_message error) in
         if includes msg "already cancelled" ||
            includes msg "cannot reschedule a cancelled" then
           emit (Alert "Booking Updated"
                   "This booking was already rescheduled or cancelled. Returning to My Trips to refresh your bookings.")
         else
           emit (Alert "Reschedule Error"
                   (if bool_decide (exn_message error = "")
                    then "Failed to reschedule booking. Please try again."
                    else exn_message error))).

End ManageBookingScreen.

(** ** [src/app/book.jsx]: the booking form and the cancel screen *)

Module BookScreen.

(** The state the confirm button reads. *)
Record form := {
  passengerName : string;
  passengerEmail : string;
  passportNumber : string;
  selectedSeat : jsval;       (* [null] until a seat is picked *)
  seatClass : string;         (* ['economy'] or ['falcon_gold'] *)
  selectedFlight : jsval;
  reschedule : jsval          (* route parameter *)
}.

Definition createBooking (f : form) (bookingData : jsval) : M unit :=
  try_catch
    (_ ← emit (ConsoleLog "Creating booking with data:");
     token ← getAuthToken;
     if negb (truthy token) then
       _ ← emit (Alert "Authentication Required" "Please log in to create a booking.");
       emit (Push "/login")
     else
       let backendSeatClass :=
         if bool_decide (seatClass f = "falcon_gold") then "business" else "economy" in
       price ← of_res (prop (selectedFlight f)
                         (if bool_decide (backendSeatClass = "economy")
                          then "economyPrice" else "businessPrice"));
       let bookingPayload := VObj (list_to_map [
         ("flight_id", opt_prop (selectedFlight f) "id");
         ("passenger_name", opt_prop bookingData "passengerName");
         ("passenger_email", opt_prop bookingData "passengerEmail");
         ("passport_number", opt_prop bookingData "passportNumber");
         ("seat_class", VStr backendSeatClass);
         ("seat_number", opt_prop bookingData "seatNumber");
         ("total_price", price) ]) in
       booking ← bookingsAPI.createBooking bookingPayload;
       booking_reference ← of_res (prop booking "booking_reference");
       let successMessage :=
         if is_str (reschedule f) "true" then
           "Your flight has been successfully rescheduled! New booking reference: " +:+
           ToString booking_reference
         else
           "Your booking has been confirmed! Reference: " +:+
           ToString booking_reference in
       _ ← emit (Alert "Booking Confirmed" successMessage);
       _ ← emit (SetState "showBookingModal" (VBool false));
       _ ← emit (SetState "searchResults" (VArr []));
       emit (After 500 (Replace "/my-trips")))
    (λ error,
       emit (Alert "Booking Error"
               (if bool_decide (exn_message error = "")
                then "Failed to create booking. Please try again."
                else exn_message error))).

(** [onPress] of the confirm-booking button. *)
Definition confirmBooking (f : form) : M unit :=
  if bool_decide (trim (passengerName f) = "") then
    emit (Alert "Validation Error" "Please enter passenger name")
  else if bool_decide (trim (passengerEmail f) = "") then
    emit (Alert "Validation Error" "Please enter email address")
  else if bool_decide (trim (passportNumber f) = "") then
    emit (Alert "Validation Error" "Please enter passport number")
  else if negb (truthy (selectedSeat f)) then
    emit (Alert "Validation Error" "Please select a seat")
  else if negb (emailRegex_test (passengerEmail f)) then
    emit (Alert "Validation Error" "Please enter a valid email address")
  else
    let bookingData := VObj (list_to_map [
      ("passengerName", VStr (trim (passengerName f)));
      ("passengerEmail", VStr (trim (passengerEmail f)));
      ("passportNumber", VStr (trim (passportNumber f)));
      ("seatNumber", selectedSeat f) ]) in
    createBooking f bookingData.

(** The [disabled] property of the button: a press reaches [onPress] only
    when it is unset. *)
Definition confirmDisabled (f : form) : bool :=
  bool_decide (trim (passengerName f) = "") ||
  bool_decide (trim (passengerEmail f) = "") ||
  bool_decide (trim (passportNumber f) = "") ||
  negb (truthy (selectedSeat f)).

End BookScreen.

Module CancelBookingScreen.

Definition already_cancelled_text : string :=
  "This booking has already been cancelled.".

Definition handleCancelBooking (booking : jsval) : M unit :=
  if is_str (opt_prop booking "booking_status") "cancelled" then
    emit (Alert "Already Cancelled" already_cancelled_text)
  else
    finally
      (try_catch
         (_ ← emit (SetState "isCancelling" (VBool true));
          booking_id ← of_res (prop booking "id");
          _ ← bookingsAPI.cancelBooking booking_id;
          emit (Alert "Booking Cancelled"
                  "Your booking has been cancelled successfully. Refund will be processed within 5-7 business days."))
         (λ error,
            let message := exn_message error in
            if includes message "already cancelled" then
              emit (Alert "Already Cancelled" already_cancelled_text)
            else if includes message "not found" then
              emit (Alert "Error" "Booking not found. It may have already been cancelled.")
            else if includes message "cannot be cancelled" then
              emit (Alert "Error" "This booking cannot be cancelled at this time.")
            else
              emit (Alert "Error" "Failed to cancel booking. Please try again.")))
      (emit (SetState "isCancelling" (VBool false))).

End CancelBookingScreen.

(** ** [src/app/login.jsx] and [src/app/menu.jsx] *)

Module LoginScreen.

Record form := {
  isLoading : bool;
  loginMethod : string;         (* ['falconFlyer'] or ['email'] *)
  falconFlyerNumber : string;
  email : string;
  password : string
}.

Definition handleLogin (f : form) : M unit :=
  if isLoading f then mret ()
  else if bool_decide (loginMethod f = "falconFlyer") &&
          bool_decide (trim (falconFlyerNumber f) = "") then
    emit (Alert "Error" "Please enter your Falcon Flyer number")
  else if bool_decide (loginMethod f = "email") &&
          bool_decide (trim (email f) = "") then
    emit (Alert "Error" "Please enter your email address")
  else if bool_decide (trim (password f) = "") then
    emit (Alert "Error" "Please enter your password")
  else
    _ ← emit (SetState "isLoading" (VBool true));
    finally
      (try_catch
         (isConnected ← testAPIConnection;
          if negb isConnected then
            emit (Alert "Connection Error" cannot_connect)
          else
            let loginData :=
              if bool_decide (loginMethod f = "falconFlyer") then
                VObj (list_to_map [
                  ("password", VStr (password f));
                  ("falcon_flyer_number", VStr (falconFlyerNumber f)) ])
              else
                VObj (list_to_map [
                  ("password", VStr (password f));
                  ("email", VStr (email f)) ]) in
            response ← authAPI.login loginData;
            token ← of_res (prop response "token");
            _ ← (if truthy token then setAuthToken token else mret ());
            emit (Push "/dashboard"))
         (λ error,
            emit (Alert "Error"
                    (if bool_decide (exn_message error = "")
                     then "Login failed. Please try again."
                     else exn_message error))))
      (emit (SetState "isLoading" (VBool false))).

End LoginScreen.

Module MenuScreen.

Definition handleLogout : M unit :=
  try_catch
    (_ ← try_catch (_ ← authAPI.logout; mret ()) (λ _, mret ());
     _ ← clearAuthToken;
     _ ← emit (Alert "Logged out" "You have been signed out.");
     emit (Replace "/login"))
    (λ error,
       emit (Alert "Logout Failed"
               (if bool_decide (exn_message error = "")
                then "Please try again." else exn_message error))).

End MenuScreen.

(** ** Calendar dates as text *)

(** How a calendar date reads in the date-only form [YYYY-MM-DD], to state
    what [formatDate] makes of one. *)
Module Calendar.

Definition digit_char (n : Z) : ascii := ascii_of_nat (48 + Z.to_nat n).

Definition pad2 (n : Z) : string :=
  String (digit_char (n / 10)) (String (digit_char (n mod 10)) "").

Definition pad4 (n : Z) : string :=
  String (digit_char (n / 1000))
    (String (digit_char (n / 100 mod 10))
       (String (digit_char (n / 10 mod 10))
          (String (digit_char (n mod 10)) ""))).

Definition date_only_string (y m d : Z) : string :=
  pad4 y +:+ "-" +:+ pad2 m +:+ "-" +:+ pad2 d.

Definition daysInMonth (y m : Z) : Z :=
  match m with
  | 2 => if ESDate.DaysInYear y =? 366 then 29 else 28
  | 4 | 6 | 9 | 11 => 30
  | _ => 31
  end.

(** The text after the last dot of a timestamp with more than three
    fractional digits: three digits, then one digit or more, then the end. *)
Definition long_fraction (a b c : ascii) (rest : string) : Prop :=
  is_digit a = true ∧ is_digit b = true ∧ is_digit c = true ∧
  rest ≠ "" ∧ all_digits rest = true.

(** [HH:mm:ss], by its shape. *)
Definition is_time_of_day (s : string) : bool :=
  match s with
  | String h1 (String h2 (String c1 (String m1 (String m2 (String c2
      (String s1 (String s2 ""))))))) =>
      is_digit h1 && is_digit h2 && bool_decide (c1 = ":"%char) &&
      is_digit m1 && is_digit m2 && bool_decide (c2 = ":"%char) &&
      is_digit s1 && is_digit s2
  | _ => false
  end.

(** The end of a timestamp after its seconds: nothing, [Z], [+HH:mm] or
    [-HH:mm], by its shape. *)
Definition is_zone (s : string) : bool :=
  match s with
  | "" => true
  | String z "" => bool_decide (z = "Z"%char)
  | String sign (String h1 (String h2 (String c (String m1 (String m2 ""))))) =>
      (bool_decide (sign = "+"%char) || bool_decide (sign = "-"%char)) &&
      is_digit h1 && is_digit h2 && bool_decide (c = ":"%char) &&
      is_digit m1 && is_digit m2
  | _ => false
  end.

(** What follows a fraction starts with no digit. *)
Definition no_digit_ahead (z : string) : Prop :=
  match z with
  | "" => True
  | String c _ => is_digit c = false
  end.

(** A date of the calendar, with a four-digit year. *)
Definition valid_date (y m d : Z) : Prop :=
  0 <= y <= 9999 ∧ 1 <= m <= 12 ∧ 1 <= d <= daysInMonth y m.

(** The day before a date of the calendar: year, month and day. *)
Definition day_before (y m d : Z) : Z * Z * Z :=
  if 2 <=? d then (y, m, d - 1)
  else if 2 <=? m then (y, m - 1, daysInMonth y (m - 1))
  else (y - 1, 12, 31).

End Calendar.

(** ** The application as a whole *)

Module App.
Section app.
Context `{DateEngine}.

(** What the user can set off, on any screen; [Other] is any further call
    of an API function (flights, loyalty, profile, a single booking). *)
Inductive action :=
| Login (f : LoginScreen.form)
| Logout
| OpenMyTrips
| CheckIn (bookingId : jsval)
| Reschedule (booking selectedNewFlight selectedSeatClass selectedSeatNumber : jsval)
| ConfirmBooking (f : BookScreen.form)
| CancelBooking (booking : jsval)
| Other (e : endpoint).

Definition perform (a : action) : M unit :=
  match a with
  | Login f => LoginScreen.handleLogin f
  | Logout => MenuScreen.handleLogout
  | OpenMyTrips => MyTripsScreen.checkAuthAndLoadBookings
  | CheckIn bookingId => MyTripsScreen.handleCheckIn bookingId
  | Reschedule booking flight seatClass seatNumber =>
      ManageBookingScreen.handleRescheduleBooking booking flight seatClass seatNumber
  | ConfirmBooking f => BookScreen.confirmBooking f
  | CancelBooking booking => CancelBookingScreen.handleCancelBooking booking
  | Other e =>
      try_catch (_ ← invoke e; mret ()) (λ _, mret ())
  end.



End app.
End App.

(** ** Reading a run *)

Module Run.

(** A world at the start of a handler: nothing traced, no time passed. *)
Definition fresh (token : jsval) (net : request → reply) (lat : request → Z)
    (t0 : Z) : World :=
  {| authToken := token; transport := net; latency := lat;
     startTime := t0; elapsed := 0; trace := [] |}.

(** The requests put on the wire, in order. *)
Definition requests_of (tr : list event) : list request :=
  omap (λ e, match e with Sent r => Some r | _ => None end) tr.

(** The alerts shown, in order. *)
Definition alerts_of (tr : list event) : list (string * string) :=
  omap (λ e, match e with Alert t m => Some (t, m) | _ => None end) tr.

(** The values given to a state setter, in order. *)
Definition states_of (name : string) (tr : list event) : list jsval :=
  omap (λ e, match e with
             | SetState n v => if bool_decide (n = name) then Some v else None
             | _ => None
             end) tr.

(** A stored token that the request interceptor gets past: none (a falsy
    value), or a text.  On every other value the interceptor fails, and the
    call sends nothing. *)
Definition sendable (token : jsval) : bool :=
  match token with
  | VStr _ => true
  | _ => negb (truthy token)
  end.

(** What a call throws when the request interceptor has failed: the error
    the response interceptor makes of the [TypeError]. *)
Definition not_sent : exn := response_rejected (Neither (exn_message TypeError)).

(** The request a call makes in a world: the defaults of the client, and the
    bearer header when a token is stored. *)
Definition request_in (w : World) (method url : string) (data : jsval) : request :=
  {| method := method; url := url; data := data;
     baseURL := API_BASE_URL; timeout := 15000;
     Authorization :=
       if truthy (authToken w) then Some ("Bearer " +:+ ToString (authToken w))
       else None |}.

(** The world after a call that was sent has been answered or given up. *)
Definition after_call (w : World) (config : request) : World :=
  set_elapsed
    (elapsed w + (if 15000 <? latency w config then 15000
                  else Z.max 0 (latency w config)))
    (set_trace (trace w ++ [Sent config]) w).

(** What a call that was sent gets for that request: the body of a response
    that came in time with a status that validates, an error otherwise. *)
Definition answer (w : World) (config : request) : res jsval :=
  if 15000 <? latency w config then Throw (Error cannot_connect)
  else match transport w config with
       | Responded status body =>
           if validateStatus status then Ok body
           else Throw (response_rejected (WithResponse status body))
       | NoResponse => Throw (Error cannot_connect)
       end.

(** The message of the error thrown for a response with status 400 whose
    body gave [text]: the tests of the response interceptor, in its order. *)
Definition message_for_400 (text : string) : string :=
  if includes text "already cancelled" || includes text "cancelled"
  then "Booking already cancelled"
  else if includes text "not found" then "Booking not found"
  else if includes text "cannot be cancelled"
  then "Booking cannot be cancelled at this time"
  else if includes text "Invalid credentials" then "Invalid credentials"
  else if includes text "Please provide"
  then "Please provide email, Falcon Flyer number, or username"
  else text.

(** The first request of a trace that goes to [path]. *)
Definition request_to (path : string) (tr : list event) : option request :=
  head (List.filter (λ r, bool_decide (url r = path)) (requests_of tr)).

(** A computation leaves an observation of the world as it was. *)
Definition preserves {X A} (obs : World → X) (m : M A) : Prop :=
  ∀ w, obs (m w).2 = obs w.

(** A stored token is absent ([undefined] or [null]). *)
Definition absent (v : jsval) : bool :=
  match v with VUndefined | VNull => true | _ => false end.

(** What the confirm button asks of the form: name, email and passport number
    not blank, a seat picked, the email of the shape of an address. *)
Definition valid_form (f : BookScreen.form) : bool :=
  negb (bool_decide (trim (BookScreen.passengerName f) = "")) &&
  negb (bool_decide (trim (BookScreen.passengerEmail f) = "")) &&
  negb (bool_decide (trim (BookScreen.passportNumber f) = "")) &&
  truthy (BookScreen.selectedSeat f) &&
  emailRegex_test (BookScreen.passengerEmail f).

(** The object the confirm button hands to [createBooking]. *)
Definition bookingData_of (f : BookScreen.form) : jsval :=
  VObj (list_to_map [
    ("passengerName", VStr (trim (BookScreen.passengerName f)));
    ("passengerEmail", VStr (trim (BookScreen.passengerEmail f)));
    ("passportNumber", VStr (trim (BookScreen.passportNumber f)));
    ("seatNumber", BookScreen.selectedSeat f) ]).

(** The body [createBooking] posts for a valid form. *)
Definition bookingPayload_of (f : BookScreen.form) : jsval :=
  let backendSeatClass :=
    if bool_decide (BookScreen.seatClass f = "falcon_gold") then "business"
    else "economy" in
  VObj (list_to_map [
    ("flight_id", opt_prop (BookScreen.selectedFlight f) "id");
    ("passenger_name", VStr (trim (BookScreen.passengerName f)));
    ("passenger_email", VStr (trim (BookScreen.passengerEmail f)));
    ("passport_number", VStr (trim (BookScreen.passportNumber f)));
    ("seat_class", VStr backendSeatClass);
    ("seat_number", BookScreen.selectedSeat f);
    ("total_price",
       opt_prop (BookScreen.selectedFlight f)
         (if bool_decide (backendSeatClass = "economy")
          then "economyPrice" else "businessPrice")) ]).

(** The first thing [createBooking] does: the mark of its having been called. *)
Definition entered_createBooking : event :=
  ConsoleLog "Creating booking with data:".

(** A booking that My Trips keeps: its status is not ['cancelled']. *)
Definition activeb (b : jsval) : bool :=
  negb (is_str (opt_prop b "booking_status") "cancelled").

End Run.
Export Run.

(** ** Sample data *)

Module Samples.

(** A backend that answers every request at once with status 200: the
    connection test with an empty object, everything else with [body]. *)
Definition backend (body : jsval) (r : request) : reply :=
  if bool_decide (url r = "/") then Responded 200 (VObj ∅)
  else Responded 200 body.

Definition three_bookings : list jsval :=
  [ VObj (list_to_map [("id", VNum 1); ("booking_status", VStr "confirmed");
                       ("booking_reference", VStr "GF7K2Q")]);
    VObj (list_to_map [("id", VNum 2); ("booking_status", VStr "cancelled");
                       ("booking_reference", VStr "GF1A9Z")]);
    VObj (list_to_map [("id", VNum 3); ("booking_status", VStr "checked_in");
                       ("booking_reference", VStr "GF5M3D")]) ].

Definition rewards_body : gmap string jsval :=
  list_to_map [
    ("loyalty_rewards",
       VObj (list_to_map [("miles_earned", VNum 4500); ("points_earned", VNum 30);
                          ("flight_distance", VNum 3000);
                          ("seat_class", VStr "business");
                          ("loyalty_tier", VStr "SILVER");
                          ("total_miles", VNum 12500);
                          ("total_points", VNum 1010)]));
    ("tier_upgrade",
       VObj (list_to_map [("upgraded", VBool true); ("old_tier", VStr "SILVER");
                          ("new_tier", VStr "GOLD")])) ].

End Samples.
Export Samples.

(** * More of the screens *)

(** ** Further built-ins *)

Module Builtins.

(** The value of [c] as a digit of [radix], for [radix] up to 36. *)
Definition digit_in (radix : Z) (c : ascii) : option Z :=
  let n := Z.of_nat (nat_of_ascii c) in
  d ← (if (48 <=? n) && (n <=? 57) then Some (n - 48)
       else if (97 <=? n) && (n <=? 122) then Some (n - 87)
       else if (65 <=? n) && (n <=? 90) then Some (n - 55)
       else None);
  if d <? radix then Some d else None.

(** The number written by the longest prefix of [s] made of digits of
    [radix]; [acc] is what has been read, [None] as long as nothing has. *)
Fixpoint leading_digits (radix : Z) (acc : option Z) (s : string) : option Z :=
  match s with
  | String c r =>
      match digit_in radix c with
      | Some d => leading_digits radix (Some (default 0 acc * radix + d)) r
      | None => acc
      end
  | "" => acc
  end.

(** [parseInt(v)], no radix given: leading white space is skipped, a sign is
    read, a prefix [0x] or [0X] switches to radix 16, and the digits that
    follow are read as far as they go; [NaN] when there is none.  The result
    is the exact integer, which is the number the engine returns below
    2^53. *)
Definition parseInt (v : jsval) : jsval :=
  let s := trimStart (ToString v) in
  let '(sign, s) :=
    match s with
    | String c r =>
        if bool_decide (c = "-"%char) then (-1, r)
        else if bool_decide (c = "+"%char) then (1, r)
        else (1, s)
    | "" => (1, s)
    end in
  let '(radix, s) :=
    match s with
    | String z (String x r) =>
        if bool_decide (z = "0"%char) &&
           (bool_decide (x = "x"%char) || bool_decide (x = "X"%char))
        then (16, r) else (10, s)
    | _ => (10, s)
    end in
  of_number (n ← leading_digits radix None s; Some (sign * n)).

(** [a === b], for operands that are not one and the same object: an array or
    an object is identical to itself only, and [NaN] to nothing. *)
Definition strict_equal (a b : jsval) : bool :=
  match a, b with
  | VUndefined, VUndefined | VNull, VNull => true
  | VBool x, VBool y => bool_decide (x = y)
  | VNum x, VNum y => x =? y
  | VStr x, VStr y => bool_decide (x = y)
  | _, _ => false
  end.

(** [s.split(c)[0]]: the text before the first [c], all of [s] without one. *)
Fixpoint before (c : ascii) (s : string) : string :=
  match s with
  | "" => ""
  | String x r => if bool_decide (x = c) then "" else String x (before c r)
  end.

Fixpoint fill (n : nat) (c : ascii) (s : string) : string :=
  match n with
  | O => s
  | S n' => String c (fill n' c s)
  end.

(** [s.padStart(targetLength, c)] for a pad string of the one character
    [c]. *)
Definition padStart (targetLength : nat) (c : ascii) (s : string) : string :=
  fill (targetLength - String.length s) c s.

(** [Object.keys(v)] where the keys are only logged: what is left of it is
    the [TypeError] on [undefined] and [null]. *)
Definition Object_keys (v : jsval) : res unit :=
  match v with
  | VUndefined | VNull => Throw TypeError
  | _ => Ok ()
  end.

(** A call of an async function that is not awaited.  The body runs up to its
    first [await] and the caller holds the promise, an object whatever the
    body comes to; of the functions called so here, [getAuthToken] awaits
    nothing, so all of its body has run.  The code only tests the promise
    for truthiness. *)
Definition unawaited {A} (m : M A) : M jsval := λ w,
  let '(_, w') := m w in (Ok (VObj ∅), w').

End Builtins.
Export Builtins.

(** ** The sign-up screen ([src/app/my-trips.jsx], second component) *)

Module SignupScreen.

Record form := {
  firstName : string;
  lastName : string;
  email : string;
  phoneNumber : string;
  password : string;
  confirmPassword : string;
  isLoading : bool
}.

Definition handleSignup (f : form) : M unit :=
  if isLoading f then mret ()
  else if bool_decide (trim (firstName f) = "") then
    emit (Alert "Error" "Please enter your first name")
  else if bool_decide (trim (lastName f) = "") then
    emit (Alert "Error" "Please enter your last name")
  else if bool_decide (trim (email f) = "") then
    emit (Alert "Error" "Please enter your email address")
  else if negb (includes (email f) "@") then
    emit (Alert "Error" "Please enter a valid email address")
  else if bool_decide (trim (password f) = "") then
    emit (Alert "Error" "Please enter your password")
  else if (String.length (password f) <? 6)%nat then
    emit (Alert "Error" "Password must be at least 6 characters long")
  else if negb (bool_decide (password f = confirmPassword f)) then
    emit (Alert "Error" "Passwords do not match")
  else
    _ ← emit (SetState "isLoading" (VBool true));
    finally
      (try_catch
         (isConnected ← testAPIConnection;
          if negb isConnected then
            emit (Alert "Connection Error" cannot_connect)
          else
            let emailUsername := before "@" (trim (email f)) in
            let signupData := VObj (list_to_map [
              ("username", VStr emailUsername);
              ("first_name", VStr (trim (firstName f)));
              ("last_name", VStr (trim (lastName f)));
              ("email", VStr (trim (email f)));
              ("phone_number", or_else (VStr (trim (phoneNumber f))) VNull);
              ("password", VStr (password f)) ]) in
            response ← authAPI.register signupData;
            _ ← emit (Alert "Success" "Account created successfully! Please sign in.");
            emit (Push "/login"))
         (λ error,
            emit (Alert "Error"
                    (if bool_decide (exn_message error = "")
                     then "Registration failed. Please try again."
                     else exn_message error))))
      (emit (SetState "isLoading" (VBool false))).

End SignupScreen.

(** ** The manage-booking screen: loading, dates, flights to move to *)

Module ManageBooking.

(** [Math.round]: the nearest integer, ties upwards. *)
Definition Math_round (x : Q) : Z := Qfloor (x + (1 # 2))%Q.

Definition loadBookingDetails (bookingId : jsval) : M unit :=
  finally
    (try_catch
       (_ ← emit (SetState "isLoading" (VBool true));
        token ← unawaited getAuthToken;
        if negb (truthy token) then
          _ ← emit (Alert "Authentication Required"
                      "Please log in to manage your booking.");
          emit (Replace "/login")
        else
          let numericBookingId := parseInt bookingId in
          response ← bookingsAPI.getBooking numericBookingId;
          _ ← of_res (Object_keys response);
          let bookingData := response in
          emit (SetState "booking" bookingData))
       (λ error,
          _ ← emit (Alert "Error"
                      ("Failed to load booking details: " +:+
                       (if bool_decide (exn_message error = "")
                        then "Unknown error" else exn_message error)));
          emit Back))
    (emit (SetState "isLoading" (VBool false))).

Section dates.
Context `{DateEngine}.

(** [parseDate] of a value that is no [Date]; [None] is its [null]. *)
Definition parseDate (dateInput : jsval) : option Z :=
  if negb (truthy dateInput) then None
  else
    let str := ToString dateInput in
    let str := replace_micros str in
    let str := if is_date_only str then str +:+ "T12:00:00" else str in
    Date_parse str.

(** The quotient by [1000 * 60] is kept exact; for time values four-digit
    years apart the double the code computes rounds as the exact one. *)
Definition getFlightDuration (startStr endStr : jsval) : string :=
  match parseDate startStr, parseDate endStr with
  | Some start, Some end_ =>
      let diffMs := Z.max 0 (end_ - start) in
      let totalMinutes := Math_round (Qmake diffMs (1000 * 60)) in
      let hours := totalMinutes / 60 in
      let minutes := Z.rem totalMinutes 60 in
      pretty hours +:+ "h " +:+ pretty minutes +:+ "m"
  | _, _ => "N/A"
  end.

(** [flightDate > currentDate] for a [Date] that may be invalid. *)
Definition later (flightDate : option Z) (currentDate : Z) : bool :=
  match flightDate with
  | Some t => currentDate <? t
  | None => false
  end.

(** The callback of [flights.filter]. *)
Definition isAvailable (booking : jsval) (currentDate : Z) (flight : jsval)
  : res bool :=
  departure_time ← prop flight "departure_time";
  let flightDate := new_Date departure_time in
  id ← prop flight "id";
  booking_flight ← prop booking "flight";
  booking_flight_id ← prop booking_flight "id";
  Ok (negb (strict_equal id booking_flight_id) && later flightDate currentDate).

Definition loadAvailableFlights (booking : jsval) : M unit :=
  if negb (truthy (opt_prop booking "flight")) then mret ()
  else
    _ ← emit (SetState "isLoadingFlights" (VBool true));
    finally
      (try_catch
         (booking_flight ← of_res (prop booking "flight");
          departure_airport ← of_res (prop booking_flight "departure_airport");
          arrival_airport ← of_res (prop booking_flight "arrival_airport");
          flights ← flightsAPI.searchFlights departure_airport arrival_airport;
          currentDate ← Date_now;
          availableFlights ←
            of_res (array_filter flights (isAvailable booking currentDate));
          emit (SetState "availableFlights" (VArr availableFlights)))
         (λ error,
            emit (Alert "Error"
                    "Failed to load available flights. Please try again.")))
      (emit (SetState "isLoadingFlights" (VBool false))).

End dates.
End ManageBooking.

(** ** The cancel screen: loading the booking *)

Module CancelBooking.

Definition loadBookingDetails (bookingId : jsval) : M unit :=
  finally
    (try_catch
       (_ ← emit (SetState "isLoading" (VBool true));
        token ← unawaited getAuthToken;
        if negb (truthy token) then
          _ ← emit (Alert "Authentication Required"
                      "Please log in to manage your booking.");
          emit (Replace "/login")
        else
          let numericBookingId := parseInt bookingId in
          response ← bookingsAPI.getBooking numericBookingId;
          emit (SetState "booking" response))
       (λ error,
          _ ← emit (Alert "Error"
                      ("Failed to load booking details: " +:+
                       (if bool_decide (exn_message error = "")
                        then "Unknown error" else exn_message error)));
          emit Back))
    (emit (SetState "isLoading" (VBool false))).

End CancelBooking.

(** ** [src/app/falcon-flyer.jsx]: the loyalty dashboard *)

Module FalconflyerDashboard.

(** The object [loyaltyAPI] of [src/utils/api.js], by the names of its
    members. *)
Definition loyaltyAPI_member (name : string) : option (list jsval → M jsval) :=
  if bool_decide (name = "getStatus") then Some (λ _, loyaltyAPI.getStatus)
  else if bool_decide (name = "getTiers") then Some (λ _, loyaltyAPI.getTiers)
  else if bool_decide (name = "enroll") then
    Some (λ args, loyaltyAPI.enroll (default VUndefined (head args)))
  else None.

(** [object.name(...args)]: calling what the object does not have is a
    [TypeError]. *)
Definition call_member (object : string → option (list jsval → M jsval))
    (name : string) (args : list jsval) : M jsval :=
  match object name with
  | Some f => f args
  | None => throw TypeError
  end.

Definition loadLoyaltyData : M unit :=
  finally
    (try_catch
       (_ ← emit (SetState "isLoading" (VBool true));
        token ← unawaited getAuthToken;
        if negb (truthy token) then
          _ ← emit (SetState "isLoggedIn" (VBool false));
          emit (SetState "isLoading" (VBool false))
        else
          _ ← emit (SetState "isLoggedIn" (VBool true));
          response ← call_member loyaltyAPI_member "getLoyaltyData" [];
          emit (SetState "loyaltyData" response))
       (λ error,
          emit (Alert "Error" "Failed to load loyalty data. Please try again.")))
    (emit (SetState "isLoading" (VBool false))).

End FalconflyerDashboard.

(** ** Reading the forms *)

Module Forms.

(** What [handleLogin] asks of the form: the identifier of the chosen method
    and the password, neither blank. *)
Definition valid_login (f : LoginScreen.form) : bool :=
  negb (bool_decide (LoginScreen.loginMethod f = "falconFlyer") &&
        bool_decide (trim (LoginScreen.falconFlyerNumber f) = "")) &&
  negb (bool_decide (LoginScreen.loginMethod f = "email") &&
        bool_decide (trim (LoginScreen.email f) = "")) &&
  negb (bool_decide (trim (LoginScreen.password f) = "")).

(** The body [handleLogin] posts. *)
Definition loginData_of (f : LoginScreen.form) : jsval :=
  if bool_decide (LoginScreen.loginMethod f = "falconFlyer") then
    VObj (list_to_map [
      ("password", VStr (LoginScreen.password f));
      ("falcon_flyer_number", VStr (LoginScreen.falconFlyerNumber f)) ])
  else
    VObj (list_to_map [
      ("password", VStr (LoginScreen.password f));
      ("email", VStr (LoginScreen.email f)) ]).

(** What [handleSignup] asks of the form. *)
Definition valid_signup (f : SignupScreen.form) : bool :=
  negb (bool_decide (trim (SignupScreen.firstName f) = "")) &&
  negb (bool_decide (trim (SignupScreen.lastName f) = "")) &&
  negb (bool_decide (trim (SignupScreen.email f) = "")) &&
  includes (SignupScreen.email f) "@" &&
  negb (bool_decide (trim (SignupScreen.password f) = "")) &&
  (6 <=? String.length (SignupScreen.password f))%nat &&
  bool_decide (SignupScreen.password f = SignupScreen.confirmPassword f).

(** The body [handleSignup] posts. *)
Definition signupData_of (f : SignupScreen.form) : jsval :=
  VObj (list_to_map [
    ("username", VStr (before "@" (trim (SignupScreen.email f))));
    ("first_name", VStr (trim (SignupScreen.firstName f)));
    ("last_name", VStr (trim (SignupScreen.lastName f)));
    ("email", VStr (trim (SignupScreen.email f)));
    ("phone_number",
       if bool_decide (trim (SignupScreen.phoneNumber f) = "") then VNull
       else VStr (trim (SignupScreen.phoneNumber f)));
    ("password", VStr (SignupScreen.password f)) ]).

(** A flight the manage-booking screen offers to move to: not the flight of
    the booking, and leaving after [now]. *)
Definition offered `{DateEngine} (booking : jsval) (now : Z) (flight : jsval)
  : bool :=
  negb (strict_equal (opt_prop flight "id")
          (opt_prop (opt_prop booking "flight") "id")) &&
  ManageBooking.later (new_Date (opt_prop flight "departure_time")) now.

(** Whether a request is answered in time with a status from 200 to 299. *)
Definition answered (w : World) (config : request) : bool :=
  match answer w config with Ok _ => true | Throw _ => false end.

End Forms.
Export Forms.

(** ** More of the ECMAScript [Date] *)

Module ESLocal.
Import ESDate Calendar.

Definition HourFromTime (t : Z) : Z := (t / 3600000) mod 24.
Definition MinFromTime (t : Z) : Z := (t / 60000) mod 60.
Definition SecFromTime (t : Z) : Z := (t / 1000) mod 60.
Definition msFromTime (t : Z) : Z := t mod 1000.
Definition WeekDay (t : Z) : Z := (Day t + 4) mod 7.

Definition pad3 (n : Z) : string :=
  String (digit_char (n / 100)) (pad2 (n mod 100)).

Definition pad6 (n : Z) : string := pad2 (n / 10000) +:+ pad4 (n mod 10000).

(** The year of [toISOString]: four digits from 0 to 9999, a sign and six
    digits outside. *)
Definition iso_year (y : Z) : string :=
  if (0 <=? y) && (y <=? 9999) then pad4 y
  else (if y <? 0 then "-" else "+") +:+ pad6 (Z.abs y).

(** The date part of [toISOString], up to the [T]. *)
Definition iso_date (t : Z) : string :=
  iso_year (YearFromTime t) +:+ "-" +:+ pad2 (MonthFromTime t + 1) +:+ "-" +:+
  pad2 (DateFromTime t).

(** The time part of [toISOString], from the [T]. *)
Definition iso_time (t : Z) : string :=
  "T" +:+ pad2 (HourFromTime t) +:+ ":" +:+ pad2 (MinFromTime t) +:+ ":" +:+
  pad2 (SecFromTime t) +:+ "." +:+ pad3 (msFromTime t) +:+ "Z".

(** What [toISOString] throws on an invalid date is a [RangeError], with a
    text the engine chooses, for which a fixed one stands. *)
Definition RangeError : exn := Error "RangeError".

(** [date.toISOString()], for a date that may be invalid. *)
Definition toISOString (date : option Z) : res string :=
  match date with
  | None => Throw RangeError
  | Some t => Ok (iso_date t +:+ iso_time t)
  end.

Definition dayNames : list string :=
  ["Sun"; "Mon"; "Tue"; "Wed"; "Thu"; "Fri"; "Sat"].

Definition monthNames : list string :=
  ["Jan"; "Feb"; "Mar"; "Apr"; "May"; "Jun";
   "Jul"; "Aug"; "Sep"; "Oct"; "Nov"; "Dec"].

(** Years from 0 to 99 mean 1900 to 1999 to the [Date] constructor. *)
Definition MakeFullYear (year : Z) : Z :=
  if (0 <=? year) && (year <=? 99) then 1900 + year else year.

Section local.
Variable LocalTZA : Z.

Definition getFullYear (t : Z) : Z := YearFromTime (LocalTime LocalTZA t).
Definition getDay (t : Z) : Z := WeekDay (LocalTime LocalTZA t).

(** [new Date(year, month, date, hours, minutes, seconds).getTime()], the
    parts read in local time. *)
Definition Date_of (year month date hours minutes seconds : Z) : option Z :=
  TimeClip (UTC LocalTZA
              (MakeDate (MakeDay (MakeFullYear year) month date)
                        (MakeTime hours minutes seconds 0))).

(** [date.toDateString()], for a date that may be invalid. *)
Definition toDateString (date : option Z) : string :=
  match date with
  | None => "Invalid Date"
  | Some tv =>
      let t := LocalTime LocalTZA tv in
      let yv := YearFromTime t in
      default "" (dayNames !! Z.to_nat (WeekDay t)) +:+ " " +:+
      default "" (monthNames !! Z.to_nat (MonthFromTime t)) +:+ " " +:+
      pad2 (DateFromTime t) +:+ " " +:+
      (if yv <? 0 then "-" else "") +:+ padStart 4 "0" (pretty (Z.abs yv))
  end.

End local.
End ESLocal.

(** ** [src/app/book.jsx]: searching for flights *)

Module BookSearch.
Import ESDate ESLocal.

(** *** Passengers *)

Record passengerCounts := {
  adults : Z;
  children : Z;
  infants : Z;
  youth : Z
}.

(** The keys of [passengerCounts], which is what the buttons pass as
    [type]. *)
Inductive passengerType := Adults | Children | Infants | Youth.

Definition count (type : passengerType) (c : passengerCounts) : Z :=
  match type with
  | Adults => adults c
  | Children => children c
  | Infants => infants c
  | Youth => youth c
  end.

Definition set_count (type : passengerType) (v : Z) (c : passengerCounts)
  : passengerCounts :=
  match type with
  | Adults => {| adults := v; children := children c; infants := infants c; youth := youth c |}
  | Children => {| adults := adults c; children := v; infants := infants c; youth := youth c |}
  | Infants => {| adults := adults c; children := children c; infants := v; youth := youth c |}
  | Youth => {| adults := adults c; children := children c; infants := infants c; youth := v |}
  end.

(** The function given to [setPassengerCounts]. *)
Definition updatePassengerCount (type : passengerType) (delta : Z)
    (prev : passengerCounts) : passengerCounts :=
  let newCounts :=
    set_count type (Z.max 0 (Z.min 9 (count type prev + delta))) prev in
  if match type with Adults => true | _ => false end && (count type newCounts <? 1)
  then set_count type 1 newCounts
  else newCounts.

Definition getTotalPassengers (c : passengerCounts) : Z :=
  adults c + children c + infants c + youth c.

Definition getRemainingPassengers (c : passengerCounts) : Z :=
  9 - getTotalPassengers c.

(** The state [passengerCounts] starts in. *)
Definition initialCounts : passengerCounts :=
  {| adults := 1; children := 0; infants := 0; youth := 0 |}.

(** The [disabled] property of the minus button of a row. *)
Definition minusDisabled (type : passengerType) (c : passengerCounts) : bool :=
  match type with
  | Adults => adults c <=? 1
  | Children => children c <=? 0
  | Infants => infants c <=? 0
  | Youth => youth c <=? 0
  end.

(** The [disabled] property of the plus button of every row. *)
Definition plusDisabled (c : passengerCounts) : bool :=
  9 <=? getTotalPassengers c.

(** A press of a button that is not disabled, on the counts as rendered. *)
Inductive press : passengerCounts → passengerCounts → Prop :=
| press_plus (type : passengerType) (c : passengerCounts) :
    plusDisabled c = false → press c (updatePassengerCount type 1 c)
| press_minus (type : passengerType) (c : passengerCounts) :
    minusDisabled type c = false → press c (updatePassengerCount type (-1) c).

(** The counts the passenger modal can come to show. *)
Inductive shown : passengerCounts → Prop :=
| shown_initial : shown initialCounts
| shown_press (c c' : passengerCounts) : shown c → press c c' → shown c'.

(** *** Airports *)

(** The names are the bytes of the source file. *)
Record airport := { code : string; name : string; city : string }.

Definition airports : list airport :=
  [ {| code := "BAH"; name := "Bahrain International Airport"; city := "Bahrain" |};
    {| code := "DXB"; name := "Dubai International Airport"; city := "Dubai" |};
    {| code := "DOH"; name := "Hamad International Airport"; city := "Doha" |};
    {| code := "KWI"; name := "Kuwait International Airport"; city := "Kuwait" |};
    {| code := "RUH"; name := "King Khalid International Airport"; city := "Riyadh" |};
    {| code := "JED"; name := "King Abdulaziz International Airport"; city := "Jeddah" |};
    {| code := "CAI"; name := "Cairo International Airport"; city := "Cairo" |};
    {| code := "BEY"; name := "Beirut Rafic Hariri International Airport"; city := "Beirut" |};
    {| code := "AMM"; name := "Queen Alia International Airport"; city := "Amman" |};
    {| code := "LHR"; name := "Heathrow Airport"; city := "London" |};
    {| code := "CDG"; name := "Charles de Gaulle Airport"; city := "Paris" |};
    {| code := "FRA"; name := "Frankfurt Airport"; city := "Frankfurt" |};
    {| code := "MAD"; name := "Adolfo Suárez Madrid–Barajas Airport"; city := "Madrid" |};
    {| code := "FCO"; name := "Leonardo da Vinci International Airport"; city := "Rome" |};
    {| code := "ATH"; name := "Athens International Airport"; city := "Athens" |};
    {| code := "BOM"; name := "Chhatrapati Shivaji Maharaj International Airport"; city := "Mumbai" |};
    {| code := "DEL"; name := "Indira Gandhi International Airport"; city := "Delhi" |};
    {| code := "BKK"; name := "Suvarnabhumi Airport"; city := "Bangkok" |};
    {| code := "KUL"; name := "Kuala Lumpur International Airport"; city := "Kuala Lumpur" |};
    {| code := "SIN"; name := "Singapore Changi Airport"; city := "Singapore" |};
    {| code := "HKG"; name := "Hong Kong International Airport"; city := "Hong Kong" |};
    {| code := "NBO"; name := "Jomo Kenyatta International Airport"; city := "Nairobi" |};
    {| code := "JNB"; name := "O.R. Tambo International Airport"; city := "Johannesburg" |};
    {| code := "ADD"; name := "Addis Ababa Bole International Airport"; city := "Addis Ababa" |} ].

(** [getAirportName] of a code held in [origin] or [destination]. *)
Definition getAirportName (code0 : string) : string :=
  match List.find (λ a, bool_decide (code a = code0)) airports with
  | Some a => city a +:+ " (" +:+ code a +:+ ")"
  | None => code0
  end.

(** *** Dates *)

Section dates.
Variable LocalTZA : Z.

(** [`${x}`] of a number that may be [NaN]. *)
Definition num_text (x : option Z) : string :=
  match x with Some n => pretty n | None => "NaN" end.

Definition formatFullDate (dateString : jsval) : string :=
  if negb (truthy dateString) then "N/A"
  else
    match @new_Date (engine LocalTZA) dateString with
    | None => "N/A"
    | Some date =>
        let day := getDate LocalTZA date in
        let month := MyTrips.month_text (getMonth LocalTZA date) in
        let year := getFullYear LocalTZA date in
        pretty day +:+ " " +:+ month +:+ " " +:+ pretty year
    end.

(** [selectDate] of a [Date] that may be invalid. *)
Definition selectDate (date : option Z) : M unit :=
  let year := getFullYear LocalTZA <$> date in
  let month := padStart 2 "0" (num_text ((λ t, getMonth LocalTZA t + 1) <$> date)) in
  let day := padStart 2 "0" (num_text (getDate LocalTZA <$> date)) in
  let formattedDate := num_text year +:+ "-" +:+ month +:+ "-" +:+ day in
  _ ← emit (SetState "departureDate" (VStr formattedDate));
  emit (SetState "showCalendarModal" (VBool false)).

(** A cell of the calendar grid; a blank cell is [null]. *)
Record dayCell := {
  day : Z;
  date : option Z;
  isPast : bool;
  isToday : bool;
  isSelectable : bool
}.

(** [a < b] and [a.getTime() === b.getTime()] on dates that may be
    invalid. *)
Definition date_lt (a b : option Z) : bool :=
  match a, b with Some x, Some y => x <? y | _, _ => false end.

Definition date_same (a b : option Z) : bool :=
  match a, b with Some x, Some y => x =? y | _, _ => false end.

(** The cell pushed for [day] by the second loop of [generateMonthDays]. *)
Definition dayCell_of (year month : Z) (todayStart : option Z) (day : Z) : dayCell :=
  let date := Date_of LocalTZA year month day 12 0 0 in
  let dateStart := Date_of LocalTZA year month day 0 0 0 in
  let isPast := date_lt dateStart todayStart in
  let isToday := date_same dateStart todayStart in
  {| day := day; date := date; isPast := isPast; isToday := isToday;
     isSelectable := negb isPast |}.

(** [generateMonthDays(monthDate)] for a valid [monthDate], at the moment
    [today]; a count that is [NaN] leaves its loop without a turn. *)
Definition generateMonthDays (today : Z) (monthDate : Z) : list (option dayCell) :=
  let year := getFullYear LocalTZA monthDate in
  let month := getMonth LocalTZA monthDate in
  let firstDay := Date_of LocalTZA year month 1 0 0 0 in
  let lastDay := Date_of LocalTZA year (month + 1) 0 0 0 0 in
  let daysInMonth := getDate LocalTZA <$> lastDay in
  let startingDayOfWeek := getDay LocalTZA <$> firstDay in
  let todayStart :=
    Date_of LocalTZA (getFullYear LocalTZA today) (getMonth LocalTZA today)
      (getDate LocalTZA today) 0 0 0 in
  (replicate (Z.to_nat (default 0 startingDayOfWeek)) None ++
   ((λ day, Some (dayCell_of year month todayStart day))
      <$> seqZ 1 (default 0 daysInMonth)))%list.

(** *** The search *)

(** The callback of [flights.filter]. *)
Definition sameDate (selectedDate : option Z) (flight : jsval) : res bool :=
  departure_time ← prop flight "departure_time";
  let flightDate := @new_Date (engine LocalTZA) departure_time in
  flightIso ← toISOString flightDate;
  let flightDateOnly := before "T" flightIso in
  selectedIso ← toISOString selectedDate;
  let selectedDateOnly := before "T" selectedIso in
  Ok (bool_decide (flightDateOnly = selectedDateOnly)).

(** The callback of both [map]s. *)
Definition transformFlight (flight : jsval) : res jsval :=
  id ← prop flight "id";
  flight_number ← prop flight "flight_number";
  departure_airport ← prop flight "departure_airport";
  arrival_airport ← prop flight "arrival_airport";
  departure_time ← prop flight "departure_time";
  arrival_time ← prop flight "arrival_time";
  economy_price ← prop flight "economy_price";
  business_price ← prop flight "business_price";
  available_economy_seats ← prop flight "available_economy_seats";
  available_business_seats ← prop flight "available_business_seats";
  status ← prop flight "status";
  Ok (VObj (list_to_map [
    ("id", id);
    ("flightNumber", flight_number);
    ("departureAirport", departure_airport);
    ("arrivalAirport", arrival_airport);
    ("departureTime", departure_time);
    ("arrivalTime", arrival_time);
    ("economyPrice", economy_price);
    ("businessPrice", business_price);
    ("availableEconomySeats", available_economy_seats);
    ("availableBusinessSeats", available_business_seats);
    ("status", status) ])).

(** [flights.map(f)] for a value that may be no array. *)
Definition map_method (v : jsval) (f : jsval → res jsval) : res (list jsval) :=
  match v with
  | VArr l => array_map f l
  | _ => Throw TypeError
  end.

Definition searchFlights (origin destination departureDate : string) : M unit :=
  if bool_decide (origin = "") || bool_decide (destination = "") then
    emit (Alert "Error" "Please select origin and destination")
  else if bool_decide (departureDate = "") then
    emit (Alert "Error" "Please select departure date")
  else
    finally
      (try_catch
         (_ ← emit (SetState "isSearching" (VBool true));
          isConnected ← testAPIConnection;
          if negb isConnected then
            emit (Alert "Connection Error"
                    "Cannot connect to server. Please check your internet connection.")
          else
            flights ← flightsAPI.searchFlights (VStr origin) (VStr destination);
            let selectedDate := parse LocalTZA (departureDate +:+ "T12:00:00") in
            filteredFlights ← of_res (array_filter flights (sameDate selectedDate));
            transformedFlights ← of_res (array_map transformFlight filteredFlights);
            _ ← emit (SetState "searchResults" (VArr transformedFlights));
            if (length transformedFlights =? 0)%nat then
              allFlightsForRoute ← of_res (map_method flights transformFlight);
              _ ← emit (SetState "searchResults" (VArr allFlightsForRoute));
              emit (SetState "noFlightsForSelectedDate" (VBool true))
            else
              emit (SetState "noFlightsForSelectedDate" (VBool false)))
         (λ error,
            emit (Alert "Search Error"
                    (if bool_decide (exn_message error = "")
                     then "Failed to search flights. Please try again."
                     else exn_message error))))
      (emit (SetState "isSearching" (VBool false))).

(** *** The results by date *)

(** [grouped[dateKey].push(flight)], after [grouped[dateKey] = []] for a
    key that is new; the keys keep the order in which they came.  (A date
    string is the name of no member that an empty object inherits.) *)
Fixpoint push_flight (dateKey : string) (flight : jsval)
    (grouped : list (string * list jsval)) : list (string * list jsval) :=
  match grouped with
  | [] => [(dateKey, [flight])]
  | (k, fs) :: rest =>
      if bool_decide (k = dateKey) then (k, (fs ++ [flight])%list) :: rest
      else (k, fs) :: push_flight dateKey flight rest
  end.

Definition dateKey_of (flight : jsval) : res string :=
  departureTime ← prop flight "departureTime";
  Ok (toDateString LocalTZA (@new_Date (engine LocalTZA) departureTime)).

Fixpoint group_from (grouped : list (string * list jsval)) (flights : list jsval)
  : res (list (string * list jsval)) :=
  match flights with
  | [] => Ok grouped
  | flight :: rest =>
      dateKey ← dateKey_of flight;
      group_from (push_flight dateKey flight grouped) rest
  end.

(** [Object.entries(groupFlightsByDate(flights))] *)
Definition groupFlightsByDate (flights : list jsval)
  : res (list (string * list jsval)) :=
  group_from [] flights.

End dates.
End BookSearch.

(** ** Reading the search results *)

Module Listing.

(** The entry the search shows for a flight of the answer. *)
Definition shown_flight (flight : jsval) : jsval :=
  VObj (list_to_map [
    ("id", opt_prop flight "id");
    ("flightNumber", opt_prop flight "flight_number");
    ("departureAirport", opt_prop flight "departure_airport");
    ("arrivalAirport", opt_prop flight "arrival_airport");
    ("departureTime", opt_prop flight "departure_time");
    ("arrivalTime", opt_prop flight "arrival_time");
    ("economyPrice", opt_prop flight "economy_price");
    ("businessPrice", opt_prop flight "business_price");
    ("availableEconomySeats", opt_prop flight "available_economy_seats");
    ("availableBusinessSeats", opt_prop flight "available_business_seats");
    ("status", opt_prop flight "status") ]).

(** A flight whose departure time, as [new Date] reads it, falls on the day
    with number [day], counted in UTC. *)
Definition departs_on (LocalTZA : Z) (day : Z) (flight : jsval) : bool :=
  match @new_Date (ESDate.engine LocalTZA) (opt_prop flight "departure_time") with
  | Some t => ESDate.Day t =? day
  | None => false
  end.

(** A flight whose departure time [new Date] can read. *)
Definition has_departure (LocalTZA : Z) (flight : jsval) : bool :=
  negb (absent flight) &&
  match @new_Date (ESDate.engine LocalTZA) (opt_prop flight "departure_time") with
  | Some _ => true
  | None => false
  end.

(** A flight that is [null] or [undefined], or has no departure time:
    [new Date(undefined)] is an invalid date. *)
Definition lacks_departure (flight : jsval) : bool :=
  absent flight ||
  match opt_prop flight "departure_time" with VUndefined => true | _ => false end.

(** The text under which the results list a shown flight: the local calendar
    day of its departure time, as [toDateString] writes it. *)
Definition dateKey (LocalTZA : Z) (flight : jsval) : string :=
  ESLocal.toDateString LocalTZA
    (@new_Date (ESDate.engine LocalTZA) (opt_prop flight "departureTime")).

(** The flights of [flights] listed under [key], in their order. *)
Definition listed_under (LocalTZA : Z) (key : string) (flights : list jsval)
  : list jsval :=
  List.filter (λ f, bool_decide (dateKey LocalTZA f = key)) flights.

(** [grouped[key]], or no flight where the key is not set. *)
Fixpoint group_of (key : string) (grouped : list (string * list jsval))
  : list jsval :=
  match grouped with
  | [] => []
  | (k, fs) :: rest => if bool_decide (k = key) then fs else group_of key rest
  end.

End Listing.
Export Listing.

(** * Properties *)

(** ** The check-in window *)

Section check_in_window.
Context `{DateEngine}.
Import MyTrips.

Lemma is_str_true (v : jsval) (s : string) : is_str v s = true ↔ v = VStr s.
Proof.
  destruct v; simpl; try (split; [discriminate | intros [=]]).
  rewrite bool_decide_eq_true. split; [intros -> | intros [=]]; done.
Qed.



(** When the message is the open-window one: neither [checked_in] nor
  [cancelled], and the hours are no number or lie in the window. *)
Lemma getCheckInMessage_open (now : Z) (d s : jsval) :
getCheckInMessage now d s = "You can check-in now!" ↔
is_str s "checked_in" = false ∧ is_str s "cancelled" = false ∧
num_le (hoursUntilDeparture now d) 0 = false ∧
num_gt (hoursUntilDeparture now d) 24 = false.
Proof.
unfold getCheckInMessage.
destruct (is_str s "checked_in"); [split; [discriminate | intros [[=] _]] |].
destruct (is_str s "cancelled"); [split; [discriminate | intros (_ & [=] & _)] |].
destruct (num_le _ 0); [split; [discriminate | intros (_ & _ & [=] & _)] |].
destruct (num_gt _ 24).
- split; [| intros (_ & _ & _ & [=])].
  destruct (int_gt _ 0); simpl; discriminate.
- done.
Qed.

(** Where button and message do agree: a confirmed booking whose departure
  time parses. *)
Lemma canCheckIn_agrees_when_confirmed_and_parsed (now : Z) (d : jsval) (h : Q) :
hoursUntilDeparture now d = Some h →
(canCheckIn now d (VStr "confirmed") = true ↔
 getCheckInMessage now d (VStr "confirmed") = "You can check-in now!").
Proof.
intros Hh. rewrite getCheckInMessage_open.
unfold canCheckIn. rewrite Hh. simpl.
destruct (Qle_bool h 24), (Qle_bool h 0); simpl; intuition congruence.
Qed.

Lemma canCheckIn_agrees_for_known_status (now : Z) (d s : jsval) (h : Q) :
  hoursUntilDeparture now d = Some h →
  s = VStr "confirmed" ∨ s = VStr "checked_in" ∨ s = VStr "cancelled" →
  (canCheckIn now d s = true ↔
   getCheckInMessage now d s = "You can check-in now!").
Proof.
  intros Hh [-> | [-> | ->]].
  - by apply canCheckIn_agrees_when_confirmed_and_parsed with h.
  - split; discriminate.
  - split; discriminate.
Qed.

(** C10, at the failing inputs. A confirmed booking without a departure time:
  the button is disabled while the message invites to check in; and the
  same for a status other than the three known ones with a departure one
  hour ahead. *)
Theorem canCheckIn_and_message_disagree (now : Z) :
(canCheckIn now VUndefined (VStr "confirmed") = false ∧
 getCheckInMessage now VUndefined (VStr "confirmed") = "You can check-in now!") ∧
(canCheckIn 0 (VNum 3600000) (VStr "pending") = false ∧
 getCheckInMessage 0 (VNum 3600000) (VStr "pending") = "You can check-in now!").
Proof. repeat split. Qed.

End check_in_window.

(** ** Timestamps and dates *)

Section dates.
Import ESDate Calendar MyTrips.

Local Ltac Zify.zify_post_hook ::= Z.div_mod_to_equations.
Local Arguments digit_char : simpl never.
Local Arguments digit : simpl never.
Local Arguments is_digit : simpl never.

Lemma digit_char_spec n :
  0 <= n <= 9 →
  is_digit (digit_char n) = true ∧ digit (digit_char n) = Some n ∧
  digit_char n ≠ "."%char.
Proof.
  intros Hn.
  assert (n = 0 ∨ n = 1 ∨ n = 2 ∨ n = 3 ∨ n = 4 ∨ n = 5 ∨ n = 6 ∨ n = 7 ∨
          n = 8 ∨ n = 9) as Hc by lia.
  repeat (destruct Hc as [-> | Hc]; [vm_compute; repeat split; discriminate |]).
  subst n. vm_compute; repeat split; discriminate.
Qed.

Lemma pad2_app n r :
  pad2 n +:+ r = String (digit_char (n / 10)) (String (digit_char (n mod 10)) r).
Proof. reflexivity. Qed.

Lemma pad4_app n r :
  pad4 n +:+ r =
  String (digit_char (n / 1000)) (String (digit_char (n / 100 mod 10))
    (String (digit_char (n / 10 mod 10)) (String (digit_char (n mod 10)) r))).
Proof. reflexivity. Qed.

Lemma take2_pad2 n r : 0 <= n <= 99 → take2 (pad2 n +:+ r) = Some (n, r).
Proof.
  intros Hn. rewrite pad2_app. unfold take2.
  destruct (digit_char_spec (n / 10)) as (_ & -> & _); [lia |].
  destruct (digit_char_spec (n mod 10)) as (_ & -> & _); [lia |].
  cbn [mbind option_bind]. do 2 f_equal. lia.
Qed.

Lemma take4_pad4 n r : 0 <= n <= 9999 → take4 (pad4 n +:+ r) = Some (n, r).
Proof.
  intros Hn. rewrite pad4_app. unfold take4.
  destruct (digit_char_spec (n / 1000)) as (_ & -> & _); [lia |].
  destruct (digit_char_spec (n / 100 mod 10)) as (_ & -> & _); [lia |].
  destruct (digit_char_spec (n / 10 mod 10)) as (_ & -> & _); [lia |].
  destruct (digit_char_spec (n mod 10)) as (_ & -> & _); [lia |].
  cbn [mbind option_bind]. do 2 f_equal. lia.
Qed.

Lemma match_micros_not_dot c r : c ≠ "."%char → match_micros (String c r) = None.
Proof.
  intros Hc. unfold match_micros.
  destruct r as [|a [|b [|c' [|d r]]]]; try reflexivity.
  by rewrite bool_decide_eq_false_2.
Qed.

Lemma replace_micros_cons c r :
  c ≠ "."%char → replace_micros (String c r) = String c (replace_micros r).
Proof.
  intros Hc. change (replace_micros (String c r)) with
    (match match_micros (String c r) with
     | Some g => "." +:+ g
     | None => String c (replace_micros r)
     end).
  by rewrite match_micros_not_dot.
Qed.

Lemma all_digits_dot t : all_digits ("." +:+ t) = false.
Proof. reflexivity. Qed.

Lemma all_digits_app_false x t : all_digits t = false → all_digits (x +:+ t) = false.
Proof.
  intros Ht. induction x as [|c x IH]; [done |].
  change (String c x +:+ t) with (String c (x +:+ t)).
  cbn [all_digits]. rewrite IH. apply andb_false_r.
Qed.

Lemma match_micros_needs_digits c t :
  all_digits t = false → match_micros (String c t) = None.
Proof.
  intros Ht. unfold match_micros.
  destruct t as [|a [|b [|c' [|d r]]]]; try reflexivity.
  cbn [all_digits] in Ht.
  destruct (bool_decide (c = "."%char)), (is_digit a), (is_digit b), (is_digit c'), (is_digit d);
    simpl in *; try reflexivity.
  by rewrite Ht.
Qed.

Lemma is_digit_not_dot a : is_digit a = true → a ≠ "."%char.
Proof. intros Ha ->. discriminate. Qed.

Lemma replace_micros_long p a b c rest :
  long_fraction a b c rest →
  replace_micros (p +:+ "." +:+ String a (String b (String c rest))) =
  p +:+ "." +:+ String a (String b (String c "")).
Proof.
  intros (Ha & Hb & Hc & Hne & Hr).
  induction p as [|x p IH].
  - destruct rest as [|d r]; [done |]. cbn [all_digits] in Hr.
    apply andb_true_iff in Hr as [Hd Hr].
    change (replace_micros ("" +:+ "." +:+ String a (String b (String c (String d r))))) with
      (match match_micros (String "." (String a (String b (String c (String d r))))) with
       | Some g => "." +:+ g
       | None => String "." (replace_micros (String a (String b (String c (String d r)))))
       end).
    unfold match_micros. rewrite Ha, Hb, Hc, Hd, Hr. reflexivity.
  - change (replace_micros (String x p +:+ "." +:+ String a (String b (String c rest)))) with
      (match match_micros (String x (p +:+ "." +:+ String a (String b (String c rest)))) with
       | Some g => "." +:+ g
       | None => String x (replace_micros (p +:+ "." +:+ String a (String b (String c rest))))
       end).
    rewrite match_micros_needs_digits, IH; [reflexivity |].
    apply all_digits_app_false. reflexivity.
Qed.

Lemma replace_micros_short p a b c :
  is_digit a = true → is_digit b = true → is_digit c = true →
  replace_micros (p +:+ "." +:+ String a (String b (String c ""))) =
  p +:+ "." +:+ String a (String b (String c "")).
Proof.
  intros Ha Hb Hc.
  induction p as [|x p IH].
  - change (replace_micros ("" +:+ "." +:+ String a (String b (String c "")))) with
      (String "." (replace_micros (String a (String b (String c ""))))).
    rewrite !replace_micros_cons by by apply is_digit_not_dot. reflexivity.
  - change (replace_micros (String x p +:+ "." +:+ String a (String b (String c "")))) with
      (match match_micros (String x (p +:+ "." +:+ String a (String b (String c "")))) with
       | Some g => "." +:+ g
       | None => String x (replace_micros (p +:+ "." +:+ String a (String b (String c ""))))
       end).
    rewrite match_micros_needs_digits, IH; [reflexivity |].
    apply all_digits_app_false. reflexivity.
Qed.
Lemma DayFromYear_succ y : DayFromYear (y + 1) = DayFromYear y + DaysInYear y.
Proof.
  unfold DayFromYear, DaysInYear.
  destruct (Z.eqb_spec (y mod 4) 0), (Z.eqb_spec (y mod 100) 0), (Z.eqb_spec (y mod 400) 0); simpl; lia.
Qed.

Lemma DaysInYear_cases y : DaysInYear y = 365 ∨ DaysInYear y = 366.
Proof. unfold DaysInYear. repeat case_match; auto. Qed.

Lemma YearFromDay_within y k : 0 <= k < DaysInYear y -> YearFromDay (DayFromYear y + k) = y.
Proof.
  intros Hk.
  assert (Hd := DaysInYear_cases y).
  assert (Hs := DayFromYear_succ y).
  assert (Hp := DayFromYear_succ (y - 1)). replace (y - 1 + 1) with y in Hp by lia.
  assert (Hdp := DaysInYear_cases (y - 1)).
  unfold YearFromDay.
  set (e := 1970 + 400 * (DayFromYear y + k) / 146097).
  assert (He : e = y - 1 \/ e = y \/ e = y + 1).
  { subst e. unfold DayFromYear in *. lia. }
  destruct He as [-> | [-> | ->]].
  - replace (y - 1 + 1) with y by lia.
    destruct (Z.ltb_spec (DayFromYear y + k) (DayFromYear (y - 1))); [lia |].
    destruct (Z.leb_spec (DayFromYear y) (DayFromYear y + k)); lia.
  - destruct (Z.ltb_spec (DayFromYear y + k) (DayFromYear y)); [lia |].
    destruct (Z.leb_spec (DayFromYear (y + 1)) (DayFromYear y + k)); lia.
  - destruct (Z.ltb_spec (DayFromYear y + k) (DayFromYear (y + 1))); lia.
Qed.

Lemma month_and_date_of_MakeDate y m d tod :
  1 <= m <= 12 → 1 <= d <= daysInMonth y m → 0 <= tod < msPerDay →
  MonthFromTime (MakeDate (MakeDay y (m - 1) d) tod) = m - 1 ∧
  DateFromTime (MakeDate (MakeDay y (m - 1) d) tod) = d.
Proof.
  intros Hm Hd Ht.
  assert (Hl := DaysInYear_cases y).
  assert (Hday : Day (MakeDate (MakeDay y (m - 1) d) tod) = DayFromYear y + (monthStart y (m - 1) + d - 1)).
  { unfold Day, MakeDate, MakeDay, msPerDay in *.
    replace ((m - 1) / 12) with 0 by lia. replace ((m - 1) mod 12) with (m - 1) by lia.
    replace (y + 0) with y by lia. lia. }
  assert (Hk : 0 <= monthStart y (m - 1) + d - 1 < DaysInYear y).
  { unfold monthStart, daysInMonth in *.
    assert (m = 1 ∨ m = 2 ∨ m = 3 ∨ m = 4 ∨ m = 5 ∨ m = 6 ∨ m = 7 ∨ m = 8 ∨ m = 9 ∨ m = 10 ∨ m = 11 ∨ m = 12) as Hc by lia.
    destruct Hl as [Hl | Hl]; rewrite Hl in *; simpl in *;
    intuition (subst m; simpl in *; lia). }
  assert (Hy : YearFromTime (MakeDate (MakeDay y (m - 1) d) tod) = y).
  { unfold YearFromTime. rewrite Hday. by apply YearFromDay_within. }
  unfold DateFromTime, MonthFromTime, DayWithinYear, InLeapYear.
  rewrite Hy, Hday.
  replace (DayFromYear y + (monthStart y (m - 1) + d - 1) - DayFromYear y) with (monthStart y (m - 1) + d - 1) by lia.
  unfold monthStart, daysInMonth in *.
  assert (m = 1 ∨ m = 2 ∨ m = 3 ∨ m = 4 ∨ m = 5 ∨ m = 6 ∨ m = 7 ∨ m = 8 ∨ m = 9 ∨ m = 10 ∨ m = 11 ∨ m = 12) as Hc by lia.
  destruct Hl as [Hl | Hl]; rewrite Hl in *; simpl in *;
    intuition (subst m; simpl in *; repeat (case_match; try lia)).
Qed.

Lemma date_only_string_app y m d t :
  date_only_string y m d +:+ t =
  pad4 y +:+ String "-" (pad2 m +:+ String "-" (pad2 d +:+ t)).
Proof. reflexivity. Qed.

Lemma date_only_string_chars y m d :
  date_only_string y m d =
  String (digit_char (y / 1000)) (String (digit_char (y / 100 mod 10))
    (String (digit_char (y / 10 mod 10)) (String (digit_char (y mod 10))
      (String "-" (String (digit_char (m / 10)) (String (digit_char (m mod 10))
        (String "-" (String (digit_char (d / 10))
          (String (digit_char (d mod 10)) ""))))))))).
Proof. reflexivity. Qed.

Lemma is_date_only_date y m d :
  0 <= y <= 9999 → 0 <= m <= 99 → 0 <= d <= 99 →
  is_date_only (date_only_string y m d) = true.
Proof.
  intros Hy Hm Hd. rewrite date_only_string_chars. unfold is_date_only.
  repeat match goal with
  | |- context [is_digit (digit_char ?n)] =>
      let H := fresh in
      destruct (digit_char_spec n) as (H & _ & _); [lia |]; rewrite H; clear H
  end.
  reflexivity.
Qed.

Lemma replace_micros_date y m d :
  0 <= y <= 9999 → 0 <= m <= 99 → 0 <= d <= 99 →
  replace_micros (date_only_string y m d) = date_only_string y m d.
Proof.
  intros Hy Hm Hd. rewrite date_only_string_chars.
  rewrite !replace_micros_cons; try reflexivity; try discriminate;
    apply digit_char_spec; lia.
Qed.

Lemma parse_date_only_at_noon tz y m d :
  - 86400000 <= tz <= 86400000 →
  valid_date y m d →
  parse tz (date_only_string y m d +:+ "T12:00:00") =
  Some (UTC tz (MakeDate (MakeDay y (m - 1) d) 43200000)).
Proof.
  intros Htz (Hy & Hm & Hd).
  assert (Hd31 : d <= 31).
  { unfold daysInMonth in Hd. repeat case_match; lia. }
  unfold parse, parse_date. rewrite date_only_string_app.
  rewrite take4_pad4 by done.
  cbn [mbind option_bind expect]. rewrite bool_decide_eq_true_2 by done.
  rewrite take2_pad2 by lia. cbn [mbind option_bind expect].
  rewrite bool_decide_eq_true_2 by done.
  rewrite take2_pad2 by lia. cbn [mbind option_bind].
  destruct (Z.leb_spec 1 m); [| lia]. destruct (Z.leb_spec m 12); [| lia].
  destruct (Z.leb_spec 1 d); [| lia]. destruct (Z.leb_spec d 31); [| lia].
  cbn [andb].
  rewrite bool_decide_eq_true_2 by done.
  change (parse_time "12:00:00") with (Some (12, 0, 0, 0, "")).
  cbn [mbind option_bind]. change (parse_offset "") with (Some (@None Z)).
  cbn [mbind option_bind]. change (time_in_range 12 0 0 0) with true.
  cbv iota. change (MakeTime 12 0 0 0) with 43200000.
  unfold TimeClip.
  destruct (Z.leb_spec (Z.abs (UTC tz (MakeDate (MakeDay y (m - 1) d) 43200000))) 8640000000000000) as [|Hbig]; [done |].
  exfalso. revert Hbig.
  unfold UTC, MakeDate, MakeDay, msPerDay.
  replace ((m - 1) / 12) with 0 by lia. replace ((m - 1) mod 12) with (m - 1) by lia.
  assert (0 <= monthStart (y + 0) (m - 1) <= 335).
  { unfold monthStart. repeat case_match; lia. }
  unfold DayFromYear. lia.
Qed.

Lemma formatDate_date_only tz y m d :
  - 86400000 <= tz <= 86400000 →
  valid_date y m d →
  @formatDate (engine tz) (VStr (date_only_string y m d)) =
  pretty d +:+ " " +:+ month_text (m - 1).
Proof.
  intros Htz Hv. pose proof Hv as (Hy & Hm & Hd).
  assert (Hd31 : d <= 31).
  { unfold daysInMonth in Hd. repeat case_match; lia. }
  unfold formatDate, formatDate_input.
  change (truthy (VStr (date_only_string y m d))) with true.
  cbn [negb ToString].
  rewrite replace_micros_date, is_date_only_date by lia.
  change (@Date_parse (engine tz)) with (parse tz).
  rewrite parse_date_only_at_noon by done.
  change (@Date_getDate (engine tz)) with (getDate tz).
  change (@Date_getMonth (engine tz)) with (getMonth tz).
  unfold getDate, getMonth, LocalTime, UTC.
  replace (MakeDate (MakeDay y (m - 1) d) 43200000 - tz + tz)
    with (MakeDate (MakeDay y (m - 1) d) 43200000) by lia.
  destruct (month_and_date_of_MakeDate y m d 43200000) as [-> ->];
    unfold msPerDay; try lia.
  reflexivity.
Qed.

Lemma month_text_valid m :
  1 <= m <= 12 → month_text (m - 1) ∈ months.
Proof.
  intros Hm. apply list_elem_of_In.
  assert (m = 1 ∨ m = 2 ∨ m = 3 ∨ m = 4 ∨ m = 5 ∨ m = 6 ∨ m = 7 ∨ m = 8 ∨
          m = 9 ∨ m = 10 ∨ m = 11 ∨ m = 12) as Hc by lia.
  repeat (destruct Hc as [Hc | Hc]; [rewrite Hc; cbv; tauto |]).
  rewrite Hc; cbv; tauto.
Qed.

Lemma is_date_only_no_fraction p a b c :
  is_date_only (p +:+ "." +:+ String a (String b (String c ""))) = false.
Proof.
  destruct p as [|p1 [|p2 [|p3 [|p4 [|p5 [|p6 [|p7 [|p8 [|p9 [|p10 p]]]]]]]]]];
    cbv [String.append is_date_only]; try reflexivity.
  - change (is_digit ".") with false. by rewrite !andb_false_r.
  - by destruct p.
Qed.

(** *** Fractions that a zone designator follows *)

Lemma append_nil (s : string) : "" +:+ s = s.
Proof. reflexivity. Qed.

Lemma append_cons c (r s : string) : String c r +:+ s = String c (r +:+ s).
Proof. reflexivity. Qed.

Lemma digit_is_digit c : is_digit c = true → ∃ x, digit c = Some x.
Proof. intros Hc. unfold digit. rewrite Hc. by eexists. Qed.

Lemma digit_no_digit c : is_digit c = false → digit c = None.
Proof. intros Hc. unfold digit. by rewrite Hc. Qed.

Lemma expect_same c r : expect c (String c r) = Some r.
Proof. unfold expect. by rewrite bool_decide_eq_true_2. Qed.

Lemma take_digits_app rest z :
  all_digits rest = true → no_digit_ahead z →
  ∃ ds, take_digits (rest +:+ z) = (ds, z).
Proof.
  intros Hr Hz. induction rest as [| c rest IH].
  - exists []. rewrite append_nil. destruct z as [| c z]; [done |].
    cbn [take_digits]. by rewrite (digit_no_digit c Hz).
  - cbn [all_digits] in Hr. apply andb_true_iff in Hr as [Hc Hr].
    destruct (IH Hr) as [ds Hds]. destruct (digit_is_digit c Hc) as [x Hx].
    exists (x :: ds). rewrite append_cons. cbn [take_digits]. by rewrite Hx, Hds.
Qed.

Lemma take_fraction_long a b c rest z :
  is_digit a = true → is_digit b = true → is_digit c = true →
  all_digits rest = true → no_digit_ahead z →
  take_fraction (String a (String b (String c (rest +:+ z)))) =
  take_fraction (String a (String b (String c z))).
Proof.
  intros Ha Hb Hc Hr Hz.
  destruct (digit_is_digit a Ha) as [x Hx], (digit_is_digit b Hb) as [y Hy],
    (digit_is_digit c Hc) as [v Hv].
  destruct (take_digits_app rest z Hr Hz) as [ds Hds].
  destruct (take_digits_app "" z eq_refl Hz) as [ds0 Hds0].
  rewrite append_nil in Hds0.
  unfold take_fraction. cbn [take_digits]. by rewrite Hx, Hy, Hv, Hds, Hds0.
Qed.

(** The time of day is read alike with the long fraction and with the cut
    one. *)
Lemma parse_time_long time a b c rest z :
  is_digit a = true → is_digit b = true → is_digit c = true →
  all_digits rest = true → no_digit_ahead z →
  is_time_of_day time = true →
  parse_time (time +:+ "." +:+ String a (String b (String c (rest +:+ z)))) =
  parse_time (time +:+ "." +:+ String a (String b (String c z))).
Proof.
  intros Ha Hb Hc Hr Hz Ht.
  pose proof (take_fraction_long a b c rest z Ha Hb Hc Hr Hz) as Hf.
  destruct time as [| h1 [| h2 [| c1 [| m1 [| m2 [| c2 [| s1 [| s2 [| ? ?]]]]]]]]];
    try discriminate Ht.
  cbn [is_time_of_day] in Ht.
  repeat (apply andb_true_iff in Ht as [Ht ?]).
  repeat match goal with
         | H : bool_decide (_ = _) = true |- _ =>
             apply bool_decide_eq_true_1 in H; subst
         end.
  rewrite !append_cons, !append_nil. unfold parse_time, take2.
  destruct (digit h1), (digit h2); cbn [mbind option_bind]; try reflexivity.
  rewrite !expect_same. cbn [mbind option_bind].
  destruct (digit m1), (digit m2); cbn [mbind option_bind]; try reflexivity.
  rewrite !expect_same.
  destruct (digit s1), (digit s2); cbn [mbind option_bind]; try reflexivity.
  rewrite !expect_same. by rewrite Hf.
Qed.

(** So is the whole timestamp: the date and the letter [T] come first on
    both sides, whatever they are. *)
Lemma parse_long_fraction tz date time a b c rest z :
  is_digit a = true → is_digit b = true → is_digit c = true →
  all_digits rest = true → no_digit_ahead z →
  is_date_only date = true → is_time_of_day time = true →
  parse tz (date +:+ "T" +:+ time +:+ "." +:+
            String a (String b (String c (rest +:+ z)))) =
  parse tz (date +:+ "T" +:+ time +:+ "." +:+ String a (String b (String c z))).
Proof.
  intros Ha Hb Hc Hr Hz Hd Ht.
  pose proof (parse_time_long time a b c rest z Ha Hb Hc Hr Hz Ht) as Htime.
  revert Htime.
  generalize (time +:+ "." +:+ String a (String b (String c (rest +:+ z)))).
  generalize (time +:+ "." +:+ String a (String b (String c z))).
  intros t2 t1 Htime.
  destruct date as [| y1 [| y2 [| y3 [| y4 [| c1 [| m1 [| m2 [| c2 [| d1 [| d2
    [| ? ?]]]]]]]]]]]; try discriminate Hd.
  cbn [is_date_only] in Hd.
  repeat (apply andb_true_iff in Hd as [Hd ?]).
  repeat match goal with
         | H : bool_decide (_ = _) = true |- _ =>
             apply bool_decide_eq_true_1 in H; subst
         end.
  rewrite !append_cons, !append_nil. unfold parse, parse_date, take4, take2.
  destruct (digit y1), (digit y2), (digit y3), (digit y4);
    cbn [mbind option_bind]; try reflexivity.
  rewrite !expect_same.
  destruct (digit m1), (digit m2); cbn [mbind option_bind]; try reflexivity.
  rewrite !expect_same.
  destruct (digit d1), (digit d2); cbn [mbind option_bind]; try reflexivity.
  rewrite bool_decide_eq_true_2 by done. by rewrite Htime.
Qed.

Lemma append_nil_r (s : string) : s +:+ "" = s.
Proof. induction s as [| c s IH]; [done |]. by rewrite append_cons, IH. Qed.

Lemma append_assoc (u v w : string) : (u +:+ v) +:+ w = u +:+ (v +:+ w).
Proof. induction u as [| c u IH]; [done |]. by rewrite !append_cons, IH. Qed.

Lemma zone_no_digit_ahead z : is_zone z = true → no_digit_ahead z.
Proof.
  destruct z as [| c [| h1 r]]; [done | |]; cbn [is_zone no_digit_ahead].
  - by intros ->%bool_decide_eq_true_1.
  - destruct r as [| h2 [| c1 [| m1 [| m2 [| ? ?]]]]]; try discriminate.
    intros Hz. repeat (apply andb_true_iff in Hz as [Hz _]).
    apply orb_true_iff in Hz as [->%bool_decide_eq_true_1 | ->%bool_decide_eq_true_1];
      reflexivity.
Qed.

(** The pattern finds no match in a text that ends in a zone designator. *)
Lemma replace_micros_zone z :
  is_zone z = true → z ≠ "" → all_digits z = false ∧ replace_micros z = z.
Proof.
  destruct z as [| c [| h1 r]]; [done | |]; cbn [is_zone].
  - by intros ->%bool_decide_eq_true_1.
  - destruct r as [| h2 [| c1 [| m1 [| m2 [| ? ?]]]]]; try discriminate.
    intros Hz _. repeat (apply andb_true_iff in Hz as [Hz ?]).
    apply bool_decide_eq_true_1 in H1 as ->.
    assert (Hc : c ≠ "."%char ∧ is_digit c = false)
      by (apply orb_true_iff in Hz
            as [->%bool_decide_eq_true_1 | ->%bool_decide_eq_true_1]; done).
    destruct Hc as [Hdot Hnd]. split.
    + cbn [all_digits]. by rewrite Hnd.
    + rewrite !replace_micros_cons; [done | | | | | |];
        first [done | by apply is_digit_not_dot].
Qed.

Lemma replace_micros_keeps (x z : string) :
  all_digits z = false → replace_micros z = z →
  replace_micros (x +:+ z) = x +:+ z.
Proof.
  intros Hz Hid. induction x as [| c x IH]; [done |].
  rewrite append_cons.
  change (replace_micros (String c (x +:+ z))) with
    (match match_micros (String c (x +:+ z)) with
     | Some g => "." +:+ g
     | None => String c (replace_micros (x +:+ z))
     end).
  rewrite match_micros_needs_digits, IH; [done |].
  by apply all_digits_app_false.
Qed.

(** C6 (amended). A timestamp with a fractional part of more than three
    digits reads as the timestamp with that part cut to three digits, for
    [formatDate] and for [canCheckIn] alike.  Where the fraction ends the
    text, the code cuts it before [Date] sees it, whatever the [Date] at
    hand accepts; where a zone designator follows, the code hands the text
    on as it is and the engine keeps the milliseconds.  And a date-only
    string [YYYY-MM-DD] of a day that exists reads as that day and the three
    letters of its month, never as ['N/A']. *)
Theorem formatDate_cuts_fraction_and_reads_dates :
  (∀ (E : DateEngine) (p : string) (a b c : ascii) (rest : string),
     long_fraction a b c rest →
     let s := p +:+ "." +:+ String a (String b (String c rest)) in
     let t := p +:+ "." +:+ String a (String b (String c "")) in
     formatDate_input (VStr s) = t ∧
     formatDate (VStr s) = formatDate (VStr t) ∧
     normalized (VStr s) = VStr t ∧
     ∀ now st, canCheckIn now (VStr s) st = canCheckIn now (VStr t) st) ∧
  (∀ tz (date time : string) (a b c : ascii) (rest z : string),
     is_date_only date = true → is_time_of_day time = true →
     long_fraction a b c rest → is_zone z = true →
     let s := date +:+ "T" +:+ time +:+ "." +:+
              String a (String b (String c (rest +:+ z))) in
     let t := date +:+ "T" +:+ time +:+ "." +:+ String a (String b (String c z)) in
     @formatDate (engine tz) (VStr s) = @formatDate (engine tz) (VStr t) ∧
     ∀ now st, @canCheckIn (engine tz) now (VStr s) st =
               @canCheckIn (engine tz) now (VStr t) st) ∧
  (∀ tz y m d,
     - 86400000 <= tz <= 86400000 → valid_date y m d →
     let shown := @formatDate (engine tz) (VStr (date_only_string y m d)) in
     shown = pretty d +:+ " " +:+ month_text (m - 1) ∧
     month_text (m - 1) ∈ months ∧
     shown ≠ "N/A").
Proof.
  split; [| split].
  - intros E p a b c rest Hl s t.
    assert (Hs : replace_micros s = t) by by apply replace_micros_long.
    assert (Ht : replace_micros t = t).
    { destruct Hl as (Ha & Hb & Hc & _). by apply replace_micros_short. }
    assert (Hnd : is_date_only t = false) by apply is_date_only_no_fraction.
    assert (Hin : formatDate_input (VStr s) = t).
    { unfold formatDate_input. cbn [ToString]. by rewrite Hs, Hnd. }
    assert (Hin' : formatDate_input (VStr t) = t).
    { unfold formatDate_input. cbn [ToString]. by rewrite Ht, Hnd. }
    split; [done |]. split; [| split].
    + unfold formatDate. rewrite Hin, Hin'.
      assert (truthy (VStr s) = true ∧ truthy (VStr t) = true) as [-> ->]; [| done].
      subst s t. destruct p; done.
    + unfold normalized. by rewrite Hs.
    + intros now st. unfold canCheckIn, hoursUntilDeparture, normalized.
      by rewrite Hs, Ht.
  - intros tz date time a b c rest z Hd Ht Hl Hz s t.
    pose proof Hl as (Ha & Hb & Hc & Hne & Hr).
    assert (Hparse : parse tz s = parse tz t)
      by (apply parse_long_fraction; try done; by apply zone_no_digit_ahead).
    assert (Hcut : replace_micros t = t ∧ parse tz (replace_micros s) = parse tz t).
    { destruct (decide (z = "")) as [-> | Hzne].
      - subst s t. rewrite append_nil_r.
        pose proof (replace_micros_long (date +:+ "T" +:+ time) a b c rest Hl) as Hs.
        pose proof (replace_micros_short (date +:+ "T" +:+ time) a b c Ha Hb Hc) as Hs'.
        rewrite !append_assoc in Hs, Hs'. split; [exact Hs' |].
        rewrite Hs. by rewrite ?append_assoc.
      - destruct (replace_micros_zone z Hz Hzne) as [Hnd Hid].
        assert (Es : s = (date +:+ "T" +:+ time +:+ "." +:+
                          String a (String b (String c rest))) +:+ z)
          by (subst s; by rewrite !append_assoc).
        assert (Et : t = (date +:+ "T" +:+ time +:+ "." +:+
                          String a (String b (String c ""))) +:+ z)
          by (subst t; by rewrite !append_assoc).
        rewrite Et at 1 2. rewrite Es at 1.
        rewrite !(replace_micros_keeps _ z Hnd Hid). by rewrite <- Es, <- Et. }
    destruct Hcut as [Hcut_t Hcut_s].
    assert (Hlong : ∀ u, is_date_only (date +:+ "T" +:+ u) = false).
    { intros u.
      destruct date as [| y1 [| y2 [| y3 [| y4 [| c1 [| m1 [| m2 [| c2 [| d1 [| d2
        [| ? ?]]]]]]]]]]]; try discriminate Hd.
      rewrite !append_cons, append_nil. reflexivity. }
    assert (Hshape : ∀ u, replace_micros (date +:+ "T" +:+ u) =
                          date +:+ "T" +:+ replace_micros u).
    { intros u.
      destruct date as [| y1 [| y2 [| y3 [| y4 [| c1 [| m1 [| m2 [| c2 [| d1 [| d2
        [| ? ?]]]]]]]]]]]; try discriminate Hd.
      cbn [is_date_only] in Hd. do 9 (apply andb_true_iff in Hd as [Hd ?]).
      repeat match goal with
             | H : bool_decide (_ = _) = true |- _ =>
                 apply bool_decide_eq_true_1 in H; subst
             end.
      rewrite !append_cons, !append_nil.
      rewrite !replace_micros_cons; first [done | by apply is_digit_not_dot]. }
    assert (Hin_s : @Date_parse (engine tz) (formatDate_input (VStr s)) =
                    parse tz t).
    { unfold formatDate_input. cbn [ToString]. subst s.
      rewrite Hshape, Hlong, <- Hshape. exact Hcut_s. }
    assert (Hin_t : formatDate_input (VStr t) = t).
    { unfold formatDate_input. cbn [ToString]. rewrite Hcut_t. subst t.
      by rewrite Hlong. }
    assert (Htruthy : truthy (VStr s) = true ∧ truthy (VStr t) = true).
    { subst s t.
      destruct date as [| y1 ?]; [discriminate Hd |]. by rewrite !append_cons. }
    destruct Htruthy as [Hts Htt]. split.
    + unfold formatDate. rewrite Hts, Htt, Hin_s, Hin_t. reflexivity.
    + intros now st. unfold canCheckIn, hoursUntilDeparture, normalized, new_Date.
      rewrite Hcut_t. cbn [Date_parse engine]. by rewrite Hcut_s.
  - intros tz y m d Htz Hv shown.
    assert (Hshown : shown = pretty d +:+ " " +:+ month_text (m - 1))
      by by apply formatDate_date_only.
    split; [done |]. split; [apply month_text_valid, Hv |].
    rewrite Hshown. destruct Hv as (_ & Hm & Hd).
    assert (Hd31 : 1 <= d <= 31).
    { unfold daysInMonth in Hd. repeat case_match; lia. }
    assert (d = 1 ∨ d = 2 ∨ d = 3 ∨ d = 4 ∨ d = 5 ∨ d = 6 ∨ d = 7 ∨ d = 8 ∨
            d = 9 ∨ d = 10 ∨ d = 11 ∨ d = 12 ∨ d = 13 ∨ d = 14 ∨ d = 15 ∨
            d = 16 ∨ d = 17 ∨ d = 18 ∨ d = 19 ∨ d = 20 ∨ d = 21 ∨ d = 22 ∨
            d = 23 ∨ d = 24 ∨ d = 25 ∨ d = 26 ∨ d = 27 ∨ d = 28 ∨ d = 29 ∨
            d = 30 ∨ d = 31) as Hc by lia.
    repeat (destruct Hc as [Hc | Hc]; [subst d; discriminate |]).
    subst d. discriminate.
Qed.

(** The theorem at a timestamp of the backend without and with a zone
    designator, and at a leap day, for a device three hours east of
    Greenwich. *)
Lemma formatDate_cuts_fraction_and_reads_dates_witness :
  @formatDate (engine 10800000) (VStr "2025-09-18T22:31:52.601155") =
  @formatDate (engine 10800000) (VStr "2025-09-18T22:31:52.601") ∧
  @formatDate (engine 10800000) (VStr "2025-09-18T19:31:52.601155Z") =
  @formatDate (engine 10800000) (VStr "2025-09-18T19:31:52.601Z") ∧
  @formatDate (engine 10800000) (VStr "2024-02-29") = "29 FEB".
Proof.
  split; [| split].
  - refine (proj1 (proj2 (proj1 formatDate_cuts_fraction_and_reads_dates
              (engine 10800000) "2025-09-18T22:31:52"
              "6"%char "0"%char "1"%char "155" _))).
    by vm_compute.
  - refine (proj1 (proj1 (proj2 formatDate_cuts_fraction_and_reads_dates)
              10800000 "2025-09-18" "19:31:52" "6"%char "0"%char "1"%char
              "155" "Z" _ _ _ _)); by vm_compute.
  - refine (proj1 (proj2 (proj2 formatDate_cuts_fraction_and_reads_dates)
              10800000 2024 2 29 _ _)).
    + lia.
    + by vm_compute.
Defined.

(** C6 as stated fails at a string of the shape [YYYY-MM-DD] that names no
    day: it reads as ['N/A']. *)
Lemma formatDate_shape_is_not_enough :
  is_date_only "2025-13-01" = true ∧
  @formatDate (engine 10800000) (VStr "2025-13-01") = "N/A".
Proof. by vm_compute. Qed.

End dates.

(** ** The shared client *)

Section calls.

Lemma getAuthToken_eq w : getAuthToken w = (Ok (or_else (authToken w) VNull), w).
Proof. reflexivity. Qed.

(** The request interceptor lets a request through, with the header when a
    token is stored, unless the stored token is truthy and no text. *)
Lemma request_interceptor_eq method url data w :
  request_interceptor (apiClient method url data) w =
  (if sendable (authToken w) then Ok (request_in w method url data)
   else Throw TypeError, w).
Proof.
  unfold request_interceptor, request_in, mbind, M_bind.
  rewrite getAuthToken_eq. unfold or_else, of_res.
  destruct (authToken w) as [| | [|] | | n | s | l | o]; try reflexivity.
  - cbn. destruct (n =? 0) eqn:Hn; cbn; rewrite ?Hn; reflexivity.
  - cbn. destruct (bool_decide (s = "")) eqn:Hs; cbn; rewrite ?Hs; reflexivity.
Qed.

(** What a call through the shared client comes to: with a token that is a
    text, or with none, the request is sent and the call gets its answer;
    with any other token nothing is sent and no time passes. *)
Lemma call_eq method url data w :
  call method url data w =
  let config := request_in w method url data in
  if sendable (authToken w) then (answer w config, after_call w config)
  else (Throw not_sent, w).
Proof.
  unfold call, mbind at 1, M_bind, try_catch, mbind at 1, M_bind.
  rewrite request_interceptor_eq. cbv zeta.
  destruct (sendable (authToken w)); [| reflexivity].
  set (config := request_in w method url data).
  unfold adapter, after_call, mbind, M_bind, emit, net, wait, mret, M_ret, throw.
  cbn [transport latency set_trace timeout elapsed trace].
  unfold answer.
  change (timeout config) with 15000. change (0 <? 15000) with true. cbn [andb].
  destruct (15000 <? latency w config); [reflexivity |].
  destruct (transport w config) as [status body|]; [| reflexivity].
  destruct (validateStatus status); reflexivity.
Qed.

Lemma answer_after_call w config config' :
  answer (after_call w config') config = answer w config.
Proof. reflexivity. Qed.

Lemma testAPIConnection_eq w :
  testAPIConnection w =
  let config := request_in w "get" "/" VUndefined in
  if sendable (authToken w) then
    (Ok (match answer w config with Ok _ => true | Throw _ => false end),
     after_call w config)
  else (Ok false, w).
Proof.
  unfold testAPIConnection, try_catch, mbind, M_bind. rewrite call_eq. cbv zeta.
  destruct (sendable (authToken w)); [| reflexivity].
  destruct (answer w _); reflexivity.
Qed.

End calls.

(** Steps a run of a handler down to its result and final world. *)
Ltac run_in H :=
  repeat first
    [ progress cbv beta iota zeta delta
        [mbind M_bind mret M_ret try_catch finally emit of_res throw
         setAuthToken clearAuthToken write_global fst snd negb andb orb] in H
    | rewrite testAPIConnection_eq in H
    | rewrite call_eq in H
    | rewrite answer_after_call in H
    | match type of H with
      | context [sendable (authToken ?x)] =>
          match goal with
          | Hs : sendable ?t = _ |- _ =>
              change (sendable (authToken x)) with (sendable t) in H;
              rewrite Hs in H
          end
      end ].

(** Splits a run on whatever its next step waits for. *)
Ltac run_cases H :=
  run_in H;
  repeat (match type of H with
          | context [match ?x with _ => _ end] =>
              lazymatch x with
              | context [match _ with _ => _ end] => fail
              | _ => destruct x eqn:?
              end
          end; run_in H).

(** Closes a membership in a list that is written out. *)
Ltac not_among H :=
  repeat (apply elem_of_cons in H as [H | H]; [discriminate H |]);
  by apply elem_of_nil in H.

Section c8.

Lemma invoke_is_call e : ∃ method url data, invoke e = call method url data.
Proof. destruct e; do 3 eexists; reflexivity. Qed.

Lemma requests_of_app (tr1 tr2 : list event) :
  requests_of (tr1 ++ tr2) = (requests_of tr1 ++ requests_of tr2)%list.
Proof. apply omap_app. Qed.

Lemma server_error_message_plain status data :
  status ≠ 400 → status ≠ 404 → status ≠ 403 →
  server_error_message status data = Ok (raw_message status data).
Proof.
  intros H400 H404 H403. unfold server_error_message.
  destruct (Z.eqb_spec status 400); [done |].
  destruct (Z.eqb_spec status 404); [done |].
  destruct (Z.eqb_spec status 403); done.
Qed.

Lemma server_error_message_400 data text :
  raw_message 400 data = VStr text →
  server_error_message 400 data = Ok (VStr (message_for_400 text)).
Proof.
  intros Hm. unfold server_error_message, message_for_400. rewrite Hm.
  change (400 =? 400) with true. cbn [js_includes].
  destruct (includes text "already cancelled"); [done |].
  destruct (includes text "cancelled"); [done |]. cbn [orb].
  destruct (includes text "not found"); [done |].
  destruct (includes text "cannot be cancelled"); [done |].
  destruct (includes text "Invalid credentials"); [done |].
  by destruct (includes text "Please provide").
Qed.

(** The error thrown for an error status other than 403 and 404 when the
    body gave a text. *)
Lemma response_rejected_text status data text :
  status ≠ 403 → status ≠ 404 → raw_message status data = VStr text →
  response_rejected (WithResponse status data) =
  Error (if status =? 400 then message_for_400 text else text).
Proof.
  intros H403 H404 Hm. unfold response_rejected.
  destruct (Z.eqb_spec status 400) as [-> | H400].
  - by rewrite (server_error_message_400 data text Hm).
  - by rewrite server_error_message_plain, Hm.
Qed.

(** C8, on the code. Every function of the API objects makes its request with
    the timeout of 15000 ms and is over, with a result or an error, within
    that time.  With a stored token that is truthy and no text the request
    interceptor fails: nothing is sent, and the error carries the text of
    that failure.  Otherwise one request is sent; when no response came
    (none at all, or none in time) the error carries the cannot-connect text;
    when a response with an error status came, the error carries a fixed
    text for 403 and 404, and else the text of [detail], or without it of
    [message], or without both ['HTTP error! status: N'], where for 400 a
    text that speaks of a known failure is replaced by the fixed text of
    that failure. *)
Theorem api_calls_time_out_and_tell_failures_apart (e : endpoint) (w : World) :
  ∃ method url data,
    let config := request_in w method url data in
    let r := invoke e w in
    timeout config = 15000 ∧
    trace r.2 =
      (trace w ++ (if sendable (authToken w) then [Sent config] else []))%list ∧
    elapsed w <= elapsed r.2 <= elapsed w + 15000 ∧
    (sendable (authToken w) = false →
       r.1 = Throw (Error (exn_message TypeError))) ∧
    (sendable (authToken w) = true →
       ((15000 < latency w config ∨ transport w config = NoResponse) →
          r.1 = Throw (Error cannot_connect)) ∧
       (∀ status body,
          latency w config <= 15000 →
          transport w config = Responded status body →
          (validateStatus status = true → r.1 = Ok body) ∧
          (validateStatus status = false →
             let told text :=
               r.1 = Throw (Error (if status =? 400 then message_for_400 text
                                   else text)) in
             (status = 404 → r.1 = Throw (Error "Booking not found")) ∧
             (status = 403 →
                r.1 = Throw (Error "Not authorized to perform this action")) ∧
             (status ≠ 403 → status ≠ 404 →
                (∀ text, opt_prop body "detail" = VStr text → text ≠ "" →
                         told text) ∧
                (truthy (opt_prop body "detail") = false →
                 ∀ text, opt_prop body "message" = VStr text → text ≠ "" →
                         told text) ∧
                (truthy (opt_prop body "detail") = false →
                 truthy (opt_prop body "message") = false →
                 told ("HTTP error! status: " +:+ pretty status)))))).
Proof.
  destruct (invoke_is_call e) as (method & url & data & ->).
  exists method, url, data. intros config r.
  subst r. rewrite call_eq. fold config. cbv zeta.
  split; [reflexivity |].
  destruct (sendable (authToken w)) eqn:Hsend; cbn [fst snd].
  - split; [reflexivity |]. split.
    { unfold after_call. cbn [elapsed set_elapsed set_trace].
      destruct (Z.ltb_spec 15000 (latency w config)); lia. }
    split; [discriminate |]. intros _. unfold answer. split.
    + intros [Hlate | Hnone].
      * by destruct (Z.ltb_spec 15000 (latency w config)); [| lia].
      * rewrite Hnone. by destruct (15000 <? latency w config).
    + intros status body Hlat Hresp. rewrite Hresp.
      destruct (Z.ltb_spec 15000 (latency w config)); [lia |].
      split; [by intros -> |]. intros Hbad. rewrite Hbad.
      split; [by intros -> |]. split; [by intros -> |].
      intros H403 H404. split; [| split].
      * intros text Hd Hne. f_equal.
        apply response_rejected_text; [done.. |].
        unfold raw_message, or_else. rewrite Hd. cbn [truthy].
        by rewrite bool_decide_eq_false_2.
      * intros Hnd text Hm Hne. f_equal.
        apply response_rejected_text; [done.. |].
        unfold raw_message, or_else. rewrite Hnd, Hm. cbn [truthy].
        by rewrite bool_decide_eq_false_2.
      * intros Hnd Hnm. f_equal.
        apply response_rejected_text; [done.. |].
        unfold raw_message, or_else. by rewrite Hnd, Hnm.
  - split; [by rewrite app_nil_r |]. split; [lia |]. split; [done |]. discriminate.
Qed.

(** The failing inputs of C8.  Where the request interceptor stops the call, no
    response is received, and the error does not carry the cannot-connect
    text.  And a response 400 whose [detail] is an object is thrown as the
    [TypeError] of the interceptor's own [includes], whose text comes from
    neither the body nor the status. *)
Lemma a_call_can_fail_before_it_is_sent :
  let stopped :=
    bookingsAPI.getBookings (fresh (VNum 12345) (λ _, NoResponse) (λ _, 120) 0) in
  let refused :=
    bookingsAPI.getBookings
      (fresh (VStr "abc")
         (λ _, Responded 400 (VObj {[ "detail" := VObj {[ "code" := VNum 7 ]} ]}))
         (λ _, 120) 0) in
  requests_of (trace stopped.2) = [] ∧
  stopped.1 = Throw (Error (exn_message TypeError)) ∧
  stopped.1 ≠ Throw (Error cannot_connect) ∧
  (timeout <$> requests_of (trace refused.2)) = [15000] ∧
  refused.1 = Throw TypeError.
Proof. by vm_compute. Qed.

End c8.

Create HintDb frames discriminated.

Section frames.
Context {X : Type} (obs : World → X).
Hypothesis obs_elapsed : ∀ ms w, obs (set_elapsed ms w) = obs w.

Lemma preserves_ret {A} (a : A) : preserves obs (mret a).
Proof. by intros w. Qed.

Lemma preserves_throw {A} (e : exn) : preserves obs (@throw A e).
Proof. by intros w. Qed.

Lemma preserves_of_res {A} (r : res A) : preserves obs (of_res r).
Proof. by intros w. Qed.

Lemma preserves_bind {A B} (m : M A) (f : A → M B) :
  preserves obs m → (∀ a, preserves obs (f a)) → preserves obs (m ≫= f).
Proof.
  intros Hm Hf w. unfold mbind, M_bind. specialize (Hm w).
  destruct (m w) as [[a | e] w']; cbn [snd] in *; [| done].
  by rewrite Hf.
Qed.

Lemma preserves_try_catch {A} (m : M A) (h : exn → M A) :
  preserves obs m → (∀ e, preserves obs (h e)) → preserves obs (try_catch m h).
Proof.
  intros Hm Hh w. unfold try_catch. specialize (Hm w).
  destruct (m w) as [[a | e] w']; cbn [snd] in *; [done |].
  by rewrite Hh.
Qed.

Lemma preserves_finally {A} (m : M A) (f : M unit) :
  preserves obs m → preserves obs f → preserves obs (finally m f).
Proof.
  intros Hm Hf w. unfold finally. specialize (Hm w).
  destruct (m w) as [r w']. specialize (Hf w').
  destruct (f w') as [u w'']. cbn [snd] in *. congruence.
Qed.

Lemma preserves_race {A} (deadline : Z) (m : M A) :
  preserves obs m → preserves obs (race deadline m).
Proof.
  intros Hm w. unfold race. specialize (Hm w).
  destruct (m w) as [r w']. cbn [snd] in *.
  destruct (deadline <? elapsed w'); cbn [snd]; [by rewrite obs_elapsed | done].
Qed.

Lemma preserves_wait (ms : Z) : preserves obs (wait ms).
Proof. intros w. apply obs_elapsed. Qed.

Lemma preserves_read_global : preserves obs read_global.
Proof. by intros w. Qed.

Lemma preserves_elapsed_now : preserves obs elapsed_now.
Proof. by intros w. Qed.

Lemma preserves_Date_now : preserves obs Date_now.
Proof. by intros w. Qed.

Lemma preserves_getAuthToken : preserves obs getAuthToken.
Proof. by intros w. Qed.

End frames.

(** Proves that a handler leaves an observation alone, step by step. *)
Ltac frame_step :=
  first
    [ solve [auto 1 with frames]
    | apply preserves_ret | apply preserves_throw | apply preserves_of_res
    | apply preserves_wait; done
    | apply preserves_read_global | apply preserves_elapsed_now
    | apply preserves_Date_now | apply preserves_getAuthToken
    | apply preserves_bind; [| intros ?]
    | apply preserves_try_catch; [| intros ?]
    | apply preserves_finally
    | apply preserves_race; [done |]
    | match goal with
      | |- preserves _ (if ?b then _ else _) => destruct b
      | |- preserves _ (match ?x with _ => _ end) => destruct x
      end ].

Ltac frame := repeat frame_step.

Section token_frames.
Context `{DateEngine}.

Lemma preserves_emit_token (e : event) : preserves authToken (emit e).
Proof. by intros w. Qed.

Lemma preserves_call_token method url data :
  preserves authToken (call method url data).
Proof. intros w. rewrite call_eq. cbv zeta. by destruct (sendable _). Qed.

Lemma preserves_invoke_token e : preserves authToken (invoke e).
Proof.
  destruct (invoke_is_call e) as (method & url & data & ->).
  apply preserves_call_token.
Qed.

#[local] Hint Resolve preserves_emit_token preserves_call_token preserves_invoke_token : frames.

Lemma testAPIConnection_token : preserves authToken testAPIConnection.
Proof. unfold testAPIConnection. frame. Qed.
#[local] Hint Resolve testAPIConnection_token : frames.

Lemma loadUserBookings_token : preserves authToken MyTripsScreen.loadUserBookings.
Proof.
  unfold MyTripsScreen.loadUserBookings, MyTripsScreen.setBookings,
    MyTripsScreen.setIsLoggedIn, MyTripsScreen.setIsLoading, bookingsAPI.getBookings.
  frame.
Qed.
#[local] Hint Resolve loadUserBookings_token : frames.

Lemma checkAuthAndLoadBookings_token :
  preserves authToken MyTripsScreen.checkAuthAndLoadBookings.
Proof.
  unfold MyTripsScreen.checkAuthAndLoadBookings,MyTripsScreen.setBookings,
    MyTripsScreen.setIsLoggedIn, MyTripsScreen.setIsLoading.
  frame.
Qed.

Lemma handleCheckIn_token bookingId :
  preserves authToken (MyTripsScreen.handleCheckIn bookingId).
Proof.
  unfold MyTripsScreen.handleCheckIn, bookingsAPI.checkIn.
  frame.
Qed.

Lemma handleRescheduleBooking_token booking flight sc sn :
  preserves authToken (ManageBookingScreen.handleRescheduleBooking booking flight sc sn).
Proof.
  unfold ManageBookingScreen.handleRescheduleBooking, bookingsAPI.rescheduleBooking.
  frame.
Qed.

Lemma createBooking_token f bookingData :
  preserves authToken (BookScreen.createBooking f bookingData).
Proof. unfold BookScreen.createBooking, bookingsAPI.createBooking. frame. Qed.
#[local] Hint Resolve createBooking_token : frames.

Lemma confirmBooking_token f : preserves authToken (BookScreen.confirmBooking f).
Proof. unfold BookScreen.confirmBooking. frame. Qed.

Lemma handleCancelBooking_token booking :
  preserves authToken (CancelBookingScreen.handleCancelBooking booking).
Proof.
  unfold CancelBookingScreen.handleCancelBooking, bookingsAPI.cancelBooking.
  frame.
Qed.

End token_frames.

Section c9.
Context `{DateEngine}.

Lemma handleLogout_token w : authToken (MenuScreen.handleLogout w).2 = VNull.
Proof.
  unfold MenuScreen.handleLogout, authAPI.logout, try_catch, mbind, M_bind.
  rewrite call_eq. cbv zeta.
  destruct (sendable _); [| reflexivity].
  destruct (answer w _); reflexivity.
Qed.

Lemma perform_keeps_token (a : App.action) (w : World) :
  (∀ f, a ≠ App.Login f) → a ≠ App.Logout →
  authToken (App.perform a w).2 = authToken w.
Proof.
  intros Hlogin Hlogout. destruct a as [f | | | id | b fl sc sn | f | b | e]; cbn [App.perform].
  - by destruct (Hlogin f).
  - done.
  - apply checkAuthAndLoadBookings_token.
  - apply handleCheckIn_token.
  - apply handleRescheduleBooking_token.
  - apply confirmBooking_token.
  - apply handleCancelBooking_token.
  - revert w. apply preserves_try_catch; [| intros ?; apply preserves_ret].
    apply preserves_bind; [apply preserves_invoke_token | intros ?; apply preserves_ret].
Qed.


End c9.

(** ** Cancelling *)

Section c4.
Import CancelBookingScreen.



End c4.

(** The failing input of C4: a login was answered with a number for token,
    and the user cancels the confirmed booking 7.  No request leaves, and
    the screen reports a failure. *)
Example cancel_with_a_number_for_token :
  let booking :=
    VObj (list_to_map [("id", VNum 7); ("booking_status", VStr "confirmed")]) in
  let w := fresh (VNum 12345) (backend (VObj ∅)) (λ _, 120) 0 in
  requests_of (trace (CancelBookingScreen.handleCancelBooking booking w).2) = [] ∧
  alerts_of (trace (CancelBookingScreen.handleCancelBooking booking w).2) =
    [("Error", "Failed to cancel booking. Please try again.")].
Proof. by vm_compute. Qed.

(** The same booking cancelled by a user whose token is a text, and
    reloaded as cancelled. *)
Example cancel_with_a_text_for_token :
  let booking status :=
    VObj (list_to_map [("id", VNum 7); ("booking_status", VStr status)]) in
  let w := fresh (VStr "abc") (backend (VObj ∅)) (λ _, 120) 0 in
  (url <$> requests_of
     (trace (CancelBookingScreen.handleCancelBooking (booking "confirmed") w).2)) =
    ["/api/bookings/7"] ∧
  requests_of
    (trace (CancelBookingScreen.handleCancelBooking (booking "cancelled") w).2) = [].
Proof. by vm_compute. Qed.

(** ** The address pattern *)

Section email.

Lemma addr_run_cons (x : ascii) (r : string) :
  addr_run (String x r) = true ↔
  is_addr_char x = true ∧ (r = "" ∨ addr_run r = true).
Proof.
  destruct r as [| y r].
  - cbn [addr_run]. split; [auto | by intros [? _]].
  - change (addr_run (String x (String y r))) with
      (is_addr_char x && addr_run (String y r)).
    rewrite andb_true_iff. split; [intros [? ?]; auto |].
    intros [? [[=] | ?]]. done.
Qed.

Lemma addr_run_nonempty : addr_run "" = false.
Proof. reflexivity. Qed.

Lemma addr_domain_spec (seen : bool) (s : string) :
  addr_domain seen s = true ↔
  ∃ b c, s = b +:+ "." +:+ c ∧
         ((seen = true ∧ b = "") ∨ addr_run b = true) ∧ addr_run c = true.
Proof.
  revert seen. induction s as [| x r IH]; intros seen.
  - split; [discriminate |]. intros (b & c & Hs & _). by destruct b.
  - cbn [addr_domain]. rewrite orb_true_iff, !andb_true_iff, bool_decide_eq_true, IH.
    split.
    + intros [[[-> ->] Hc] | [Hx (b & c & -> & Hb & Hc)]].
      * exists "", r. auto.
      * exists (String x b), c. split; [done |]. split; [| done].
        right. apply addr_run_cons. split; [done |].
        destruct Hb as [[_ ->] | Hb]; auto.
    + intros (b & c & Hs & Hb & Hc). destruct b as [| y b].
      * injection Hs as -> ->. left.
        destruct Hb as [[-> _] | Hb]; [done | discriminate].
      * injection Hs as -> ->. right.
        destruct Hb as [[_ [=]] | Hb].
        apply addr_run_cons in Hb as [Hy Hb]. split; [done |].
        exists b, c. split; [done |]. split; [| done].
        destruct Hb as [-> | Hb]; auto.
Qed.

Lemma addr_local_spec (seen : bool) (s : string) :
  addr_local seen s = true ↔
  ∃ a rest, s = a +:+ "@" +:+ rest ∧
            ((seen = true ∧ a = "") ∨ addr_run a = true) ∧
            addr_domain false rest = true.
Proof.
  revert seen. induction s as [| x r IH]; intros seen.
  - split; [discriminate |]. intros (a & rest & Hs & _). by destruct a.
  - cbn [addr_local]. rewrite orb_true_iff, !andb_true_iff, bool_decide_eq_true, IH.
    split.
    + intros [[[-> ->] Hc] | [Hx (a & rest & -> & Ha & Hrest)]].
      * exists "", r. auto.
      * exists (String x a), rest. split; [done |]. split; [| done].
        right. apply addr_run_cons. split; [done |].
        destruct Ha as [[_ ->] | Ha]; auto.
    + intros (a & rest & Hs & Ha & Hrest). destruct a as [| y a].
      * injection Hs as -> ->. left.
        destruct Ha as [[-> _] | Ha]; [done | discriminate].
      * injection Hs as -> ->. right.
        destruct Ha as [[_ [=]] | Ha].
        apply addr_run_cons in Ha as [Hy Ha]. split; [done |].
        exists a, rest. split; [done |]. split; [| done].
        destruct Ha as [-> | Ha]; auto.
Qed.

(** The pattern of the confirm button, read as a set of strings: a run of
    class characters, an at sign, a run, a dot, a run. *)
Lemma emailRegex_test_spec (s : string) :
  emailRegex_test s = true ↔
  ∃ a b c, s = a +:+ "@" +:+ b +:+ "." +:+ c ∧
           addr_run a = true ∧ addr_run b = true ∧ addr_run c = true.
Proof.
  unfold emailRegex_test. rewrite addr_local_spec. split.
  - intros (a & rest & -> & [[[=] _] | Ha] & Hrest).
    apply addr_domain_spec in Hrest as (b & c & -> & [[[=] _] | Hb] & Hc).
    by exists a, b, c.
  - intros (a & b & c & -> & Ha & Hb & Hc).
    exists a, (b +:+ "." +:+ c). split; [done |]. split; [by right |].
    apply addr_domain_spec. exists b, c. auto.
Qed.

End email.

(** ** Confirming a booking *)

Section c7.
Import BookScreen.

Lemma valid_form_spec f :
  valid_form f = true ↔
  trim (passengerName f) ≠ "" ∧ trim (passengerEmail f) ≠ "" ∧
  trim (passportNumber f) ≠ "" ∧ truthy (selectedSeat f) = true ∧
  ∃ a b c, passengerEmail f = a +:+ "@" +:+ b +:+ "." +:+ c ∧
           addr_run a = true ∧ addr_run b = true ∧ addr_run c = true.
Proof.
  unfold valid_form.
  rewrite !andb_true_iff, !negb_true_iff, !bool_decide_eq_false, emailRegex_test_spec.
  tauto.
Qed.

Lemma confirmDisabled_invalid f : confirmDisabled f = true → valid_form f = false.
Proof.
  unfold confirmDisabled, valid_form.
  destruct (bool_decide (trim (passengerName f) = "")); [done |].
  destruct (bool_decide (trim (passengerEmail f) = "")); [done |].
  destruct (bool_decide (trim (passportNumber f) = "")); [done |].
  by destruct (truthy (selectedSeat f)).
Qed.

Lemma confirmBooking_valid f :
  valid_form f = true → confirmBooking f = createBooking f (bookingData_of f).
Proof.
  unfold valid_form, confirmBooking. intros Hv.
  repeat (apply andb_true_iff in Hv as [Hv ?]).
  destruct (bool_decide (trim (passengerName f) = "")); [done |].
  destruct (bool_decide (trim (passengerEmail f) = "")); [done |].
  destruct (bool_decide (trim (passportNumber f) = "")); [done |].
  destruct (truthy (selectedSeat f)); [| done].
  destruct (emailRegex_test (passengerEmail f)); done.
Qed.

Lemma confirmBooking_invalid f w :
  valid_form f = false →
  ∃ text, confirmBooking f w =
          (Ok (), set_trace (trace w ++ [Alert "Validation Error" text]) w).
Proof.
  unfold valid_form, confirmBooking. intros Hv.
  destruct (bool_decide (trim (passengerName f) = "")); [by eexists |].
  destruct (bool_decide (trim (passengerEmail f) = "")); [by eexists |].
  destruct (bool_decide (trim (passportNumber f) = "")); [by eexists |].
  destruct (truthy (selectedSeat f)); [| by eexists].
  destruct (emailRegex_test (passengerEmail f)); [done | by eexists].
Qed.

Lemma createBooking_sends f token net lat t0 :
  let w := fresh token net lat t0 in
  let tr := trace (createBooking f (bookingData_of f) w).2 in
  truthy token = true → sendable token = true →
  absent (selectedFlight f) = false →
  requests_of tr = [request_in w "post" "/api/bookings" (bookingPayload_of f)].
Proof.
  intros w tr Ht Hsend Hfl. subst tr.
  destruct (createBooking f (bookingData_of f) w) as [r w'] eqn:Hrun. cbn [snd].
  unfold createBooking, bookingsAPI.createBooking, getAuthToken, read_global in Hrun.
  run_in Hrun. unfold or_else in Hrun. cbn [authToken set_trace w fresh] in Hrun.
  rewrite !Ht in Hrun. run_in Hrun.
  assert (Hprop : ∀ k, prop (selectedFlight f) k = Ok (opt_prop (selectedFlight f) k))
    by (intros k; by destruct (selectedFlight f)).
  rewrite Hprop in Hrun. run_in Hrun.
  destruct (answer _ _) as [booking | e]; run_in Hrun.
  - destruct (prop booking "booking_reference"); run_in Hrun;
      injection Hrun as <- <-; reflexivity.
  - injection Hrun as <- <-; reflexivity.
Qed.

Lemma createBooking_run f bookingData token net lat t0 :
  let w := fresh token net lat t0 in
  let tr := trace (createBooking f bookingData w).2 in
  entered_createBooking ∈ tr ∧
  (requests_of tr ≠ [] → truthy token = true) ∧
  (truthy token = false →
     tr = [entered_createBooking;
           Alert "Authentication Required" "Please log in to create a booking.";
           Push "/login"]).
Proof.
  intros w tr. subst tr.
  destruct (createBooking f bookingData w) as [r w'] eqn:Hrun. cbn [snd].
  unfold createBooking, bookingsAPI.createBooking, getAuthToken, read_global in Hrun.
  run_in Hrun. unfold or_else in Hrun. cbn [authToken set_trace w fresh] in Hrun.
  destruct (truthy token) eqn:Ht.
  - rewrite Ht in Hrun. destruct (sendable token) eqn:Hsend; run_in Hrun.
    all: destruct (prop (selectedFlight f) _) as [price | e]; run_in Hrun.
    + destruct (answer _ _) as [booking | e]; run_in Hrun.
      * destruct (prop booking "booking_reference"); run_in Hrun;
          injection Hrun as <- <-; (split; [cbn; set_solver | done]).
      * injection Hrun as <- <-. split; [cbn; set_solver | done].
    + injection Hrun as <- <-. split; [cbn; set_solver | done].
    + injection Hrun as <- <-. split; [cbn; set_solver | done].
    + injection Hrun as <- <-. split; [cbn; set_solver | done].
  - cbn [truthy] in Hrun. run_in Hrun. injection Hrun as <- <-.
    split; [cbn; set_solver |]. split; [done |]. done.
Qed.

(** C7 (amended). The confirm button calls [createBooking] exactly when the
    form is valid, and then hands it the trimmed fields; when the form is not
    valid its whole effect is one validation alert, so no request is made; a
    request is made only for a valid form with a token stored; for a valid
    form without a token [createBooking] asks the user to log in and sends
    nothing; and for a valid form with a token that is a text and a flight
    selected it sends one POST to /api/bookings with the payload of the
    form. *)
Theorem confirm_validates_before_booking f token net lat t0 :
  let w := fresh token net lat t0 in
  let tr := trace (confirmBooking f w).2 in
  (entered_createBooking ∈ tr ↔ valid_form f = true) ∧
  (valid_form f = true → confirmBooking f = createBooking f (bookingData_of f)) ∧
  (valid_form f = false →
     ∃ text, tr = [Alert "Validation Error" text] ∧ requests_of tr = []) ∧
  (requests_of tr ≠ [] → valid_form f = true ∧ truthy token = true) ∧
  (valid_form f = true → truthy token = false →
     tr = [entered_createBooking;
           Alert "Authentication Required" "Please log in to create a booking.";
           Push "/login"]) ∧
  (valid_form f = true → truthy token = true → sendable token = true →
   absent (selectedFlight f) = false →
     requests_of tr =
       [request_in w "post" "/api/bookings" (bookingPayload_of f)]).
Proof.
  intros w tr.
  destruct (valid_form f) eqn:Hv.
  - assert (Heq := confirmBooking_valid f Hv).
    destruct (createBooking_run f (bookingData_of f) token net lat t0) as (Hin & Hreq & Hno).
    assert (Hsent := createBooking_sends f token net lat t0).
    subst tr w. rewrite Heq.
    split; [done |]. split; [done |]. split; [done |].
    split; [| split; [done |]].
    + intros Hne. split; [done | by apply Hreq].
    + intros _. exact Hsent.
  - destruct (confirmBooking_invalid f w Hv) as [text Heq].
    subst tr. rewrite Heq. cbn [snd trace set_trace w fresh app].
    split.
    { split; [| done]. intros Hin. not_among Hin. }
    split; [done |]. split; [by exists text |]. split; [done |]. split; done.
Qed.

(** C7 as stated fails for a user who is not logged in: the form is valid and
    [createBooking] is called, yet no POST is sent. *)
Lemma confirm_without_token_sends_nothing :
  let f := {| passengerName := "Aisha Khan"; passengerEmail := "aisha@example.com";
              passportNumber := "P1234567"; selectedSeat := VStr "12A";
              seatClass := "economy";
              selectedFlight := VObj {[ "id" := VNum 7 ]};
              reschedule := VUndefined |} in
  let tr := trace (confirmBooking f (fresh VNull (λ _, NoResponse) (λ _, 0) 0)).2 in
  valid_form f = true ∧ entered_createBooking ∈ tr ∧ requests_of tr = [].
Proof. cbv zeta. split; [by vm_compute |]. split; [| by vm_compute].
  vm_compute. set_solver. Qed.

End c7.

(** ** Rescheduling *)

Lemma prop_Ok v k x : prop v k = Ok x → x = opt_prop v k.
Proof. destruct v; cbn; congruence. Qed.

Lemma prop_truthy v k : truthy v = true → prop v k = Ok (opt_prop v k).
Proof. by destruct v. Qed.

Ltac props :=
  repeat match goal with
         | H : prop _ _ = Ok _ |- _ => apply prop_Ok in H; subst
         end.

Section c2.
Import ManageBookingScreen.

(** C2, on the code. Whatever seat class and seat number are selected or
    carried over from the booking, a reschedule confirmation sends no request
    or one request (with a flight selected and a booking loaded: one, unless
    the stored token is truthy and no text, which stops every request), and
    the body of that request holds [new_flight_id] alone: it has no
    [seat_class] and no [seat_number]. *)
Theorem reschedule_request_drops_seat booking flight seatClass seatNumber
    token net lat t0 :
  let w := fresh token net lat t0 in
  let tr := trace (handleRescheduleBooking booking flight seatClass seatNumber w).2 in
  let config :=
    request_in w "post"
      ("/api/bookings/" +:+ ToString (opt_prop booking "id") +:+ "/reschedule")
      (VObj {[ "new_flight_id" := opt_prop flight "id" ]}) in
  (requests_of tr = [] ∨ requests_of tr = [config]) ∧
  (truthy flight = true → absent booking = false →
   requests_of tr = (if sendable token then [config] else [])) ∧
  opt_prop (data config) "seat_class" = VUndefined ∧
  opt_prop (data config) "seat_number" = VUndefined.
Proof.
  intros w tr config. split; [| split; [| done]]; subst tr.
  all: destruct (handleRescheduleBooking booking flight seatClass seatNumber w)
         as [r w'] eqn:Hrun; cbn [snd].
  all: unfold handleRescheduleBooking, bookingsAPI.rescheduleBooking in Hrun.
  - destruct (truthy flight) eqn:Hf; run_in Hrun;
      [| left; by injection Hrun as <- <-].
    rewrite (prop_truthy flight "id" Hf) in Hrun.
    run_cases Hrun; injection Hrun as <- <-; props;
      first [left; reflexivity | right; reflexivity].
  - intros Hf Hb. rewrite Hf in Hrun. run_in Hrun.
    rewrite (prop_truthy flight "id" Hf) in Hrun.
    assert (Hprop : ∀ k, prop booking k = Ok (opt_prop booking k))
      by (intros k; by destruct booking).
    rewrite !Hprop in Hrun.
    destruct (sendable token) eqn:Hsend;
      run_cases Hrun; injection Hrun as <- <-; reflexivity.
Qed.
End c2.

(** ** Checking in *)

Section alert_frames.
Context `{DateEngine}.

Lemma alerts_of_app (tr1 tr2 : list event) :
  alerts_of (tr1 ++ tr2) = (alerts_of tr1 ++ alerts_of tr2)%list.
Proof. apply omap_app. Qed.

Lemma preserves_call_alerts method url data :
  preserves (λ w, alerts_of (trace w)) (call method url data).
Proof.
  intros w. rewrite call_eq. cbv zeta. destruct (sendable _); [| reflexivity].
  cbn [snd after_call trace set_elapsed set_trace].
  rewrite alerts_of_app. apply app_nil_r.
Qed.

Lemma preserves_SetState_alerts name v :
  preserves (λ w, alerts_of (trace w)) (emit (SetState name v)).
Proof.
  intros w. cbn [emit snd trace set_trace]. rewrite alerts_of_app. apply app_nil_r.
Qed.

#[local] Hint Resolve preserves_call_alerts preserves_SetState_alerts : frames.

Lemma testAPIConnection_alerts :
  preserves (λ w, alerts_of (trace w)) testAPIConnection.
Proof. unfold testAPIConnection. frame. Qed.
#[local] Hint Resolve testAPIConnection_alerts : frames.

Lemma loadUserBookings_alerts :
  preserves (λ w, alerts_of (trace w)) MyTripsScreen.loadUserBookings.
Proof.
  unfold MyTripsScreen.loadUserBookings, MyTripsScreen.setBookings,
    MyTripsScreen.setIsLoggedIn, MyTripsScreen.setIsLoading, bookingsAPI.getBookings.
  frame.
Qed.

Lemma loadUserBookings_returns w :
  ∃ w', MyTripsScreen.loadUserBookings w = (Ok (), w').
Proof.
  unfold MyTripsScreen.loadUserBookings, try_catch.
  match goal with |- context [match ?m w with _ => _ end] =>
    destruct (m w) as [[[] | e] w1] end.
  - by eexists.
  - destruct (MyTripsScreen.isAuthError _); by eexists.
Qed.

(** C3, on the code. When the check-in call is answered with success and a
    body that has no field [data] (the body holds [loyalty_rewards] and
    [tier_upgrade] themselves), [handleCheckIn] shows the generic success
    alert and no other alert: the rewards summary is not shown.  (With a
    stored token that is truthy and no text the call is not sent, and the one
    alert is the error.) *)
Theorem checkin_shows_generic_message bookingId token net lat t0
    (o : gmap string jsval) :
  let w := fresh token net lat t0 in
  let config :=
    request_in w "post" ("/api/bookings/" +:+ ToString bookingId +:+ "/checkin")
      VUndefined in
  answer w config = Ok (VObj o) →
  o !! "data" = None →
  alerts_of (trace (MyTripsScreen.handleCheckIn bookingId w).2) =
  (if sendable token then [("Success", "Check-in completed successfully!")]
   else [("Error", exn_message not_sent)]).
Proof.
  intros w config Hans Hdata.
  destruct (MyTripsScreen.handleCheckIn bookingId w) as [r w'] eqn:Hrun. cbn [snd].
  unfold MyTripsScreen.handleCheckIn, bookingsAPI.checkIn in Hrun.
  destruct (sendable token) eqn:Hsend; run_in Hrun.
  2: { by injection Hrun as <- <-. }
  change (answer _ _) with (answer w config) in Hrun.
  rewrite Hans in Hrun. run_in Hrun.
  cbn [prop] in Hrun. rewrite Hdata in Hrun. cbn [default truthy] in Hrun.
  run_in Hrun.
  match type of Hrun with context [MyTripsScreen.loadUserBookings ?w1] =>
    pose proof (loadUserBookings_alerts w1) as Hload;
    destruct (loadUserBookings_returns w1) as [w2 Heq];
    rewrite Heq in Hrun, Hload
  end.
  cbn [snd] in Hload. injection Hrun as <- <-.
  rewrite Hload. reflexivity.
Qed.

End alert_frames.

(** ** My Trips *)

Section c5.
Context `{DateEngine}.
Import MyTripsScreen.

Lemma has_id_prop (b : jsval) (k : string) :
  absent (opt_prop b "id") = false → prop b k = Ok (opt_prop b k).
Proof. by destruct b. Qed.

Lemma isActive_eq (b : jsval) :
  absent (opt_prop b "id") = false → isActive b = Ok (activeb b).
Proof. intros Hb. unfold isActive. by rewrite (has_id_prop b _ Hb). Qed.

Lemma filter_elements_active (l : list jsval) :
  Forall (λ b, absent (opt_prop b "id") = false) l →
  filter_elements isActive l = Ok (List.filter activeb l).
Proof.
  induction 1 as [| b l Hb _ IH]; [done |].
  cbn [filter_elements List.filter]. rewrite (isActive_eq b Hb), IH.
  cbn [mbind res_bind]. by destruct (activeb b).
Qed.

Lemma transformBooking_ok now (b : jsval) :
  absent (opt_prop b "id") = false → ∃ t, transformBooking now b = Ok t.
Proof.
  intros Hb. unfold transformBooking. rewrite (has_id_prop b _ Hb).
  cbn [mbind res_bind].
  destruct (opt_prop b "id"); try done; by eexists.
Qed.

Lemma array_map_Forall2 (f : jsval → res jsval) (l l' : list jsval) :
  array_map f l = Ok l' ↔ Forall2 (λ x y, f x = Ok y) l l'.
Proof.
  revert l'. induction l as [| x l IH]; intros l'; cbn [array_map].
  - split; [intros [= <-]; constructor | by inversion 1].
  - split.
    + destruct (f x) as [y | e] eqn:Hx; cbn [mbind res_bind]; [| done].
      destruct (array_map f l) as [r | e] eqn:Hl; cbn [mbind res_bind]; [| done].
      intros [= <-]. constructor; [done |]. by apply IH.
    + inversion 1 as [| ? y ? r Hx Hr]; subst.
      rewrite Hx. cbn [mbind res_bind].
      apply IH in Hr. rewrite Hr. done.
Qed.

Lemma array_map_total (f : jsval → res jsval) (l : list jsval) :
  Forall (λ x, ∃ y, f x = Ok y) l → ∃ l', array_map f l = Ok l'.
Proof.
  induction 1 as [| x l [y Hy] _ [l' IH]]; [by eexists |].
  exists (y :: l'). cbn [array_map]. by rewrite Hy, IH.
Qed.

(** C5 (amended). When the user is logged in, with a token that is a text,
    and the server answers the connection test and then GET /api/bookings
    with the array [l] of bookings (each with an id), both within the ten
    seconds the screen allows them together, the whole run of
    [loadUserBookings] is these two requests and three state updates, and
    the bookings it sets are the bookings of [l] whose status is not
    ['cancelled'], each transformed on its own, in the order of [l]. *)
Theorem my_trips_shows_active_bookings token net lat t0 (l : list jsval) :
  let w := fresh token net lat t0 in
  let ping := request_in w "get" "/" VUndefined in
  let fetch := request_in w "get" "/api/bookings" VUndefined in
  let now := t0 + (Z.max 0 (lat ping) + Z.max 0 (lat fetch)) in
  let active := List.filter activeb l in
  truthy token = true → sendable token = true →
  (∃ b, answer w ping = Ok b) →
  answer w fetch = Ok (VArr l) →
  Z.max 0 (lat ping) + Z.max 0 (lat fetch) <= 10000 →
  Forall (λ b, absent (opt_prop b "id") = false) l →
  ∃ displayed,
    trace (loadUserBookings w).2 =
      [Sent ping; Sent fetch; SetState "bookings" (VArr displayed);
       SetState "isLoggedIn" (VBool true); SetState "isLoading" (VBool false)] ∧
    Forall2 (λ b t, transformBooking now b = Ok t) active displayed ∧
    (∀ b, b ∈ active ↔
          b ∈ l ∧ opt_prop b "booking_status" ≠ VStr "cancelled").
Proof.
  intros w ping fetch now active Htoken Hsend [b0 Hping] Hfetch Htime Hids.
  assert (Hactive : Forall (λ b, ∃ t, transformBooking now b = Ok t) active).
  { subst active. apply Forall_forall. intros b Hb.
    apply list_elem_of_In, filter_In in Hb as [Hb _].
    apply transformBooking_ok. rewrite Forall_forall in Hids.
    by apply Hids, list_elem_of_In. }
  destruct (array_map_total _ _ Hactive) as [displayed Hmap].
  exists displayed. split; [| split].
  - assert (Hlat0 : (15000 <? lat ping) = false).
    { unfold answer in Hping. change (latency w ping) with (lat ping) in Hping.
      by destruct (15000 <? lat ping). }
    assert (Hlat1 : (15000 <? lat fetch) = false).
    { unfold answer in Hfetch. change (latency w fetch) with (lat fetch) in Hfetch.
      by destruct (15000 <? lat fetch). }
    destruct (loadUserBookings w) as [r w'] eqn:Hrun. cbn [snd].
    unfold loadUserBookings, bookingsAPI.getBookings, race, elapsed_now,
      getAuthToken, read_global, Date_now, setBookings, setIsLoggedIn, setIsLoading in Hrun.
    run_in Hrun.
    change (answer _ (request_in _ "get" "/" _)) with (answer w ping) in Hrun.
    rewrite Hping in Hrun.
    cbn [elapsed after_call set_elapsed set_trace w fresh] in Hrun.
    fold w ping in Hrun. change (latency w ping) with (lat ping) in Hrun.
    rewrite Hlat0 in Hrun.
    match type of Hrun with context [?a <? ?b] =>
      destruct (Z.ltb_spec a b); [lia |] end.
    run_in Hrun. unfold or_else in Hrun.
    cbn [authToken after_call set_elapsed set_trace w fresh] in Hrun.
    rewrite !Htoken in Hrun. run_in Hrun.
    change (answer _ (request_in _ "get" BOOKINGS _)) with (answer w fetch) in Hrun.
    rewrite Hfetch in Hrun.
    cbn [elapsed after_call set_elapsed set_trace w fresh latency] in Hrun.
    change (request_in _ "get" BOOKINGS VUndefined) with fetch in Hrun.
    fold ping in Hrun.
    rewrite Hlat0, Hlat1 in Hrun.
    match type of Hrun with context [?a <? ?b] =>
      destruct (Z.ltb_spec a b); [lia |] end.
    run_in Hrun.
    change (array_filter (VArr l) isActive) with (filter_elements isActive l) in Hrun.
    rewrite (filter_elements_active l Hids) in Hrun. run_in Hrun.
    fold active in Hrun.
    cbn [startTime elapsed after_call set_elapsed set_trace w fresh latency] in Hrun.
    fold ping fetch in Hrun. rewrite ?Hlat0, ?Hlat1 in Hrun.
    replace (t0 + (0 + Z.max 0 (lat ping) + Z.max 0 (lat fetch))) with now in Hrun
      by (subst now; lia).
    rewrite Hmap in Hrun. injection Hrun as <- <-. reflexivity.
  - by apply array_map_Forall2.
  - intros b. subst active. rewrite list_elem_of_In, filter_In, <- list_elem_of_In.
    unfold activeb. rewrite negb_true_iff, <- not_true_iff_false, is_str_true. done.
Qed.
End c5.

(** ** The theorems at concrete inputs *)

Section concrete.
Import ESDate.

(** C5 at three bookings, the second of them cancelled. *)
Lemma my_trips_shows_active_bookings_witness :
  ∃ displayed,
    states_of "bookings"
      (trace (@MyTripsScreen.loadUserBookings (engine 10800000)
                (fresh (VStr "token") (backend (VArr three_bookings)) (λ _, 120)
                   1758213112601)).2) = [VArr displayed] ∧
    length displayed = 2%nat.
Proof.
  destruct (@my_trips_shows_active_bookings (engine 10800000)
              (VStr "token") (backend (VArr three_bookings)) (λ _, 120)
              1758213112601 three_bookings) as (displayed & Hset & Hall & _).
  - reflexivity.
  - reflexivity.
  - by eexists.
  - reflexivity.
  - by vm_compute.
  - repeat constructor.
  - exists displayed. split; [by rewrite Hset |].
    apply Forall2_length in Hall. by rewrite <- Hall.
Defined.

(** C5 as stated fails for an array that comes after the ten seconds: the
    fetch of the bookings is answered with three bookings after 10.5
    seconds, within the timeout of the client, and the screen sets an empty
    list. *)
Lemma my_trips_drops_a_late_answer :
  let w := fresh (VStr "token") (backend (VArr three_bookings))
             (λ r, if bool_decide (url r = "/") then 120 else 10500)
             1758213112601 in
  answer w (request_in w "get" "/api/bookings" VUndefined) =
    Ok (VArr three_bookings) ∧
  (url <$> requests_of (trace (@MyTripsScreen.loadUserBookings (engine 10800000) w).2)) =
    ["/"; "/api/bookings"] ∧
  states_of "bookings"
    (trace (@MyTripsScreen.loadUserBookings (engine 10800000) w).2) = [VArr []].
Proof. by vm_compute. Qed.

(** C3 at a body with rewards and a tier upgrade. *)
Lemma checkin_shows_generic_message_witness :
  alerts_of
    (trace (@MyTripsScreen.handleCheckIn (engine 10800000) (VStr "17")
              (fresh (VStr "token") (backend (VObj rewards_body)) (λ _, 120)
                 1758213112601)).2) =
  [("Success", "Check-in completed successfully!")].
Proof.
  apply (@checkin_shows_generic_message (engine 10800000) (VStr "17")
           (VStr "token") (backend (VObj rewards_body)) (λ _, 120)
           1758213112601 rewards_body).
  - reflexivity.
  - reflexivity.
Defined.

End concrete.

(** ** The handlers at work *)

Section examples.
Import ESDate MyTrips.

(** The failing input of C2: business class and seat 1A are selected, and the
    request that leaves carries the new flight only. *)
Example reschedule_with_selected_seat :
  requests_of
    (trace (ManageBookingScreen.handleRescheduleBooking
              (VObj (list_to_map [("id", VNum 7); ("seat_class", VStr "economy");
                                  ("seat_number", VStr "12A")]))
              (VObj (list_to_map [("id", VNum 9); ("flight_number", VStr "GF005")]))
              (VStr "business") (VStr "1A")
              (fresh (VStr "abc") (backend (VObj ∅)) (λ _, 120) 0)).2) =
  [ {| method := "post"; url := "/api/bookings/7/reschedule";
       data := VObj {[ "new_flight_id" := VNum 9 ]};
       baseURL := "http://localhost:8000"; timeout := 15000;
       Authorization := Some "Bearer abc" |} ].
Proof. by vm_compute. Qed.

(** What [handleCheckIn] shows for the same rewards when they arrive under a
    field [data]: the summary the screen was written to show. *)
Example checkin_with_wrapped_body :
  alerts_of
    (trace (@MyTripsScreen.handleCheckIn (engine 10800000) (VStr "17")
              (fresh (VStr "abc")
                 (backend (VObj {[ "data" := VObj rewards_body ]})) (λ _, 120)
                 1758213112601)).2) =
  [ (MyTripsScreen.party +:+ " TIER UPGRADE! " +:+ MyTripsScreen.party,
     "CONGRATULATIONS! You've been upgraded to GOLD tier!" +:+ nl +:+ nl +:+
     "Previous Tier: SILVER" +:+ nl +:+ "New Tier: GOLD" +:+ nl +:+ nl +:+
     "You earned 4500 miles and 30 points!" +:+ nl +:+
     "Total Miles: 12500" +:+ nl +:+ nl +:+ "Enjoy your new GOLD benefits!") ].
Proof. by vm_compute. Qed.

(** A booking cancelled twice: the first press sends the DELETE and reports
    success, the second, on the booking reloaded as cancelled, sends nothing
    and reports that it is cancelled already. *)
Example cancel_twice :
  let booking status :=
    VObj (list_to_map [("id", VNum 7); ("booking_status", VStr status)]) in
  let w := fresh (VStr "abc") (backend (VObj ∅)) (λ _, 120) 0 in
  let first := trace (CancelBookingScreen.handleCancelBooking (booking "confirmed") w).2 in
  let second := trace (CancelBookingScreen.handleCancelBooking (booking "cancelled") w).2 in
  (url <$> requests_of first) = ["/api/bookings/7"] ∧
  (fst <$> alerts_of first) = ["Booking Cancelled"] ∧
  requests_of second = [] ∧
  alerts_of second =
    [("Already Cancelled", "This booking has already been cancelled.")].
Proof. by vm_compute. Qed.

(** Logging in stores the token of the response, and the next request carries
    it. *)
Example login_then_request :
  let f := {| LoginScreen.isLoading := false; LoginScreen.loginMethod := "email";
              LoginScreen.falconFlyerNumber := "";
              LoginScreen.email := "aisha@example.com";
              LoginScreen.password := "secret" |} in
  let w := fresh VUndefined (backend (VObj {[ "token" := VStr "abc" ]})) (λ _, 120) 0 in
  let w' := (LoginScreen.handleLogin f w).2 in
  authToken w' = VStr "abc" ∧
  (Authorization <$> requests_of (trace w')) = [None; None] ∧
  (Authorization <$> requests_of (trace (bookingsAPI.getBookings w').2)) =
    [None; None; Some "Bearer abc"] ∧
  authToken (MenuScreen.handleLogout w').2 = VNull.
Proof. by vm_compute. Qed.

(** The check-in window at its edges, for a device three hours east of
    Greenwich and a departure at 19:31:52.601 UTC on 18 September 2025. *)
Example window_edges :
  let departure := VStr "2025-09-18T19:31:52.601155Z" in
  let at_departure := 1758223912601 in
  let day := 86400000 in
  @canCheckIn (engine 10800000) (at_departure - day) (VStr "2025-09-18T22:31:52.601155")
     (VStr "confirmed") = true ∧
  @canCheckIn (engine 10800000) (at_departure - day - 1) (VStr "2025-09-18T22:31:52.601155")
     (VStr "confirmed") = false ∧
  @canCheckIn (engine 10800000) at_departure (VStr "2025-09-18T22:31:52.601155")
     (VStr "confirmed") = false ∧
  @canCheckIn (engine 10800000) (at_departure - 1) (VStr "2025-09-18T22:31:52.601155")
     (VStr "confirmed") = true ∧
  @canCheckIn (engine 10800000) (at_departure - 1) (VStr "2025-09-18T22:31:52.601155")
     (VStr "checked_in") = false.
Proof. by vm_compute. Qed.

End examples.

(** * Further properties of the screens *)

(** ** What the response interceptor makes of a 400 *)

Section interceptor.

Lemma string_app_assoc (a b c : string) : (a +:+ b) +:+ c = a +:+ b +:+ c.
Proof.
  induction a as [|x a IH]; [done |].
  change ((String x a +:+ b) +:+ c) with (String x ((a +:+ b) +:+ c)).
  by rewrite IH.
Qed.

Lemma prefix_spec (sub s : string) :
  String.prefix sub s = true ↔ ∃ post, s = sub +:+ post.
Proof.
  revert s. induction sub as [|x sub IH]; intros s.
  - split; [intros _; by exists s | by destruct s].
  - destruct s as [|y s]; cbn [String.prefix].
    + split; [done | by intros [post Hp]].
    + destruct (ascii_dec x y) as [-> | Hxy].
      * rewrite IH. split; intros [post Hp]; exists post.
        -- by rewrite Hp.
        -- by injection Hp.
      * split; [done |]. intros [post Hp]. by injection Hp as -> _.
Qed.

Lemma includes_spec (s sub : string) :
  includes s sub = true ↔ ∃ pre post, s = pre +:+ sub +:+ post.
Proof.
  induction s as [|x s IH]; cbn [includes]; rewrite orb_true_iff, prefix_spec.
  - split.
    + intros [[post Hp] | Hf]; [by exists "", post | done].
    + intros (pre & post & Hp). left. destruct pre; [by exists post | done].
  - rewrite IH. split.
    + intros [[post Hp] | (pre & post & Hp)].
      * by exists "", post.
      * exists (String x pre), post. by rewrite Hp.
    + intros (pre & post & Hp). destruct pre as [|y pre].
      * left. by exists post.
      * right. exists pre, post. by injection Hp.
Qed.

(** A text that includes a phrase includes every part of the phrase. *)
Lemma includes_part (s a b c : string) :
  includes s (a +:+ b +:+ c) = true → includes s b = true.
Proof.
  rewrite !includes_spec. intros (pre & post & ->).
  exists (pre +:+ a), (c +:+ post). by rewrite !string_app_assoc.
Qed.

Lemma cannot_be_cancelled_includes_cancelled (s : string) :
  includes s "cannot be cancelled" = true → includes s "cancelled" = true.
Proof. apply (includes_part s "cannot be " "cancelled" ""). Qed.

(** X1. When the body of a 400 response carries a text (in [detail], or else
    in [message]), the error the response interceptor throws never reads
    ['Booking cannot be cancelled at this time']: a text that includes
    ['cannot be cancelled'] includes ['cancelled'], which the interceptor
    tests first, so such a response is thrown as ['Booking already
    cancelled']. *)
Theorem status_400_never_says_cannot_be_cancelled (body : jsval) (text : string) :
  raw_message 400 body = VStr text →
  response_rejected (WithResponse 400 body) ≠
    Error "Booking cannot be cancelled at this time" ∧
  (includes text "cannot be cancelled" = true →
   response_rejected (WithResponse 400 body) = Error "Booking already cancelled").
Proof.
  intros Hraw. unfold response_rejected, server_error_message.
  rewrite Hraw. change (400 =? 400) with true. cbn [js_includes].
  destruct (includes text "cancelled") eqn:Hc.
  - split; [by destruct (includes text "already cancelled") |].
    intros _. by destruct (includes text "already cancelled").
  - assert (Hcbc : includes text "cannot be cancelled" = false).
    { destruct (includes text "cannot be cancelled") eqn:Hx; [| done].
      apply cannot_be_cancelled_includes_cancelled in Hx. congruence. }
    rewrite Hcbc. split; [| done].
    destruct (includes text "already cancelled"); [done |].
    destruct (includes text "not found"); [done |].
    destruct (includes text "Invalid credentials"); [done |].
    destruct (includes text "Please provide"); [done |].
    cbn [new_Error ToString]. intros [= ->]. by vm_compute in Hc.
Qed.

(** At the text of the backend for a booking too close to departure. *)
Lemma status_400_never_says_cannot_be_cancelled_witness :
  response_rejected
    (WithResponse 400
       (VObj {[ "detail" := VStr "Booking cannot be cancelled within 2 hours of departure" ]})) =
  Error "Booking already cancelled".
Proof.
  refine (proj2 (status_400_never_says_cannot_be_cancelled _
                   "Booking cannot be cancelled within 2 hours of departure" _) _);
    by vm_compute.
Defined.

End interceptor.

Section cancel_on_400.
Import CancelBookingScreen.

Lemma status_400_message (body : jsval) (text : string) :
  raw_message 400 body = VStr text →
  ∃ m, response_rejected (WithResponse 400 body) = Error m ∧
       (m = "Booking already cancelled" ∧ includes text "cancelled" = true ∨
        includes m "cannot be cancelled" = false ∧ includes text "cancelled" = false).
Proof.
  intros Hraw. unfold response_rejected, server_error_message.
  rewrite Hraw. change (400 =? 400) with true. cbn [js_includes].
  destruct (includes text "cancelled") eqn:Hc.
  - exists "Booking already cancelled".
    split; [by destruct (includes text "already cancelled") | by left].
  - assert (Hcbc : includes text "cannot be cancelled" = false).
    { destruct (includes text "cannot be cancelled") eqn:Hx; [| done].
      apply cannot_be_cancelled_includes_cancelled in Hx. congruence. }
    rewrite Hcbc.
    destruct (includes text "already cancelled");
      [eexists; split; [reflexivity | by right] |].
    destruct (includes text "not found");
      [eexists; split; [reflexivity | by right] |].
    destruct (includes text "Invalid credentials");
      [eexists; split; [reflexivity | by right] |].
    destruct (includes text "Please provide");
      [eexists; split; [reflexivity | by right] |].
    exists (match text with "" => "" | _ => text end). split.
    + by destruct text.
    + right. by destruct text.
Qed.

(** X2. On the cancel screen, with a stored token that is a text or with
    none, when the DELETE of a booking that is not cancelled is answered 400
    with a text, the alert ['This booking cannot be cancelled at this time.']
    is never shown; a text that includes ['cannot be cancelled'] is shown as
    ['Already Cancelled']. *)
Theorem cancel_screen_misreports_refusal (o : gmap string jsval)
    (token : jsval) (net : request → reply) (lat : request → Z) (t0 : Z)
    (body : jsval) (text : string) :
  let booking := VObj o in
  let w := fresh token net lat t0 in
  let tr := trace (handleCancelBooking booking w).2 in
  let config :=
    request_in w "delete" ("/api/bookings/" +:+ ToString (opt_prop booking "id"))
      VUndefined in
  sendable token = true →
  is_str (opt_prop booking "booking_status") "cancelled" = false →
  lat config <= 15000 → net config = Responded 400 body →
  raw_message 400 body = VStr text →
  (("Error", "This booking cannot be cancelled at this time.") ∉ alerts_of tr) ∧
  (includes text "cannot be cancelled" = true →
   alerts_of tr = [("Already Cancelled", already_cancelled_text)]).
Proof.
  intros booking w tr config Hsend Hc Hlat Hnet Hraw.
  destruct (status_400_message body text Hraw) as (m & Hm & Hcases).
  assert (Hans : answer w config = Throw (Error m)).
  { unfold answer. change (latency w config) with (lat config).
    change (transport w config) with (net config). rewrite Hnet.
    destruct (Z.ltb_spec 15000 (lat config)); [lia |].
    change (validateStatus 400) with false. cbv iota. by rewrite Hm. }
  subst tr.
  destruct (handleCancelBooking booking w) as [r w'] eqn:Hrun; cbn [snd].
  unfold handleCancelBooking, bookingsAPI.cancelBooking in Hrun.
  rewrite Hc in Hrun. run_in Hrun.
  change (prop booking "id") with (Ok (opt_prop booking "id")) in Hrun.
  run_in Hrun.
  match type of Hrun with context [answer ?w1 ?c] =>
    change (answer w1 c) with (answer w config) in Hrun end.
  rewrite Hans in Hrun. run_in Hrun. cbn [exn_message] in Hrun.
  destruct Hcases as [[-> Hinc] | [Hno Hinc]].
  - change (includes "Booking already cancelled" "already cancelled") with true in Hrun.
    run_in Hrun. injection Hrun as <- <-.
    split; [| done]. intros Hin. cbn in Hin. not_among Hin.
  - rewrite Hno in Hrun.
    split.
    + destruct (includes m "already cancelled"); run_in Hrun;
        [| destruct (includes m "not found"); run_in Hrun];
        injection Hrun as <- <-; intros Hin; cbn in Hin; not_among Hin.
    + intros Hx. apply cannot_be_cancelled_includes_cancelled in Hx. congruence.
Qed.

(** A booking the backend refuses to cancel two hours before departure. *)
Lemma cancel_screen_misreports_refusal_witness :
  alerts_of
    (trace (handleCancelBooking
              (VObj (list_to_map [("id", VNum 7); ("booking_status", VStr "confirmed")]))
              (fresh (VStr "abc")
                 (λ _, Responded 400
                         (VObj {[ "detail" :=
                            VStr "Booking cannot be cancelled within 2 hours of departure" ]}))
                 (λ _, 120) 0)).2) =
  [("Already Cancelled", already_cancelled_text)].
Proof.
  refine (proj2 (cancel_screen_misreports_refusal
                   (list_to_map [("id", VNum 7); ("booking_status", VStr "confirmed")])
                   (VStr "abc") _ (λ _, 120) 0 _
                   "Booking cannot be cancelled within 2 hours of departure"
                   _ _ _ _ _) _);
    by vm_compute.
Defined.

End cancel_on_400.

Section details_that_are_no_text.

Lemma ToString_objects (l : list jsval) :
  Forall (λ v, ∃ o, v = VObj o) l →
  ToString (VArr l) = join "," (map (λ _, "[object Object]") l).
Proof.
  intros Hl. cbn [ToString]. f_equal.
  induction Hl as [|v l [o ->] _ IH]; [done |]. cbn [map]. by rewrite IH.
Qed.

(** X3. A [detail] that is no text is not reported as the server wrote it.
    On a 400 whose [detail] is an object, a number or [true], the interceptor
    calls [includes] on it and fails with a [TypeError] of its own instead of
    throwing an error made from the response; on a status other than 400,
    403 and 404, a [detail] that is a list of objects (as a framework's
    validation errors are) becomes a message of as many ['[object Object]']
    as the list has entries. *)
Theorem detail_that_is_no_text_is_lost :
  (∀ body detail,
     opt_prop body "detail" = detail →
     match detail with
     | VObj _ => True
     | VNum n => n ≠ 0
     | VBool b => b = true
     | _ => False
     end →
     response_rejected (WithResponse 400 body) = TypeError) ∧
  (∀ status body l,
     status ≠ 400 → status ≠ 403 → status ≠ 404 →
     opt_prop body "detail" = VArr l →
     Forall (λ v, ∃ o, v = VObj o) l →
     response_rejected (WithResponse status body) =
     Error (join "," (map (λ _, "[object Object]") l))).
Proof.
  split.
  - intros body detail Hd Hshape.
    unfold response_rejected, server_error_message, raw_message.
    rewrite Hd. change (400 =? 400) with true.
    destruct detail as [| | b | | n | | |]; try done.
    + by subst b.
    + unfold or_else. cbn [truthy]. by destruct (Z.eqb_spec n 0).
  - intros status body l H400 H403 H404 Hd Hl.
    unfold response_rejected. rewrite server_error_message_plain by done.
    unfold raw_message. rewrite Hd. unfold or_else. cbn [truthy new_Error].
    by rewrite ToString_objects.
Qed.

End details_that_are_no_text.

(** ** Signing in, signing up, signing out *)

Section sessions.

(** X4. Logging out always ends signed out: whatever the backend makes of
    the logout request, and also when the request interceptor stops it (a
    stored token that is truthy and no text), the handler clears the token,
    tells that the user has been signed out and replaces the screen by the
    login screen; it sends the logout request, that one request, unless the
    interceptor stopped it; the alert ['Logout Failed'] is never shown. *)
Theorem logout_always_signs_out (w : World) :
  let r := MenuScreen.handleLogout w in
  r.1 = Ok () ∧
  trace r.2 =
    (trace w ++
     (if sendable (authToken w)
      then [Sent (request_in w "post" "/auth/logout" VUndefined)] else []) ++
     [Alert "Logged out" "You have been signed out."; Replace "/login"])%list ∧
  authToken r.2 = VNull.
Proof.
  intros r. subst r.
  unfold MenuScreen.handleLogout, authAPI.logout, try_catch, mbind, M_bind.
  rewrite call_eq. cbv zeta.
  destruct (sendable (authToken w)).
  - destruct (answer w _); cbn; rewrite <- !(assoc_L app); done.
  - cbn. rewrite <- !(assoc_L app). done.
Qed.

(** X5. [handleLogin] sends nothing while a login is in progress or a
    required field is blank; otherwise it tests the connection first and
    posts the credentials only when that test was answered with a status
    from 200 to 299, in a body that holds the password and the identifier of
    the chosen method only, neither trimmed; when the test fails the password
    never leaves the device and the connection error is shown, and so it is
    when a stored token that is truthy and no text keeps the test from
    being sent at all; and the loading flag set at the start is reset at the
    end. *)
Theorem login_checks_then_sends (f : LoginScreen.form)
    (token : jsval) (net : request → reply) (lat : request → Z) (t0 : Z) :
  let w := fresh token net lat t0 in
  let tr := trace (LoginScreen.handleLogin f w).2 in
  let ping := request_in w "get" "/" VUndefined in
  let post := request_in w "post" "/auth/login" (loginData_of f) in
  (LoginScreen.isLoading f = true → tr = []) ∧
  (LoginScreen.isLoading f = false → valid_login f = false →
     ∃ text, tr = [Alert "Error" text]) ∧
  (LoginScreen.isLoading f = false → valid_login f = true →
     requests_of tr =
       (if sendable token
        then if answered w ping then [ping; post] else [ping]
        else []) ∧
     states_of "isLoading" tr = [VBool true; VBool false] ∧
     (sendable token = false ∨ answered w ping = false →
        alerts_of tr = [("Connection Error", cannot_connect)]) ∧
     (sendable token = true → answered w ping = true →
        ∀ e, answer w post = Throw e →
             ∃ text, alerts_of tr = [("Error", text)] ∧
                     (exn_message e ≠ "" → text = exn_message e)) ∧
     (sendable token = true → answered w ping = true →
        ∀ body, answer w post = Ok body → truthy body = true →
                alerts_of tr = [] ∧ Push "/dashboard" ∈ tr)).
Proof.
  intros w tr ping post. subst tr.
  destruct (LoginScreen.handleLogin f w) as [r w'] eqn:Hrun. cbn [snd].
  unfold LoginScreen.handleLogin, authAPI.login in Hrun.
  unfold valid_login.
  destruct (LoginScreen.isLoading f).
  { injection Hrun as <- <-. by repeat split. }
  split; [done |].
  destruct (_ && _).
  { injection Hrun as <- <-. split; [eauto | done]. }
  destruct (_ && _).
  { injection Hrun as <- <-. split; [eauto | done]. }
  destruct (bool_decide (trim _ = "")).
  { injection Hrun as <- <-. split; [eauto | done]. }
  split; [done |]. intros _ _.
  destruct (sendable token) eqn:Hsend; run_in Hrun.
  2: { injection Hrun as <- <-. by repeat split. }
  set (w0 := set_trace _ w) in Hrun.
  change (request_in w0 "get" "/" VUndefined) with ping in Hrun.
  change (answer w0 ping) with (answer w ping) in Hrun.
  unfold answered.
  destruct (answer w ping) as [b0 | e0]; run_in Hrun.
  2: { injection Hrun as <- <-. by repeat split. }
  fold (loginData_of f) in Hrun.
  match type of Hrun with context [request_in ?w1 "post" LOGIN (loginData_of f)] =>
    change (request_in w1 "post" LOGIN (loginData_of f)) with post in Hrun end.
  match type of Hrun with context [answer ?w1 post] =>
    change (answer w1 post) with (answer w post) in Hrun end.
  destruct (answer w post) as [body | e] eqn:Hans; run_in Hrun.
  - destruct (prop body "token") as [tok | e'] eqn:Hprop; run_in Hrun.
    + destruct (truthy tok); run_in Hrun; injection Hrun as <- <-.
      all: split; [done |]; split; [done |]; split; [by intros [? | ?] |].
      all: split; [by intros _ _ e [=] |].
      all: intros _ _ body' [= <-] _; split; [done |].
      all: cbn; set_solver.
    + injection Hrun as <- <-.
      split; [done |]. split; [done |]. split; [by intros [? | ?] |].
      split; [by intros _ _ e [=] |].
      intros _ _ body' [= <-] Ht. by destruct body.
  - injection Hrun as <- <-.
    split; [done |]. split; [done |]. split; [by intros [? | ?] |].
    split; [| by intros _ _ body [=]].
    intros _ _ e1 [= <-]. eexists. split; [reflexivity |].
    intros Hne. by rewrite bool_decide_eq_false_2.
Qed.

End sessions.

Section signing_up.
Import SignupScreen.

Lemma or_else_trimmed (s : string) :
  or_else (VStr s) VNull = if bool_decide (s = "") then VNull else VStr s.
Proof. unfold or_else. cbn [truthy]. by destruct (bool_decide (s = "")). Qed.

(** X6. [handleSignup] registers valid forms only: while a sign-up is in
    progress nothing happens; when a name or the email is blank, the email
    has no [@], the password is blank or shorter than six characters or
    differs from its confirmation, one error alert is shown and nothing is
    sent; otherwise the connection is tested and, when that test succeeds,
    one POST to [/auth/register] follows whose body holds the trimmed names
    and email, as [username] the text of the trimmed email before its first
    [@], the trimmed phone number or [null] for a blank one, and the password
    as typed.  On success the user is told to sign in and sent to the login
    screen; the loading flag ends reset.  A stored token that is truthy and
    no text keeps the connection test from being sent, and the connection
    error is shown as when the test fails. *)
Theorem signup_registers_valid_forms_only (f : form)
    (token : jsval) (net : request → reply) (lat : request → Z) (t0 : Z) :
  let w := fresh token net lat t0 in
  let tr := trace (handleSignup f w).2 in
  let ping := request_in w "get" "/" VUndefined in
  let post := request_in w "post" "/auth/register" (signupData_of f) in
  (isLoading f = true → tr = []) ∧
  (isLoading f = false → valid_signup f = false →
     ∃ text, tr = [Alert "Error" text]) ∧
  (isLoading f = false → valid_signup f = true →
     requests_of tr =
       (if sendable token
        then if answered w ping then [ping; post] else [ping]
        else []) ∧
     states_of "isLoading" tr = [VBool true; VBool false] ∧
     (sendable token = false ∨ answered w ping = false →
        alerts_of tr = [("Connection Error", cannot_connect)]) ∧
     (sendable token = true → answered w ping = true →
        ∀ e, answer w post = Throw e →
             ∃ text, alerts_of tr = [("Error", text)] ∧
                     (exn_message e ≠ "" → text = exn_message e)) ∧
     (sendable token = true → answered w ping = true →
        ∀ body, answer w post = Ok body →
                alerts_of tr =
                  [("Success", "Account created successfully! Please sign in.")] ∧
                Push "/login" ∈ tr)).
Proof.
  intros w tr ping post. subst tr.
  destruct (handleSignup f w) as [r w'] eqn:Hrun. cbn [snd].
  unfold handleSignup, authAPI.register in Hrun.
  unfold valid_signup.
  destruct (isLoading f).
  { injection Hrun as <- <-. by repeat split. }
  split; [done |].
  destruct (bool_decide (trim (firstName f) = "")).
  { injection Hrun as <- <-. split; [eauto | done]. }
  destruct (bool_decide (trim (lastName f) = "")).
  { injection Hrun as <- <-. split; [eauto | done]. }
  destruct (bool_decide (trim (email f) = "")).
  { injection Hrun as <- <-. split; [eauto | done]. }
  destruct (includes (email f) "@"); cbn [negb andb] in *.
  2: { injection Hrun as <- <-. split; [eauto | done]. }
  destruct (bool_decide (trim (password f) = "")).
  { injection Hrun as <- <-. split; [eauto | done]. }
  rewrite Nat.ltb_antisym in Hrun.
  destruct (6 <=? String.length (password f))%nat; cbn [negb andb] in *.
  2: { injection Hrun as <- <-. split; [eauto | done]. }
  destruct (bool_decide (password f = confirmPassword f)); cbn [negb] in *.
  2: { injection Hrun as <- <-. split; [eauto | done]. }
  split; [done |]. intros _ _.
  destruct (sendable token) eqn:Hsend; run_in Hrun.
  2: { injection Hrun as <- <-. by repeat split. }
  rewrite or_else_trimmed in Hrun.
  set (w0 := set_trace _ w) in Hrun.
  change (request_in w0 "get" "/" VUndefined) with ping in Hrun.
  change (answer w0 ping) with (answer w ping) in Hrun.
  unfold answered.
  destruct (answer w ping) as [b0 | e0]; run_in Hrun.
  2: { injection Hrun as <- <-. by repeat split. }
  fold (signupData_of f) in Hrun.
  match type of Hrun with context [request_in ?w1 "post" REGISTER (signupData_of f)] =>
    change (request_in w1 "post" REGISTER (signupData_of f)) with post in Hrun end.
  match type of Hrun with context [answer ?w1 post] =>
    change (answer w1 post) with (answer w post) in Hrun end.
  destruct (answer w post) as [body | e] eqn:Hans; run_in Hrun;
    injection Hrun as <- <-.
  - split; [done |]. split; [done |]. split; [by intros [? | ?] |].
    split; [by intros _ _ e [=] |].
    intros _ _ body' _. split; [done |]. cbn. set_solver.
  - split; [done |]. split; [done |]. split; [by intros [? | ?] |].
    split; [| by intros _ _ body [=]].
    intros _ _ e1 [= <-]. eexists. split; [reflexivity |].
    intros Hne. by rewrite bool_decide_eq_false_2.
Qed.

(** X7. Signing up never signs in: [handleSignup] leaves the stored token as
    it was, whatever the form holds and whatever the backend answers, a
    token in the body of the registration response included. *)
Theorem signup_never_stores_a_token (f : form) (w : World) :
  authToken (handleSignup f w).2 = authToken w.
Proof.
  revert w. change (preserves authToken (handleSignup f)).
  assert (∀ e, preserves authToken (emit e)) as Hemit by by intros e w.
  assert (preserves authToken testAPIConnection) as Hping.
  { intros w. rewrite testAPIConnection_eq. cbv zeta. by destruct (sendable _). }
  pose proof preserves_call_token as Hcall.
  unfold handleSignup, authAPI.register.
  repeat first
    [ apply Hemit | apply Hping | apply Hcall
    | apply preserves_ret
    | apply preserves_bind; [| intros ?]
    | apply preserves_try_catch; [| intros ?]
    | apply preserves_finally
    | match goal with
      | |- preserves _ (if ?b then _ else _) => destruct b
      end ].
Qed.

End signing_up.

(** ** My Trips: what the screen settles on *)

Section my_trips_states.
Context `{DateEngine}.
Import MyTripsScreen.

(** X8. Without a stored token My Trips contacts nobody: the screen sets the
    loading flag, finds no token, shows the login prompt and clears the
    flag, and that is all. *)
Theorem my_trips_without_token_sends_nothing (w : World) :
  truthy (authToken w) = false →
  checkAuthAndLoadBookings w =
  (Ok (), set_trace (trace w ++ [SetState "isLoading" (VBool true);
                                 SetState "isLoggedIn" (VBool false);
                                 SetState "isLoading" (VBool false)]) w).
Proof.
  intros Ht.
  destruct (checkAuthAndLoadBookings w) as [r w'] eqn:Hrun.
  unfold checkAuthAndLoadBookings, setIsLoggedIn, setIsLoading,
    getAuthToken, read_global, or_else in Hrun.
  run_in Hrun. cbn [authToken set_trace] in Hrun. rewrite Ht in Hrun.
  run_in Hrun. cbn [truthy] in Hrun. run_in Hrun.
  injection Hrun as <- <-.
  cbn [authToken set_trace trace transport latency startTime elapsed].
  by rewrite <- !(assoc_L app).
Qed.

(** How [loadUserBookings] ends when the connection test succeeds within
    ten seconds and the fetch of the bookings does not succeed. *)
Lemma loadUserBookings_failed_fetch (w : World) (e : exn) :
  let ping := request_in w "get" "/" VUndefined in
  let fetch := request_in w "get" "/api/bookings" VUndefined in
  truthy (authToken w) = true → sendable (authToken w) = true →
  answered w ping = true →
  Z.max 0 (latency w ping) <= 10000 →
  answer w fetch = Throw e →
  ∃ e' w',
    (e' = e ∨ e' = Error "Request timeout") ∧
    loadUserBookings w = (Ok (), w') ∧
    trace w' =
      (trace w ++ [Sent ping; Sent fetch;
                   SetState "isLoggedIn" (VBool (negb (isAuthError (exn_message e'))));
                   SetState "bookings" (VArr [])])%list.
Proof.
  intros ping fetch Htoken Hsend Hping Htime Hfetch.
  unfold answered in Hping.
  destruct (answer w ping) as [b0 |] eqn:Hans; [| done].
  assert (Hlat0 : (15000 <? latency w ping) = false).
  { unfold answer in Hans. by destruct (15000 <? latency w ping). }
  destruct (loadUserBookings w) as [r w'] eqn:Hrun.
  unfold loadUserBookings, bookingsAPI.getBookings, race, elapsed_now,
    getAuthToken, read_global, Date_now, setBookings, setIsLoggedIn, setIsLoading in Hrun.
  run_in Hrun.
  change (answer _ (request_in _ "get" "/" _)) with (answer w ping) in Hrun.
  rewrite Hans in Hrun.
  cbn [elapsed after_call set_elapsed set_trace] in Hrun.
  fold ping in Hrun. rewrite Hlat0 in Hrun.
  match type of Hrun with context [?a <? ?b] =>
    destruct (Z.ltb_spec a b); [lia |] end.
  run_in Hrun. unfold or_else in Hrun.
  cbn [authToken after_call set_elapsed set_trace] in Hrun.
  rewrite !Htoken in Hrun. run_in Hrun.
  change (answer _ (request_in _ "get" BOOKINGS _)) with (answer w fetch) in Hrun.
  rewrite Hfetch in Hrun.
  change (request_in _ "get" BOOKINGS VUndefined) with fetch in Hrun.
  match type of Hrun with context [if ?a <? ?b then (Throw _, _) else _] =>
    destruct (a <? b) end; run_in Hrun.
  - exists (Error "Request timeout"), w'. split; [by right |].
    change (isAuthError (exn_message (Error "Request timeout"))) with false in *.
    cbv iota in Hrun. injection Hrun as <- <-. split; [done |].
    cbn [trace set_trace set_elapsed after_call]. by rewrite <- !(assoc_L app).
  - exists e, w'. split; [by left |].
    destruct (isAuthError (exn_message e)); run_in Hrun; injection Hrun as <- <-.
    all: split; [done |].
    all: cbn [trace set_trace set_elapsed after_call]; by rewrite <- !(assoc_L app).
Qed.

(** X9. With a stored token that is a text, when the connection test
    succeeds but the fetch of the bookings fails (an error status, no
    response, a timeout), My Trips never clears the loading flag it set: the
    list is emptied, and the screen stays on its loading state. *)
Theorem failed_fetch_leaves_my_trips_loading
    (token : jsval) (net : request → reply) (lat : request → Z) (t0 : Z) (e : exn) :
  let w := fresh token net lat t0 in
  let tr := trace (checkAuthAndLoadBookings w).2 in
  let ping := request_in w "get" "/" VUndefined in
  let fetch := request_in w "get" "/api/bookings" VUndefined in
  truthy token = true → sendable token = true →
  answered w ping = true →
  Z.max 0 (lat ping) <= 10000 →
  answer w fetch = Throw e →
  states_of "isLoading" tr = [VBool true] ∧
  states_of "bookings" tr = [VArr []] ∧
  requests_of tr = [ping; fetch].
Proof.
  intros w tr ping fetch Htoken Hsend Hping Htime Hfetch.
  assert (Htr : ∃ b, tr = [SetState "isLoading" (VBool true); Sent ping; Sent fetch;
                           SetState "isLoggedIn" (VBool b);
                           SetState "bookings" (VArr [])]);
    [| destruct Htr as [b ->]; done].
  subst tr.
  destruct (checkAuthAndLoadBookings w) as [r w'] eqn:Hrun. cbn [snd].
  unfold checkAuthAndLoadBookings, setIsLoggedIn, setIsLoading,
    getAuthToken, read_global, or_else in Hrun.
  run_in Hrun. cbn [authToken set_trace w fresh] in Hrun. rewrite !Htoken in Hrun.
  run_in Hrun. cbn [trace w fresh app] in Hrun.
  set (w1 := set_trace _ _) in Hrun.
  destruct (loadUserBookings_failed_fetch w1 e) as (e' & w2 & _ & Heq & Htr);
    try done.
  rewrite Heq in Hrun. injection Hrun as <- <-.
  rewrite Htr. by eexists.
Qed.

(** X10. With a stored token that is a text, an answer 403 to the fetch of
    the bookings is not taken for an authentication error: its message,
    ['Not authorized to perform this action'], holds none of the marks
    [loadUserBookings] looks for, so the screen counts the user as logged
    in.  An answer 401 whose body gives no text is taken for one, by the
    status in the default message. *)
Theorem forbidden_counts_as_logged_in
    (token : jsval) (net : request → reply) (lat : request → Z) (t0 : Z)
    (status : Z) (body : jsval) :
  let w := fresh token net lat t0 in
  let tr := trace (loadUserBookings w).2 in
  let ping := request_in w "get" "/" VUndefined in
  let fetch := request_in w "get" "/api/bookings" VUndefined in
  truthy token = true → sendable token = true →
  answered w ping = true →
  lat fetch <= 15000 →
  net fetch = Responded status body →
  Z.max 0 (lat ping) + Z.max 0 (lat fetch) <= 10000 →
  (status = 403 → states_of "isLoggedIn" tr = [VBool true]) ∧
  (status = 401 → truthy (opt_prop body "detail") = false →
   truthy (opt_prop body "message") = false →
   states_of "isLoggedIn" tr = [VBool false]).
Proof.
  intros w tr ping fetch Htoken Hsend Hping Hlat Hnet Htime. subst tr.
  assert (Hans : ∀ s, status = s → validateStatus s = false →
            answer w fetch = Throw (response_rejected (WithResponse s body))).
  { intros s <- Hv. unfold answer. change (latency w fetch) with (lat fetch).
    change (transport w fetch) with (net fetch). rewrite Hnet, Hv.
    by destruct (Z.ltb_spec 15000 (lat fetch)); [lia |]. }
  split.
  - intros Hs.
    assert (Htime0 : Z.max 0 (latency w ping) <= 10000).
    { change (latency w ping) with (lat ping). lia. }
    destruct (loadUserBookings_failed_fetch w _ Htoken Hsend Hping Htime0
                (Hans 403 Hs eq_refl)) as (e' & w' & He' & -> & Htr).
    cbn [snd]. rewrite Htr. by destruct He' as [-> | ->].
  - intros Hs Hd Hm.
    destruct (loadUserBookings w) as [r w'] eqn:Hrun. cbn [snd].
    unfold answered in Hping.
    destruct (answer w ping) as [b0 |] eqn:Hans0; [| done].
    assert (Hlat0 : (15000 <? lat ping) = false).
    { unfold answer in Hans0. change (latency w ping) with (lat ping) in Hans0.
      by destruct (15000 <? lat ping). }
    assert (Hlat1 : (15000 <? lat fetch) = false) by (apply Z.ltb_ge; lia).
    unfold loadUserBookings, bookingsAPI.getBookings, race, elapsed_now,
      getAuthToken, read_global, Date_now, setBookings, setIsLoggedIn, setIsLoading in Hrun.
    run_in Hrun.
    change (answer _ (request_in _ "get" "/" _)) with (answer w ping) in Hrun.
    rewrite Hans0 in Hrun.
    cbn [elapsed after_call set_elapsed set_trace w fresh] in Hrun.
    fold w ping in Hrun. change (latency w ping) with (lat ping) in Hrun.
    rewrite Hlat0 in Hrun.
    match type of Hrun with context [?a <? ?b] =>
      destruct (Z.ltb_spec a b); [lia |] end.
    run_in Hrun. unfold or_else in Hrun.
    cbn [authToken after_call set_elapsed set_trace w fresh] in Hrun.
    rewrite !Htoken in Hrun. run_in Hrun.
    change (answer _ (request_in _ "get" BOOKINGS _)) with (answer w fetch) in Hrun.
    rewrite (Hans 401 Hs eq_refl) in Hrun.
    cbn [elapsed after_call set_elapsed set_trace w fresh latency] in Hrun.
    change (request_in _ "get" BOOKINGS VUndefined) with fetch in Hrun.
    fold ping in Hrun. rewrite Hlat0, Hlat1 in Hrun.
    match type of Hrun with context [?a <? ?b] =>
      destruct (Z.ltb_spec a b); [lia |] end.
    run_in Hrun.
    assert (Hmsg : response_rejected (WithResponse 401 body) =
                   Error "HTTP error! status: 401").
    { unfold response_rejected. rewrite server_error_message_plain by done.
      unfold raw_message, or_else. by rewrite Hd, Hm. }
    rewrite Hmsg in Hrun.
    change (isAuthError (exn_message (Error "HTTP error! status: 401"))) with true in Hrun.
    run_in Hrun. by injection Hrun as <- <-.
Qed.

End my_trips_states.

Lemma my_trips_without_token_sends_nothing_witness :
  requests_of
    (trace (@MyTripsScreen.checkAuthAndLoadBookings (ESDate.engine 10800000)
              (fresh VNull (backend (VArr three_bookings)) (λ _, 120) 0)).2) = [].
Proof.
  rewrite (@my_trips_without_token_sends_nothing (ESDate.engine 10800000)
             (fresh VNull (backend (VArr three_bookings)) (λ _, 120) 0) eq_refl).
  reflexivity.
Defined.

(** A backend that is up and answers the fetch of the bookings with 500. *)
Lemma failed_fetch_leaves_my_trips_loading_witness :
  states_of "isLoading"
    (trace (@MyTripsScreen.checkAuthAndLoadBookings (ESDate.engine 10800000)
              (fresh (VStr "abc")
                 (λ r, if bool_decide (url r = "/") then Responded 200 (VObj ∅)
                       else Responded 500 (VObj ∅))
                 (λ _, 120) 0)).2) = [VBool true].
Proof.
  refine (proj1 (@failed_fetch_leaves_my_trips_loading (ESDate.engine 10800000) (VStr "abc") _ (λ _, 120) 0
                   (Error "HTTP error! status: 500") _ _ _ _ _));
    by vm_compute.
Defined.

Lemma forbidden_counts_as_logged_in_witness :
  states_of "isLoggedIn"
    (trace (@MyTripsScreen.loadUserBookings (ESDate.engine 10800000)
              (fresh (VStr "abc")
                 (λ r, if bool_decide (url r = "/") then Responded 200 (VObj ∅)
                       else Responded 403 (VObj {[ "detail" := VStr "Forbidden" ]}))
                 (λ _, 120) 0)).2) = [VBool true].
Proof.
  refine (proj1 (@forbidden_counts_as_logged_in (ESDate.engine 10800000) (VStr "abc") _ (λ _, 120) 0
                   403 (VObj {[ "detail" := VStr "Forbidden" ]}) _ _ _ _ _ _) _);
    by vm_compute.
Defined.

Section countdown.
Context `{DateEngine}.
Import MyTrips.

Local Ltac Zify.zify_post_hook ::= Z.div_mod_to_equations.

(** X11. The check-in message counts down in whole units.  For a booking that
    is neither checked in nor cancelled and whose departure time parses, with
    [delta] the milliseconds left until departure: past or at departure the
    flight has departed; within the next 24 hours check-in is open; between
    24 and 48 hours ahead the message names the hours until the window opens,
    rounded up, a number from 1 to 24; from 48 hours on it names the whole
    days until the window opens, at least 1, with ['day'] in the singular
    exactly for 1. *)
Theorem check_in_message_counts_down (now : Z) (d s : jsval) (departure : Z) :
  is_str s "checked_in" = false →
  is_str s "cancelled" = false →
  new_Date (normalized d) = Some departure →
  let delta := departure - now in
  let message := getCheckInMessage now d s in
  (delta <= 0 → message = "This flight has already departed.") ∧
  (0 < delta <= 86400000 → message = "You can check-in now!") ∧
  (86400000 < delta < 172800000 →
     ∃ hours, 1 <= hours <= 24 ∧
       3600000 * (hours - 1) < delta - 86400000 <= 3600000 * hours ∧
       message = "Check-in opens in " +:+ pretty hours +:+ " hours.") ∧
  (172800000 <= delta →
     ∃ days, 1 <= days ∧
       86400000 * days <= delta - 86400000 < 86400000 * (days + 1) ∧
       message = "Check-in opens in " +:+ pretty days +:+ " day" +:+
                 (if days =? 1 then "" else "s") +:+
                 " (24 hours before departure).").
Proof.
  intros Hci Hca Hd delta message. subst message.
  unfold getCheckInMessage, hoursUntilDeparture.
  rewrite Hci, Hca, Hd. cbn [mbind option_bind]. fold delta.
  unfold num_le, num_gt, num_sub, num_div, Math_floor, Math_ceil, int_gt, int_text.
  cbn [mbind option_bind].
  unfold Qle_bool, Qfloor, Qceiling, Qminus, Qplus, Qopp, Qdiv, Qmult, Qinv.
  cbn [Qnum Qden].
  change (Z.pos (1000 * 60 * 60 * 1 * 24)) with 86400000.
  change (Z.pos (1000 * 60 * 60 * 1)) with 3600000.
  change (Z.pos (1000 * 60 * 60)) with 3600000.
  replace (delta * 1) with delta by lia.
  replace ((delta + - (24) * 3600000) * 1) with (delta - 86400000) by lia.
  replace (- (delta + - (24) * 3600000)) with (86400000 - delta) by lia.
  change (0 * 3600000) with 0. change (24 * 3600000) with 86400000.
  set (days := (delta - 86400000) `div` 86400000).
  set (hours := - ((86400000 - delta) `div` 3600000)).
  split; [| split; [| split]].
  - intros Hdelta. by destruct (Z.leb_spec delta 0); [| lia].
  - intros Hdelta. destruct (Z.leb_spec delta 0); [lia |].
    by destruct (Z.leb_spec delta 86400000); [| lia].
  - intros Hdelta. destruct (Z.leb_spec delta 0); [lia |].
    destruct (Z.leb_spec delta 86400000); [lia |]. cbn [negb].
    destruct (Z.ltb_spec 0 days); [subst days; lia |].
    exists hours. split; [subst hours; lia |]. split; [subst hours; lia | done].
  - intros Hdelta. destruct (Z.leb_spec delta 0); [lia |].
    destruct (Z.leb_spec delta 86400000); [lia |]. cbn [negb].
    destruct (Z.ltb_spec 0 days); [| subst days; lia].
    exists days. split; [lia |]. split; [subst days; lia |].
    destruct (Z.ltb_spec 1 days), (Z.eqb_spec days 1); try lia; done.
Qed.

End countdown.

(** A departure 30 hours ahead. *)
Lemma check_in_message_counts_down_witness :
  @MyTrips.getCheckInMessage (ESDate.engine 10800000) 1758115912601
    (VStr "2025-09-18T22:31:52.601155") (VStr "confirmed") =
  "Check-in opens in 6 hours.".
Proof.
  destruct (@check_in_message_counts_down (ESDate.engine 10800000)
              1758115912601 (VStr "2025-09-18T22:31:52.601155")
              (VStr "confirmed") 1758223912601 eq_refl eq_refl eq_refl)
    as (_ & _ & H3 & _).
  destruct H3 as (hours & Hb & Hr & ->); [by vm_compute |].
  assert (hours = 6) as -> by lia.
  reflexivity.
Defined.

(** ** Loading one booking *)

Section booking_details.

(** X12. The authentication check of [loadBookingDetails], on the
    manage-booking screen and on the cancel screen alike, never stops
    anything: [getAuthToken()] is called without [await], and the promise it
    returns is truthy whether a token is stored or not.  So, for an id that
    reads as a number a JavaScript number holds exactly, the screen always
    goes on to request the booking, without an [Authorization] header when no
    token is stored, never shows ['Authentication Required'] and never opens
    the login screen; the request is sent unless the stored token is truthy
    and no text, which counts as a failure; the screen keeps the body of a
    successful answer as the booking, reports a failure and goes back, and
    ends with the loading flag reset. *)
Theorem booking_details_are_requested_without_token (bookingId : jsval)
    (token : jsval) (net : request → reply) (lat : request → Z) (t0 : Z) :
  let w := fresh token net lat t0 in
  let config :=
    request_in w "get" ("/api/bookings/" +:+ ToString (parseInt bookingId))
      VUndefined in
  let got := if sendable token then answer w config else Throw not_sent in
  (∀ n, parseInt bookingId = VNum n → Z.abs n < 2 ^ 53) →
  (truthy token = false → Authorization config = None) ∧
  ∀ tr,
    tr = trace (ManageBooking.loadBookingDetails bookingId w).2 ∨
    tr = trace (CancelBooking.loadBookingDetails bookingId w).2 →
    requests_of tr = (if sendable token then [config] else []) ∧
    (∀ text, ("Authentication Required", text) ∉ alerts_of tr) ∧
    (Replace "/login" ∉ tr) ∧
    states_of "isLoading" tr = [VBool true; VBool false] ∧
    (∀ body, got = Ok body → absent body = false →
       states_of "booking" tr = [body] ∧ alerts_of tr = []) ∧
    (∀ e, got = Throw e →
       states_of "booking" tr = [] ∧ Back ∈ tr ∧
       ∃ text, alerts_of tr = [("Error", "Failed to load booking details: " +:+ text)] ∧
               (exn_message e ≠ "" → text = exn_message e)).
Proof.
  intros w config got _. split.
  { intros Ht. cbn [Authorization config request_in authToken w fresh]. by rewrite Ht. }
  subst got. intros tr [-> | ->].
  - destruct (ManageBooking.loadBookingDetails bookingId w) as [r w'] eqn:Hrun.
    cbn [snd].
    unfold ManageBooking.loadBookingDetails, bookingsAPI.getBooking, unawaited,
      getAuthToken, read_global in Hrun.
    destruct (sendable token) eqn:Hsend.
    all: run_in Hrun; cbn [truthy] in Hrun; run_in Hrun.
    2: { injection Hrun as <- <-.
         split; [done |]. split; [intros text Hin; cbn in Hin; not_among Hin |].
         split; [intros Hin; cbn in Hin; not_among Hin |].
         split; [done |]. split; [by intros body [=] |].
         intros e' [= <-]. split; [done |]. split; [cbn; set_solver |].
         eexists. split; [reflexivity |]. done. }
    match type of Hrun with context [answer ?w1 ?c] =>
      change (answer w1 c) with (answer w config) in Hrun end.
    destruct (answer w config) as [body | e] eqn:Hans; run_in Hrun.
    + destruct (Object_keys body) eqn:Hkeys; run_in Hrun; injection Hrun as <- <-.
      all: split; [done |]; split; [intros text Hin; cbn in Hin; not_among Hin |].
      all: split; [intros Hin; cbn in Hin; not_among Hin |].
      all: split; [done |]; split; [| by intros e' [=]].
      * by intros body' [= <-] Hb.
      * intros body' [= <-] Hb. by destruct body.
    + injection Hrun as <- <-.
      split; [done |]. split; [intros text Hin; cbn in Hin; not_among Hin |].
      split; [intros Hin; cbn in Hin; not_among Hin |].
      split; [done |]. split; [by intros body [=] |].
      intros e' [= <-]. split; [done |]. split; [cbn; set_solver |].
      eexists. split; [reflexivity |]. intros Hne. by rewrite bool_decide_eq_false_2.
  - destruct (CancelBooking.loadBookingDetails bookingId w) as [r w'] eqn:Hrun.
    cbn [snd].
    unfold CancelBooking.loadBookingDetails, bookingsAPI.getBooking, unawaited,
      getAuthToken, read_global in Hrun.
    destruct (sendable token) eqn:Hsend.
    all: run_in Hrun; cbn [truthy] in Hrun; run_in Hrun.
    2: { injection Hrun as <- <-.
         split; [done |]. split; [intros text Hin; cbn in Hin; not_among Hin |].
         split; [intros Hin; cbn in Hin; not_among Hin |].
         split; [done |]. split; [by intros body [=] |].
         intros e' [= <-]. split; [done |]. split; [cbn; set_solver |].
         eexists. split; [reflexivity |]. done. }
    match type of Hrun with context [answer ?w1 ?c] =>
      change (answer w1 c) with (answer w config) in Hrun end.
    destruct (answer w config) as [body | e] eqn:Hans; run_in Hrun;
      injection Hrun as <- <-.
    + split; [done |]. split; [intros text Hin; cbn in Hin; not_among Hin |].
      split; [intros Hin; cbn in Hin; not_among Hin |].
      split; [done |]. split; [| by intros e' [=]].
      by intros body' [= <-] Hb.
    + split; [done |]. split; [intros text Hin; cbn in Hin; not_among Hin |].
      split; [intros Hin; cbn in Hin; not_among Hin |].
      split; [done |]. split; [by intros body [=] |].
      intros e' [= <-]. split; [done |]. split; [cbn; set_solver |].
      eexists. split; [reflexivity |]. intros Hne. by rewrite bool_decide_eq_false_2.
Qed.

(** The booking 7 opened by a user who is not logged in: the request goes
    out, without the header. *)
Lemma booking_details_are_requested_without_token_witness :
  requests_of
    (trace (ManageBooking.loadBookingDetails (VStr "7")
              (fresh VNull (backend (VObj {[ "id" := VNum 7 ]})) (λ _, 120) 0)).2) =
  [ {| method := "get"; url := "/api/bookings/7"; data := VUndefined;
       baseURL := "http://localhost:8000"; timeout := 15000;
       Authorization := None |} ].
Proof.
  pose proof (booking_details_are_requested_without_token (VStr "7") VNull
                (backend (VObj {[ "id" := VNum 7 ]})) (λ _, 120) 0) as Hx.
  cbv zeta in Hx. destruct Hx as [_ Hx].
  - intros n Hn. vm_compute in Hn. injection Hn as <-. lia.
  - destruct (Hx _ (or_introl eq_refl)) as [Hreq _]. rewrite Hreq. reflexivity.
Defined.

End booking_details.

Section reading_ids.

Local Ltac Zify.zify_post_hook ::= Z.div_mod_to_equations.

Lemma digit_in_pretty_N_char (d : N) :
  (d < 10)%N → digit_in 10 (pretty_N_char d) = Some (Z.of_N d) ∧
               is_digit (pretty_N_char d) = true.
Proof.
  intros Hd.
  assert (d = 0 ∨ d = 1 ∨ d = 2 ∨ d = 3 ∨ d = 4 ∨ d = 5 ∨ d = 6 ∨ d = 7 ∨
          d = 8 ∨ d = 9)%N as Hc by lia.
  repeat (destruct Hc as [-> | Hc]; [by vm_compute |]).
  subst d. by vm_compute.
Qed.

(** Reading the digits [pretty] writes gives the number back. *)
Lemma leading_digits_pretty_N_go (x : N) :
  (0 < x)%N → ∀ s acc, ∃ k : nat,
    leading_digits 10 acc (pretty_N_go x s) =
    leading_digits 10 (Some (default 0 acc * 10 ^ Z.of_nat k + Z.of_N x)) s.
Proof.
  induction (N.lt_wf_0 x) as [x _ IH]. intros Hx s acc.
  rewrite pretty_N_go_step by done.
  destruct (digit_in_pretty_N_char (x `mod` 10)) as [Hdig _];
    [by apply N.mod_lt |].
  destruct (decide (x `div` 10 = 0)%N) as [Hz | Hnz].
  - rewrite Hz, pretty_N_go_0. exists 1%nat.
    cbn [leading_digits]. rewrite Hdig. do 2 f_equal.
    assert (x < 10)%N as Hsmall by lia. rewrite (N.mod_small x 10 Hsmall).
    change (10 ^ Z.of_nat 1) with 10. lia.
  - destruct (IH (x `div` 10)%N) with (s := String (pretty_N_char (x `mod` 10)) s)
      (acc := acc) as [k Hk].
    { apply N.div_lt; lia. }
    { lia. }
    exists (S k). rewrite Hk. cbn [leading_digits]. rewrite Hdig.
    cbn [default]. do 2 f_equal.
    rewrite Nat2Z.inj_succ, Z.pow_succ_r by lia.
    set (p := 10 ^ Z.of_nat k).
    assert (Z.of_N x = 10 * Z.of_N (x `div` 10) + Z.of_N (x `mod` 10)) as Hx10.
    { rewrite <- (N2Z.inj_mul 10), <- N2Z.inj_add. f_equal. apply N.div_mod. done. }
    rewrite Hx10. unfold id. ring.
Qed.

Lemma all_digits_pretty_N_go (x : N) (s : string) :
  all_digits s = true → all_digits (pretty_N_go x s) = true.
Proof.
  revert s. induction (N.lt_wf_0 x) as [x _ IH]. intros s Hs.
  destruct (decide (x = 0)%N) as [-> | Hx]; [by rewrite pretty_N_go_0 |].
  rewrite pretty_N_go_step by lia.
  apply IH; [apply N.div_lt; lia |].
  cbn [all_digits]. rewrite Hs.
  by destruct (digit_in_pretty_N_char (x `mod` 10)) as [_ ->]; [apply N.mod_lt |].
Qed.

Lemma pretty_N_go_cons (x : N) (s : string) :
  (0 < x)%N → ∃ c r, pretty_N_go x s = String c r.
Proof.
  revert s. induction (N.lt_wf_0 x) as [x _ IH]. intros s Hx.
  rewrite pretty_N_go_step by done.
  destruct (decide (x `div` 10 = 0)%N) as [-> | Hnz].
  - rewrite pretty_N_go_0. eauto.
  - apply IH; [apply N.div_lt; lia | lia].
Qed.

Lemma digit_is_plain (c : ascii) :
  is_digit c = true →
  is_space c = false ∧ c ≠ "-"%char ∧ c ≠ "+"%char ∧ c ≠ "x"%char ∧ c ≠ "X"%char.
Proof.
  destruct c as [[] [] [] [] [] [] [] []]; vm_compute; intros [=];
    repeat split; discriminate.
Qed.

(** A string of digits has no prefix [0x]. *)
Lemma no_hex_prefix (s : string) :
  all_digits s = true →
  match s with
  | String z (String x r) =>
      if bool_decide (z = "0"%char) &&
         (bool_decide (x = "x"%char) || bool_decide (x = "X"%char))
      then (16, r) else (10, s)
  | _ => (10, s)
  end = (10, s).
Proof.
  intros Hs. destruct s as [|z [|x r]]; try done.
  cbn [all_digits] in Hs. apply andb_true_iff in Hs as [_ Hs].
  apply andb_true_iff in Hs as [Hx _].
  destruct (digit_is_plain x Hx) as (_ & _ & _ & Hx1 & Hx2).
  rewrite (bool_decide_eq_false_2 (x = "x"%char)), (bool_decide_eq_false_2 (x = "X"%char)) by done.
  by rewrite andb_false_r.
Qed.

Lemma parseInt_pretty_N (x : N) :
  (0 < x)%N →
  ∃ c r, pretty_N_go x "" = String c r ∧ is_digit c = true ∧
         leading_digits 10 None (String c r) = Some (Z.of_N x) ∧
         match String c r with
         | String z (String y r') =>
             if bool_decide (z = "0"%char) &&
                (bool_decide (y = "x"%char) || bool_decide (y = "X"%char))
             then (16, r') else (10, String c r)
         | _ => (10, String c r)
         end = (10, String c r).
Proof.
  intros Hx. destruct (pretty_N_go_cons x "" Hx) as (c & r & Heq).
  pose proof (all_digits_pretty_N_go x "" eq_refl) as Hall. rewrite Heq in Hall.
  exists c, r. split; [done |]. split.
  { cbn [all_digits] in Hall. by apply andb_true_iff in Hall as [-> _]. }
  split.
  - destruct (leading_digits_pretty_N_go x Hx "" None) as [k Hk].
    rewrite Heq in Hk. rewrite Hk. reflexivity.
  - exact (no_hex_prefix (String c r) Hall).
Qed.

(** X13. [parseInt] reads back what [toString] wrote: My Trips hands a
    booking id on as the decimal text of the number, and the manage-booking
    and cancel screens get the number back from that text, for every integer
    a JavaScript number holds exactly. *)
Theorem parseInt_reads_back_an_id (n : Z) :
  Z.abs n < 2 ^ 53 →
  parseInt (VStr (ToString (VNum n))) = VNum n.
Proof.
  intros _. cbn [ToString]. unfold parseInt. cbn [ToString].
  destruct n as [| p | p].
  - reflexivity.
  - change (pretty (Z.pos p)) with (pretty_N_go (N.pos p) "").
    destruct (parseInt_pretty_N (N.pos p)) as (c & r & -> & Hc & Hread & Hradix);
      [done |].
    destruct (digit_is_plain c Hc) as (Hsp & Hm & Hpl & _).
    cbn [trimStart]. rewrite Hsp.
    rewrite (bool_decide_eq_false_2 (c = "-"%char)), (bool_decide_eq_false_2 (c = "+"%char)) by done.
    rewrite Hradix, Hread. reflexivity.
  - change (pretty (Z.neg p)) with ("-" +:+ pretty_N_go (N.pos p) "").
    change ("-" +:+ pretty_N_go (N.pos p) "") with (String "-" (pretty_N_go (N.pos p) "")).
    cbn [trimStart]. change (is_space "-") with false. cbv iota.
    rewrite bool_decide_eq_true_2 by done.
    destruct (parseInt_pretty_N (N.pos p)) as (c & r & -> & Hc & Hread & Hradix);
      [done |].
    rewrite Hradix, Hread. reflexivity.
Qed.

Lemma parseInt_reads_back_an_id_witness :
  parseInt (VStr (ToString (VNum 1042))) = VNum 1042.
Proof. apply parseInt_reads_back_an_id. by vm_compute. Defined.

End reading_ids.

(** ** The loyalty dashboard *)

Section loyalty.
Import FalconflyerDashboard.

(** X14. The loyalty dashboard never gets its data: [loadLoyaltyData] calls
    [loyaltyAPI.getLoyaltyData], which the API object does not have (its
    members are [getStatus], [getTiers] and [enroll]), and takes the promise
    of [getAuthToken()] for a token.  So, with or without a stored token, it
    sends no request, marks the user as logged in, shows the failure alert
    and never sets the loyalty data. *)
Theorem loyalty_dashboard_never_loads (w : World) :
  loyaltyAPI_member "getLoyaltyData" = None ∧
  loadLoyaltyData w =
  (Ok (), set_trace (trace w ++
                     [SetState "isLoading" (VBool true);
                      SetState "isLoggedIn" (VBool true);
                      Alert "Error" "Failed to load loyalty data. Please try again.";
                      SetState "isLoading" (VBool false)]) w).
Proof.
  split; [reflexivity |].
  destruct (loadLoyaltyData w) as [r w'] eqn:Hrun.
  unfold loadLoyaltyData, unawaited, call_member, getAuthToken, read_global in Hrun.
  run_in Hrun. cbn [truthy] in Hrun. run_in Hrun.
  change (loyaltyAPI_member "getLoyaltyData") with (@None (list jsval → M jsval)) in Hrun.
  run_in Hrun. injection Hrun as <- <-.
  cbn [authToken set_trace trace transport latency startTime elapsed].
  by rewrite <- !(assoc_L app).
Qed.

End loyalty.

(** ** The manage-booking screen: duration and flights to move to *)

Section duration.
Context `{DateEngine}.
Import ManageBooking.

Local Ltac Zify.zify_post_hook ::= Z.div_mod_to_equations.

Lemma Math_round_minutes (x : Z) :
  Math_round (Qmake x (1000 * 60)) = (x + 30000) `div` 60000.
Proof.
  unfold Math_round, Qfloor, Qplus. cbn [Qnum Qden].
  change (Z.pos (1000 * 60 * 2)) with 120000.
  change (Z.pos (1000 * 60)) with 60000. change (Z.pos 2) with 2.
  lia.
Qed.

(** X15. [getFlightDuration] gives ['N/A'] when either time does not parse
    (or is missing); otherwise it gives hours and minutes, the minutes below
    60, that together are the time from start to end rounded to the nearest
    minute, half a minute rounding up; an end before the start counts as no
    time at all, ['0h 0m']. *)
Theorem flight_duration_rounds_to_the_minute (startStr endStr : jsval) :
  (parseDate startStr = None ∨ parseDate endStr = None →
     getFlightDuration startStr endStr = "N/A") ∧
  (∀ start end_,
     parseDate startStr = Some start → parseDate endStr = Some end_ →
     ∃ hours minutes,
       getFlightDuration startStr endStr =
         pretty hours +:+ "h " +:+ pretty minutes +:+ "m" ∧
       0 <= hours ∧ 0 <= minutes < 60 ∧
       - 30000 < 60000 * (60 * hours + minutes) - Z.max 0 (end_ - start) <= 30000 ∧
       (end_ <= start → hours = 0 ∧ minutes = 0)).
Proof.
  split.
  - unfold getFlightDuration. intros [-> | ->]; [done |].
    by destruct (parseDate startStr).
  - intros start end_ Hs He. unfold getFlightDuration. rewrite Hs, He.
    rewrite Math_round_minutes.
    set (diffMs := Z.max 0 (end_ - start)).
    set (totalMinutes := (diffMs + 30000) `div` 60000).
    assert (0 <= totalMinutes) by (subst totalMinutes diffMs; lia).
    rewrite Z.rem_mod_nonneg by lia.
    exists (totalMinutes `div` 60), (totalMinutes `mod` 60).
    split; [done |]. subst totalMinutes diffMs.
    split; [lia |]. split; [lia |]. split; lia.
Qed.

End duration.

(** A flight from Bahrain to London, in the timestamps of the backend. *)
Lemma flight_duration_rounds_to_the_minute_witness :
  @ManageBooking.getFlightDuration (ESDate.engine 10800000)
    (VStr "2025-09-18T09:15:00.000000") (VStr "2025-09-18T16:05:29.500001") =
  "6h 50m".
Proof.
  destruct (proj2 (@flight_duration_rounds_to_the_minute (ESDate.engine 10800000)
                     (VStr "2025-09-18T09:15:00.000000")
                     (VStr "2025-09-18T16:05:29.500001"))
              1758176100000 1758200729500 eq_refl eq_refl)
    as (hours & minutes & -> & Hh & Hm & Hr & _).
  assert (hours = 6 ∧ minutes = 50) as [-> ->] by lia.
  reflexivity.
Defined.

Section moving.
Context `{DateEngine}.
Import ManageBooking.

Lemma prop_present (v : jsval) (k : string) :
  absent v = false → prop v k = Ok (opt_prop v k).
Proof. by destruct v. Qed.

Lemma isAvailable_eq (booking : jsval) (now : Z) (f : jsval) :
  truthy (opt_prop booking "flight") = true → absent f = false →
  isAvailable booking now f = Ok (offered booking now f).
Proof.
  intros Hb Hf. unfold isAvailable.
  rewrite (prop_present f "departure_time" Hf). cbn [mbind res_bind].
  rewrite (prop_present f "id" Hf). cbn [mbind res_bind].
  assert (prop booking "flight" = Ok (opt_prop booking "flight")) as ->
    by by destruct booking.
  cbn [mbind res_bind]. by rewrite (prop_truthy _ _ Hb).
Qed.

Lemma filter_elements_offered (booking : jsval) (now : Z) (l : list jsval) :
  truthy (opt_prop booking "flight") = true →
  Forall (λ f, absent f = false) l →
  filter_elements (isAvailable booking now) l = Ok (List.filter (offered booking now) l).
Proof.
  intros Hb. induction 1 as [| f l Hf _ IH]; [done |].
  cbn [filter_elements List.filter]. rewrite (isAvailable_eq booking now f Hb Hf), IH.
  cbn [mbind res_bind]. by destruct (offered booking now f).
Qed.

(** X16. The flights offered for rescheduling.  For a booking with a flight
    and a stored token that is a text or none, [loadAvailableFlights]
    searches the route of that flight and, when the
    answer is a list of flights, keeps exactly those that are not the
    flight of the booking and whose departure time, as [new Date] reads it
    without any trimming, lies after the present moment, in the order of the
    answer; a flight whose departure time does not parse is dropped.  The
    loading flag is set before and reset after. *)
Theorem reschedule_offers_later_flights_of_the_route (booking : jsval)
    (token : jsval) (net : request → reply) (lat : request → Z) (t0 : Z)
    (flights : list jsval) :
  let w := fresh token net lat t0 in
  let flight := opt_prop booking "flight" in
  let config :=
    request_in w "get"
      ("/api/flights/search/" +:+ ToString (opt_prop flight "departure_airport") +:+
       "/" +:+ ToString (opt_prop flight "arrival_airport")) VUndefined in
  let now := t0 + Z.max 0 (lat config) in
  let kept := List.filter (offered booking now) flights in
  truthy flight = true →
  sendable token = true →
  answer w config = Ok (VArr flights) →
  Forall (λ f, absent f = false) flights →
  trace (loadAvailableFlights booking w).2 =
    [SetState "isLoadingFlights" (VBool true); Sent config;
     SetState "availableFlights" (VArr kept);
     SetState "isLoadingFlights" (VBool false)] ∧
  (∀ f, f ∈ kept ↔
        f ∈ flights ∧
        strict_equal (opt_prop f "id") (opt_prop flight "id") = false ∧
        ∃ t, new_Date (opt_prop f "departure_time") = Some t ∧ now < t).
Proof.
  intros w flight config now kept Hflight Hsend Hans Hflights. split.
  - assert (Hlat : (15000 <? lat config) = false).
    { unfold answer in Hans. change (latency w config) with (lat config) in Hans.
      by destruct (15000 <? lat config). }
    destruct (loadAvailableFlights booking w) as [r w'] eqn:Hrun. cbn [snd].
    unfold loadAvailableFlights, flightsAPI.searchFlights, Date_now in Hrun.
    fold flight in Hrun. rewrite Hflight in Hrun. run_in Hrun.
    assert (prop booking "flight" = Ok flight) as Hp by by destruct booking.
    rewrite Hp in Hrun. run_in Hrun.
    rewrite !(prop_truthy flight _ Hflight) in Hrun. run_in Hrun.
    match type of Hrun with context [answer ?w1 ?c] =>
      change (answer w1 c) with (answer w config) in Hrun end.
    rewrite Hans in Hrun. run_in Hrun.
    cbn [startTime elapsed after_call set_elapsed set_trace w fresh latency] in Hrun.
    match type of Hrun with context [lat ?c] =>
      change (lat c) with (lat config) in Hrun end.
    rewrite Hlat in Hrun.
    replace (t0 + (0 + Z.max 0 (lat config))) with now in Hrun by (subst now; lia).
    change (array_filter (VArr flights) (isAvailable booking now))
      with (filter_elements (isAvailable booking now) flights) in Hrun.
    rewrite (filter_elements_offered booking now flights Hflight Hflights) in Hrun.
    run_in Hrun. by injection Hrun as <- <-.
  - intros f. subst kept. rewrite list_elem_of_In, filter_In, <- list_elem_of_In.
    unfold offered. fold flight. rewrite andb_true_iff, negb_true_iff.
    unfold later. split.
    + intros (Hin & Hne & Hl). split; [done |]. split; [done |].
      destruct (new_Date (opt_prop f "departure_time")) as [t |]; [| done].
      exists t. split; [done |]. by apply Z.ltb_lt.
    + intros (Hin & Hne & t & -> & Hl). split; [done |]. split; [done |].
      by apply Z.ltb_lt.
Qed.

End moving.

(** A booking on flight 5 from Bahrain to London, and an answer with that
    flight, one that has left, one still to leave, and one still to leave
    whose departure time carries microseconds. *)
Lemma reschedule_offers_later_flights_of_the_route_witness :
  states_of "availableFlights"
    (trace (@ManageBooking.loadAvailableFlights (ESDate.engine 10800000)
              (VObj (list_to_map
                 [("id", VNum 7);
                  ("flight", VObj (list_to_map
                     [("id", VNum 5); ("departure_airport", VStr "BAH");
                      ("arrival_airport", VStr "LHR")]))]))
              (fresh (VStr "abc")
                 (backend (VArr
                    [VObj (list_to_map [("id", VNum 5);
                                        ("departure_time", VStr "2025-09-20T09:15:00")]);
                     VObj (list_to_map [("id", VNum 6);
                                        ("departure_time", VStr "2025-09-10T09:15:00")]);
                     VObj (list_to_map [("id", VNum 8);
                                        ("departure_time", VStr "2025-09-21T09:15:00")]);
                     VObj (list_to_map [("id", VNum 9);
                                        ("departure_time", VStr "2025-09-22T09:15:00.000000")])]))
                 (λ _, 120) 1758213112601)).2) =
  [VArr [VObj (list_to_map [("id", VNum 8);
                            ("departure_time", VStr "2025-09-21T09:15:00")]);
         VObj (list_to_map [("id", VNum 9);
                            ("departure_time", VStr "2025-09-22T09:15:00.000000")])]].
Proof.
  match goal with
  | |- states_of _ (trace (ManageBooking.loadAvailableFlights ?b
                             (fresh ?tok (backend (VArr ?fl)) ?lat ?t0)).2) = _ =>
      rewrite (proj1 (@reschedule_offers_later_flights_of_the_route
                        (ESDate.engine 10800000) b tok (backend (VArr fl)) lat t0 fl
                        eq_refl eq_refl eq_refl ltac:(repeat constructor)))
  end.
  reflexivity.
Defined.

(** ** The booking screen: passengers *)

Section passengers.
Import BookSearch.

(** X17. The passenger counts stay in range.  Every update leaves the count
    it changes between 0 and 9, the adults at 1 at least, and the other
    counts as they were, whatever the step.  And through the buttons of the
    modal, which are disabled at nine passengers in all and at the least
    count of a row, no state can be reached with more than nine passengers,
    less than one adult or a negative count: the remaining places shown are
    never negative. *)
Theorem passenger_counts_stay_in_range :
  (∀ type delta prev,
     let c := updatePassengerCount type delta prev in
     0 <= count type c <= 9 ∧
     (type = Adults → 1 <= count type c) ∧
     (∀ other, other ≠ type → count other c = count other prev)) ∧
  (∀ c, shown c →
     1 <= adults c ∧ 0 <= children c ∧ 0 <= infants c ∧ 0 <= youth c ∧
     getTotalPassengers c <= 9 ∧ 0 <= getRemainingPassengers c).
Proof.
  split.
  - intros type delta prev c. subst c. unfold updatePassengerCount.
    destruct type; cbn [andb count set_count adults children infants youth].
    + destruct (Z.ltb_spec (Z.max 0 (Z.min 9 (adults prev + delta))) 1);
        cbn [count set_count adults children infants youth].
      * split; [lia |]. split; [lia |]. by intros [].
      * split; [lia |]. split; [lia |]. by intros [].
    + split; [lia |]. split; [done |]. by intros [].
    + split; [lia |]. split; [done |]. by intros [].
    + split; [lia |]. split; [done |]. by intros [].
  - intros c Hc. unfold getRemainingPassengers, getTotalPassengers.
    induction Hc as [| c c' _ IH Hpress]; [cbn; lia |].
    destruct Hpress as [type c Hplus | type c Hminus].
    + unfold plusDisabled, getTotalPassengers in Hplus. apply Z.leb_gt in Hplus.
      unfold updatePassengerCount.
      destruct type; cbn [andb count set_count adults children infants youth].
      * destruct (Z.ltb_spec (Z.max 0 (Z.min 9 (adults c + 1))) 1);
          cbn [count set_count adults children infants youth]; lia.
      * lia.
      * lia.
      * lia.
    + unfold updatePassengerCount.
      destruct type;
        cbn [minusDisabled andb count set_count adults children infants youth] in *;
        apply Z.leb_gt in Hminus.
      * destruct (Z.ltb_spec (Z.max 0 (Z.min 9 (adults c + -1))) 1);
          cbn [count set_count adults children infants youth]; lia.
      * lia.
      * lia.
      * lia.
Qed.

End passengers.

(** ** Days, months and years *)

Section calendar_days.
Import ESDate Calendar.

Local Ltac Zify.zify_post_hook ::= Z.div_mod_to_equations.

(** [YearFromDay] is the year a day falls in. *)
Lemma YearFromDay_spec (d : Z) :
  DayFromYear (YearFromDay d) <= d < DayFromYear (YearFromDay d + 1).
Proof.
  unfold YearFromDay.
  set (e := 1970 + 400 * d / 146097).
  assert (Hlo : DayFromYear (e - 1) <= d) by (subst e; unfold DayFromYear; lia).
  assert (Hhi : d < DayFromYear (e + 2)) by (subst e; unfold DayFromYear; lia).
  destruct (Z.ltb_spec d (DayFromYear e)).
  - replace (e - 1 + 1) with e by lia. lia.
  - destruct (Z.leb_spec (DayFromYear (e + 1)) d).
    + replace (e + 1 + 1) with (e + 2) by lia. lia.
    + lia.
Qed.

Lemma Day_MakeDate (day tod : Z) :
  0 <= tod < msPerDay → Day (MakeDate day tod) = day.
Proof. unfold Day, MakeDate, msPerDay. lia. Qed.

Lemma monthStart_bounds (y m d : Z) :
  1 <= m <= 12 → 1 <= d <= daysInMonth y m →
  0 <= monthStart y (m - 1) + d - 1 < DaysInYear y.
Proof.
  intros Hm Hd. assert (Hl := DaysInYear_cases y).
  unfold monthStart, daysInMonth in *.
  assert (m = 1 ∨ m = 2 ∨ m = 3 ∨ m = 4 ∨ m = 5 ∨ m = 6 ∨ m = 7 ∨ m = 8 ∨
          m = 9 ∨ m = 10 ∨ m = 11 ∨ m = 12) as Hc by lia.
  destruct Hl as [Hl | Hl]; rewrite Hl in *; simpl in *;
    intuition (subst m; simpl in *; lia).
Qed.

Lemma MakeDay_plain (y m d : Z) :
  1 <= m <= 12 → MakeDay y (m - 1) d = DayFromYear y + monthStart y (m - 1) + d - 1.
Proof.
  intros Hm. unfold MakeDay.
  replace ((m - 1) / 12) with 0 by lia. replace ((m - 1) mod 12) with (m - 1) by lia.
  by replace (y + 0) with y by lia.
Qed.

(** The year of a day of the calendar. *)
Lemma year_of_MakeDate (y m d tod : Z) :
  1 <= m <= 12 → 1 <= d <= daysInMonth y m → 0 <= tod < msPerDay →
  YearFromTime (MakeDate (MakeDay y (m - 1) d) tod) = y.
Proof.
  intros Hm Hd Ht. unfold YearFromTime. rewrite Day_MakeDate, MakeDay_plain by done.
  replace (DayFromYear y + monthStart y (m - 1) + d - 1)
    with (DayFromYear y + (monthStart y (m - 1) + d - 1)) by lia.
  apply YearFromDay_within. by apply monthStart_bounds.
Qed.

(** Every time value falls on a day of the calendar: its year, month and
    day of the month name its day number. *)
Lemma date_of_time (t : Z) :
  let y := YearFromTime t in
  let m := MonthFromTime t + 1 in
  let d := DateFromTime t in
  1 <= m <= 12 ∧ 1 <= d <= daysInMonth y m ∧ MakeDay y (m - 1) d = Day t.
Proof.
  intros y m d.
  pose proof (YearFromDay_spec (Day t)) as Hy. fold (YearFromTime t) in Hy. fold y in Hy.
  pose proof (DayFromYear_succ y) as Hs. pose proof (DaysInYear_cases y) as Hl.
  assert (Hm : 1 <= m <= 12).
  { subst m. unfold MonthFromTime. repeat case_match; lia. }
  rewrite MakeDay_plain by done.
  subst m d. replace (MonthFromTime t + 1 - 1) with (MonthFromTime t) by lia.
  unfold DateFromTime, MonthFromTime, DayWithinYear, InLeapYear, monthStart, daysInMonth.
  fold y. set (k := Day t - DayFromYear y).
  assert (0 <= k < DaysInYear y) by (subst k; lia).
  replace (Day t) with (DayFromYear y + k) by (subst k; lia).
  destruct Hl as [Hl | Hl]; rewrite Hl in *; cbn [Z.eqb Pos.eqb];
    repeat (match goal with
            | |- context [?a <? ?b] => destruct (Z.ltb_spec a b)
            end; try (cbn; lia)).
  all: simpl; lia.
Qed.

End calendar_days.

(** ** The booking screen: dates *)

Section book_dates.
Import ESDate ESLocal Calendar BookSearch.

Local Ltac Zify.zify_post_hook ::= Z.div_mod_to_equations.
Local Arguments digit_char : simpl never.
Local Arguments digit : simpl never.
Local Arguments is_digit : simpl never.

Lemma valid_date_day (y m d : Z) : valid_date y m d → 1 <= d <= 31.
Proof. intros (_ & _ & Hd). unfold daysInMonth in Hd. repeat case_match; lia. Qed.

Lemma time_value_in_range (tz y m d tod : Z) :
  - 86400000 <= tz <= 86400000 → valid_date y m d → 0 <= tod < msPerDay →
  TimeClip (MakeDate (MakeDay y (m - 1) d) tod - tz) =
  Some (MakeDate (MakeDay y (m - 1) d) tod - tz).
Proof.
  intros Htz Hv Ht. pose proof (valid_date_day y m d Hv) as Hd.
  destruct Hv as (Hy & Hm & _). unfold TimeClip.
  destruct (Z.leb_spec (Z.abs (MakeDate (MakeDay y (m - 1) d) tod - tz))
              8640000000000000) as [| Hbig]; [done |].
  exfalso. revert Hbig. rewrite MakeDay_plain by done.
  unfold MakeDate, msPerDay in *.
  assert (0 <= monthStart y (m - 1) <= 335).
  { unfold monthStart. repeat case_match; lia. }
  unfold DayFromYear. lia.
Qed.

(** A date-only string is read as the start of that day in UTC. *)
Lemma parse_date_only (tz y m d : Z) :
  valid_date y m d →
  parse tz (date_only_string y m d) = Some (MakeDate (MakeDay y (m - 1) d) 0).
Proof.
  intros Hv. pose proof (valid_date_day y m d Hv) as Hd31.
  pose proof Hv as (Hy & Hm & Hd).
  unfold parse, parse_date.
  replace (date_only_string y m d) with (date_only_string y m d +:+ "")
    by (rewrite date_only_string_chars; reflexivity).
  rewrite date_only_string_app.
  rewrite take4_pad4 by done.
  cbn [mbind option_bind expect]. rewrite bool_decide_eq_true_2 by done.
  rewrite take2_pad2 by lia. cbn [mbind option_bind expect].
  rewrite bool_decide_eq_true_2 by done.
  rewrite take2_pad2 by lia. cbn [mbind option_bind].
  destruct (Z.leb_spec 1 m); [| lia]. destruct (Z.leb_spec m 12); [| lia].
  destruct (Z.leb_spec 1 d); [| lia]. destruct (Z.leb_spec d 31); [| lia].
  cbn [andb].
  pose proof (time_value_in_range 0 y m d 0 ltac:(lia) Hv ltac:(unfold msPerDay; lia)) as Hc.
  by rewrite Z.sub_0_r in Hc.
Qed.

Lemma date_only_string_truthy (y m d : Z) :
  truthy (VStr (date_only_string y m d)) = true.
Proof. by rewrite date_only_string_chars. Qed.

(** The day before a date of the calendar is a day of the calendar, one day
    number below. *)
Lemma day_before_MakeDay (y m d : Z) :
  1 <= m <= 12 → 1 <= d <= daysInMonth y m →
  let '(y', m', d') := day_before y m d in
  1 <= m' <= 12 ∧ 1 <= d' <= daysInMonth y' m' ∧
  MakeDay y' (m' - 1) d' = MakeDay y (m - 1) d - 1.
Proof.
  intros Hm Hd. unfold day_before.
  destruct (Z.leb_spec 2 d) as [Hd2 | Hd1].
  { split; [done |]. split; [lia |]. rewrite !MakeDay_plain by done. lia. }
  assert (d = 1) as -> by lia.
  destruct (Z.leb_spec 2 m) as [Hm2 | Hm1].
  - assert (Hl : 28 <= daysInMonth y (m - 1)).
    { unfold daysInMonth. repeat case_match; lia. }
    split; [lia |]. split; [lia |]. rewrite !MakeDay_plain by lia.
    assert (monthStart y (m - 1) = monthStart y (m - 1 - 1) + daysInMonth y (m - 1))
      as ->; [| lia].
    assert (m = 2 ∨ m = 3 ∨ m = 4 ∨ m = 5 ∨ m = 6 ∨ m = 7 ∨ m = 8 ∨ m = 9 ∨
            m = 10 ∨ m = 11 ∨ m = 12) as Hc by lia.
    unfold monthStart, daysInMonth. generalize (DaysInYear y =? 366). intros l.
    repeat (destruct Hc as [-> | Hc]; [by destruct l |]).
    rewrite Hc. by destruct l.
  - assert (m = 1) as -> by lia.
    split; [lia |]. split; [by cbn |]. rewrite !MakeDay_plain by lia.
    pose proof (DayFromYear_succ (y - 1)) as Hs.
    replace (y - 1 + 1) with y in Hs by lia.
    unfold monthStart. change (12 - 1) with 11. change (1 - 1) with 0. cbv iota.
    destruct (Z.eqb_spec (DaysInYear (y - 1)) 366) as [Hl | Hl]; [lia |].
    pose proof (DaysInYear_cases (y - 1)). lia.
Qed.

(** X18. [formatFullDate] reads a date-only string, such as the departure
    date the calendar stores, without anchoring it at noon: [Date] takes it
    for the start of the day in UTC.  East of Greenwich (an offset from 0 up
    to a day) the text is the day, month and year of the string; west of
    Greenwich it is the day before, which for the first of a month is the
    last day of the month before, and for the first of January the last of
    December of the year before. *)
Theorem full_date_shifts_west_of_Greenwich (tz y m d : Z) :
  valid_date y m d →
  (0 <= tz < 86400000 →
     formatFullDate tz (VStr (date_only_string y m d)) =
     pretty d +:+ " " +:+ MyTrips.month_text (m - 1) +:+ " " +:+ pretty y) ∧
  (- 86400000 <= tz < 0 →
     let '(y', m', d') := day_before y m d in
     formatFullDate tz (VStr (date_only_string y m d)) =
     pretty d' +:+ " " +:+ MyTrips.month_text (m' - 1) +:+ " " +:+ pretty y').
Proof.
  intros Hv. pose proof Hv as (Hy & Hm & Hd).
  unfold formatFullDate. rewrite date_only_string_truthy. cbn [negb new_Date].
  change (@Date_parse (engine tz)) with (parse tz).
  rewrite parse_date_only by done.
  unfold getDate, getMonth, getFullYear, LocalTime.
  split.
  - intros Htz.
    replace (MakeDate (MakeDay y (m - 1) d) 0 + tz)
      with (MakeDate (MakeDay y (m - 1) d) tz) by (unfold MakeDate; lia).
    destruct (month_and_date_of_MakeDate y m d tz) as [-> ->];
      unfold msPerDay; try lia.
    rewrite year_of_MakeDate; unfold msPerDay; try lia. reflexivity.
  - intros Htz. pose proof (day_before_MakeDay y m d Hm Hd) as Hb.
    destruct (day_before y m d) as [[y' m'] d']. destruct Hb as (Hm' & Hd' & Hday).
    replace (MakeDate (MakeDay y (m - 1) d) 0 + tz)
      with (MakeDate (MakeDay y' (m' - 1) d') (86400000 + tz))
      by (rewrite Hday; unfold MakeDate, msPerDay; lia).
    destruct (month_and_date_of_MakeDate y' m' d' (86400000 + tz)) as [-> ->];
      unfold msPerDay; try lia.
    rewrite year_of_MakeDate; unfold msPerDay; try lia. reflexivity.
Qed.

(** The ninth of October 2025, read in Bahrain and in New York, and New
    Year's Day of 2025 in New York. *)
Lemma full_date_shifts_west_of_Greenwich_witness :
  formatFullDate 10800000 (VStr "2025-10-09") = "9 OCT 2025" ∧
  formatFullDate (-14400000) (VStr "2025-10-09") = "8 OCT 2025" ∧
  formatFullDate (-14400000) (VStr "2025-01-01") = "31 DEC 2024".
Proof.
  split; [| split].
  - refine (proj1 (full_date_shifts_west_of_Greenwich 10800000 2025 10 9 _) _);
      [by vm_compute | lia].
  - refine (proj2 (full_date_shifts_west_of_Greenwich (-14400000) 2025 10 9 _) _);
      [by vm_compute | lia].
  - refine (proj2 (full_date_shifts_west_of_Greenwich (-14400000) 2025 1 1 _) _);
      [by vm_compute | lia].
Defined.

(** The decimal digits [pretty] writes, from the last one. *)
Lemma pretty_N_go_digit (n : Z) (s : string) :
  0 < n →
  pretty_N_go (Z.to_N n) s =
  pretty_N_go (Z.to_N (n / 10)) (String (digit_char (n mod 10)) s).
Proof.
  intros Hn. rewrite pretty_N_go_step by lia.
  assert (Z.to_N n `div` 10 = Z.to_N (n / 10))%N as -> by (rewrite Z2N.inj_div by lia; reflexivity).
  do 2 f_equal.
  assert (Z.to_N n `mod` 10 = Z.to_N (n mod 10))%N as -> by (rewrite Z2N.inj_mod by lia; reflexivity).
  assert (n mod 10 = 0 ∨ n mod 10 = 1 ∨ n mod 10 = 2 ∨ n mod 10 = 3 ∨ n mod 10 = 4 ∨
          n mod 10 = 5 ∨ n mod 10 = 6 ∨ n mod 10 = 7 ∨ n mod 10 = 8 ∨ n mod 10 = 9)
    as Hc by lia.
  repeat (destruct Hc as [-> | Hc]; [reflexivity |]). by rewrite Hc.
Qed.

Lemma pretty_positive_Z (n : Z) : 0 < n → pretty n = pretty_N_go (Z.to_N n) "".
Proof. intros Hn. by destruct n. Qed.

Lemma pretty_one_digit (n : Z) :
  0 <= n <= 9 → pretty n = String (digit_char n) "".
Proof.
  intros Hn.
  assert (n = 0 ∨ n = 1 ∨ n = 2 ∨ n = 3 ∨ n = 4 ∨ n = 5 ∨ n = 6 ∨ n = 7 ∨
          n = 8 ∨ n = 9) as Hc by lia.
  repeat (destruct Hc as [-> | Hc]; [reflexivity |]). by rewrite Hc.
Qed.

Lemma pretty_two_digits (n : Z) : 10 <= n <= 99 → pretty n = pad2 n.
Proof.
  intros Hn. rewrite pretty_positive_Z by lia.
  rewrite pretty_N_go_digit by lia. rewrite pretty_N_go_digit by lia.
  replace (n / 10 / 10) with 0 by lia. replace (n / 10 mod 10) with (n / 10) by lia.
  reflexivity.
Qed.

Lemma pretty_four_digits (n : Z) : 1000 <= n <= 9999 → pretty n = pad4 n.
Proof.
  intros Hn. rewrite pretty_positive_Z by lia.
  do 4 rewrite pretty_N_go_digit by lia.
  replace (n / 10 / 10 / 10 / 10) with 0 by lia.
  replace (n / 10 / 10 / 10 mod 10) with (n / 1000) by lia.
  replace (n / 10 / 10 mod 10) with (n / 100 mod 10) by lia.
  reflexivity.
Qed.

(** [String(n).padStart(2, '0')] is the two digits of [n]. *)
Lemma padStart_two_digits (n : Z) :
  0 <= n <= 99 → padStart 2 "0" (pretty n) = pad2 n.
Proof.
  intros Hn. destruct (Z.le_gt_cases n 9).
  - rewrite pretty_one_digit by lia. unfold pad2.
    replace (n / 10) with 0 by lia. replace (n mod 10) with n by lia. reflexivity.
  - rewrite pretty_two_digits by lia. reflexivity.
Qed.

(** X19. The date a calendar cell stands for comes back from the text it is
    stored as.  For a day of the calendar with a year from 1000 on, the cell
    holds noon of that day in local time; [selectDate] stores it as the text
    [YYYY-MM-DD] of that same day, whatever the offset of local time; and
    the search, which reads the stored text with [T12:00:00] added, gets the
    moment of the cell back. *)
Theorem selected_date_reads_back (tz y m d : Z) (w : World) :
  - 86400000 <= tz <= 86400000 → valid_date y m d → 1000 <= y →
  let noon := UTC tz (MakeDate (MakeDay y (m - 1) d) 43200000) in
  Date_of tz y (m - 1) d 12 0 0 = Some noon ∧
  trace (selectDate tz (Some noon) w).2 =
    (trace w ++ [SetState "departureDate" (VStr (date_only_string y m d));
                 SetState "showCalendarModal" (VBool false)])%list ∧
  parse tz (date_only_string y m d +:+ "T12:00:00") = Some noon.
Proof.
  intros Htz Hv Hy noon. pose proof Hv as (_ & Hm & Hd).
  pose proof (valid_date_day y m d Hv) as Hd31.
  split; [| split].
  - unfold Date_of, MakeFullYear.
    destruct (Z.leb_spec 0 y); [| lia]. destruct (Z.leb_spec y 99); [lia |].
    cbn [andb]. change (MakeTime 12 0 0 0) with 43200000.
    unfold UTC. apply time_value_in_range; unfold msPerDay; try done; lia.
  - unfold selectDate, mbind, M_bind, emit. cbn [fmap option_fmap option_map snd trace set_trace].
    unfold getFullYear, getMonth, getDate, LocalTime. subst noon. unfold UTC.
    replace (MakeDate (MakeDay y (m - 1) d) 43200000 - tz + tz)
      with (MakeDate (MakeDay y (m - 1) d) 43200000) by lia.
    destruct (month_and_date_of_MakeDate y m d 43200000) as [-> ->];
      unfold msPerDay; try lia.
    rewrite year_of_MakeDate; unfold msPerDay; try lia.
    replace (m - 1 + 1) with m by lia. unfold num_text.
    rewrite !padStart_two_digits by lia. rewrite pretty_four_digits by (destruct Hv; lia).
    rewrite <- (assoc_L app). reflexivity.
  - by apply parse_date_only_at_noon.
Qed.

Lemma selected_date_reads_back_witness :
  states_of "departureDate"
    (trace (selectDate 10800000 (Date_of 10800000 2025 9 9 12 0 0)
              (fresh VNull (λ _, NoResponse) (λ _, 0) 0)).2) =
  [VStr "2025-10-09"] ∧
  parse 10800000 ("2025-10-09" +:+ "T12:00:00") = Date_of 10800000 2025 9 9 12 0 0.
Proof.
  destruct (selected_date_reads_back 10800000 2025 10 9
              (fresh VNull (λ _, NoResponse) (λ _, 0) 0))
    as (Hcell & Htr & Hparse); [lia | by vm_compute | lia |].
  change (10 - 1) with 9 in *. rewrite Hcell. split.
  - rewrite Htr. reflexivity.
  - exact Hparse.
Defined.

End book_dates.

Section calendar_grid.
Import ESDate ESLocal Calendar BookSearch.

Local Ltac Zify.zify_post_hook ::= Z.div_mod_to_equations.

Lemma daysInMonth_bounds (y m : Z) : 28 <= daysInMonth y m <= 31.
Proof. unfold daysInMonth. repeat case_match; lia. Qed.

(** Day 0 of the next month is the last day of the month. *)
Lemma MakeDay_last (y m : Z) :
  1 <= m <= 12 → MakeDay y m 0 = MakeDay y (m - 1) (daysInMonth y m).
Proof.
  intros Hm. rewrite (MakeDay_plain y m) by done.
  pose proof (DayFromYear_succ y) as Hs. pose proof (DaysInYear_cases y) as Hl.
  assert (m = 1 ∨ m = 2 ∨ m = 3 ∨ m = 4 ∨ m = 5 ∨ m = 6 ∨ m = 7 ∨ m = 8 ∨
          m = 9 ∨ m = 10 ∨ m = 11 ∨ m = 12) as Hc by lia.
  unfold MakeDay, monthStart, daysInMonth.
  repeat (destruct Hc as [Hc | Hc]); subst m;
    cbn [Z.div Z.modulo Z.div_eucl Z.pos_div_eucl Z.leb Z.ltb Z.compare Pos.compare
         Pos.compare_cont Z.add Z.mul Z.sub Z.opp Z.pos_sub Z.succ_double Z.pred_double
         Z.double Pos.add Pos.mul Pos.succ Pos.pred_double fst snd];
    rewrite ?Z.add_0_r, ?Hs;
    destruct Hl as [Hl | Hl]; rewrite ?Hl; simpl; try lia.
  all: change (12 `div` 12) with 1; rewrite Hs, Hl; lia.
Qed.

Lemma Date_of_day (tz y m d tod h mi sec : Z) :
  - 86400000 <= tz <= 86400000 → 100 <= y → valid_date y m d →
  MakeTime h mi sec 0 = tod → 0 <= tod < msPerDay →
  Date_of tz y (m - 1) d h mi sec = Some (MakeDate (MakeDay y (m - 1) d) tod - tz).
Proof.
  intros Htz Hy Hv <- Ht. unfold Date_of, MakeFullYear.
  destruct (Z.leb_spec 0 y); [| lia]. destruct (Z.leb_spec y 99); [lia |].
  cbn [andb]. unfold UTC. by apply time_value_in_range.
Qed.

(** X20. The calendar grid of a month.  For a month of a year from 100 to
    9999, seen at a moment of such a year, [generateMonthDays] gives as many
    blank cells as the weekday of the first of the month counts from Sunday,
    and then one cell for each day of the month, in order, from 1 to the
    length of the month; the cell of a day holds noon of that day in local
    time, and it can be selected exactly when the day is today or later. *)
Theorem calendar_grid_holds_the_days_of_the_month (tz today monthDate y m : Z) :
  - 86400000 <= tz <= 86400000 →
  100 <= y <= 9999 → 1 <= m <= 12 →
  getFullYear tz monthDate = y → getMonth tz monthDate = m - 1 →
  100 <= getFullYear tz today <= 9999 →
  let todayDay := Day (LocalTime tz today) in
  generateMonthDays tz today monthDate =
  (replicate (Z.to_nat ((MakeDay y (m - 1) 1 + 4) mod 7)) None ++
   ((λ d, Some {| day := d;
                  date := Some (UTC tz (MakeDate (MakeDay y (m - 1) d) 43200000));
                  isPast := MakeDay y (m - 1) d <? todayDay;
                  isToday := MakeDay y (m - 1) d =? todayDay;
                  isSelectable := todayDay <=? MakeDay y (m - 1) d |})
      <$> seqZ 1 (daysInMonth y m)))%list.
Proof.
  intros Htz Hy Hm Hyear Hmonth Htoday todayDay.
  pose proof (daysInMonth_bounds y m) as Hdim.
  assert (Hv : ∀ d, 1 <= d <= daysInMonth y m → valid_date y m d)
    by (intros d Hd; repeat split; lia).
  unfold generateMonthDays. rewrite Hyear, Hmonth.
  (* the first day *)
  rewrite (Date_of_day tz y m 1 0) by (try apply Hv; unfold msPerDay; try done; lia).
  (* the last day *)
  assert (Hlast : Date_of tz y (m - 1 + 1) 0 0 0 0 =
                  Some (MakeDate (MakeDay y (m - 1) (daysInMonth y m)) 0 - tz)).
  { replace (m - 1 + 1) with m by lia.
    rewrite <- (Date_of_day tz y m (daysInMonth y m) 0 0 0 0)
      by (try apply Hv; unfold msPerDay; try done; lia).
    unfold Date_of, MakeFullYear.
    destruct (Z.leb_spec 0 y); [| lia]. destruct (Z.leb_spec y 99); [lia |].
    cbn [andb]. by rewrite MakeDay_last. }
  rewrite Hlast. cbn [fmap option_fmap option_map default].
  unfold getDay, getDate, WeekDay, LocalTime, id.
  replace (MakeDate (MakeDay y (m - 1) 1) 0 - tz + tz)
    with (MakeDate (MakeDay y (m - 1) 1) 0) by lia.
  replace (MakeDate (MakeDay y (m - 1) (daysInMonth y m)) 0 - tz + tz)
    with (MakeDate (MakeDay y (m - 1) (daysInMonth y m)) 0) by lia.
  rewrite Day_MakeDate by (unfold msPerDay; lia).
  destruct (month_and_date_of_MakeDate y m (daysInMonth y m) 0) as [_ ->];
    unfold msPerDay; try lia.
  f_equal.
  (* today *)
  destruct (date_of_time (LocalTime tz today)) as (Hm' & Hd' & Hday').
  unfold getFullYear, getMonth, getDate in *. fold (LocalTime tz today) in *.
  set (Y := YearFromTime (LocalTime tz today)) in *.
  set (M := MonthFromTime (LocalTime tz today)) in *.
  set (D := DateFromTime (LocalTime tz today)) in *.
  assert (Hstart : Date_of tz Y M D 0 0 0 = Some (MakeDate todayDay 0 - tz)).
  { replace M with (M + 1 - 1) by lia. subst todayDay. rewrite <- Hday'.
    apply Date_of_day; unfold msPerDay; try done; try lia.
    repeat split; lia. }
  rewrite Hstart.
  apply Forall_fmap_ext_1, Forall_forall. intros d Hd.
  apply elem_of_seqZ in Hd.
  unfold dayCell_of.
  rewrite (Date_of_day tz y m d 43200000 12 0 0) by (try apply Hv; unfold msPerDay; try done; lia).
  rewrite (Date_of_day tz y m d 0 0 0 0) by (try apply Hv; unfold msPerDay; try done; lia).
  unfold date_lt, date_same, UTC, MakeDate, msPerDay. do 2 f_equal.
  - destruct (Z.ltb_spec (MakeDay y (m - 1) d * 86400000 + 0 - tz) (todayDay * 86400000 + 0 - tz)),
      (Z.ltb_spec (MakeDay y (m - 1) d) todayDay); lia || done.
  - destruct (Z.eqb_spec (MakeDay y (m - 1) d * 86400000 + 0 - tz) (todayDay * 86400000 + 0 - tz)),
      (Z.eqb_spec (MakeDay y (m - 1) d) todayDay); lia || done.
  - destruct (Z.ltb_spec (MakeDay y (m - 1) d * 86400000 + 0 - tz) (todayDay * 86400000 + 0 - tz)),
      (Z.leb_spec todayDay (MakeDay y (m - 1) d)); lia || done.
Qed.

End calendar_grid.

(** September 2025, seen on the 18th in Bahrain: the first is a Monday, so
    one blank cell comes before the thirty days, and the days from the 18th
    on can be selected. *)
Lemma calendar_grid_holds_the_days_of_the_month_witness :
  map (option_map (λ x, (BookSearch.day x, BookSearch.isSelectable x)))
    (BookSearch.generateMonthDays 10800000 1758213112601 1756674000000) =
  None :: map (λ d, Some (d, 18 <=? d)) (seqZ 1 30).
Proof.
  rewrite (calendar_grid_holds_the_days_of_the_month 10800000 1758213112601
             1756674000000 2025 9);
    [by vm_compute | lia | lia | lia | by vm_compute | by vm_compute
    | by vm_compute].
Defined.

(** ** The booking screen: the search *)

Section iso_dates.
Import ESDate ESLocal Calendar.

Local Ltac Zify.zify_post_hook ::= Z.div_mod_to_equations.
Local Arguments digit_char : simpl never.
Local Arguments digit : simpl never.
Local Arguments is_digit : simpl never.

Lemma digit_char_inj (a b : Z) :
  0 <= a <= 9 → 0 <= b <= 9 → digit_char a = digit_char b → a = b.
Proof.
  intros Ha Hb Heq.
  destruct (digit_char_spec a Ha) as (_ & Hda & _).
  destruct (digit_char_spec b Hb) as (_ & Hdb & _).
  rewrite Heq in Hda. congruence.
Qed.

Lemma digit_char_plain (a : Z) :
  0 <= a <= 9 →
  digit_char a ≠ "T"%char ∧ digit_char a ≠ "-"%char ∧ digit_char a ≠ "+"%char.
Proof.
  intros Ha.
  assert (a = 0 ∨ a = 1 ∨ a = 2 ∨ a = 3 ∨ a = 4 ∨ a = 5 ∨ a = 6 ∨ a = 7 ∨
          a = 8 ∨ a = 9) as Hc by lia.
  repeat (destruct Hc as [-> | Hc]; [by vm_compute |]). subst a. by vm_compute.
Qed.

Lemma string_app_nil_r (s : string) : s +:+ "" = s.
Proof.
  induction s as [|c s IH]; [done |].
  change (String c s +:+ "") with (String c (s +:+ "")). by rewrite IH.
Qed.

Lemma TimeClip_range (x t : Z) :
  TimeClip x = Some t → Z.abs t <= 8640000000000000.
Proof.
  unfold TimeClip. destruct (Z.leb_spec (Z.abs x) 8640000000000000); [| done].
  by intros [= <-].
Qed.

Lemma parse_range (tz : Z) (s : string) (t : Z) :
  parse tz s = Some t → Z.abs t <= 8640000000000000.
Proof.
  unfold parse. intros Hp.
  destruct (parse_date s) as [[[[y m] d] r] |]; cbn [mbind option_bind] in Hp; [| done].
  destruct (_ && _); [| done].
  destruct r as [| T r1]; [by apply TimeClip_range in Hp |].
  destruct (bool_decide (T = "T"%char)); [| done].
  destruct (parse_time r1) as [[[[[h mi] sec] ms] r2] |];
    cbn [mbind option_bind] in Hp; [| done].
  destruct (parse_offset r2) as [off |]; cbn [mbind option_bind] in Hp; [| done].
  destruct (time_in_range h mi sec ms); [| done].
  by apply TimeClip_range in Hp.
Qed.

Lemma new_Date_range (tz : Z) (v : jsval) (t : Z) :
  @new_Date (engine tz) v = Some t → Z.abs t <= 8640000000000000.
Proof.
  destruct v as [| | b | | n | s | l | o]; cbn [new_Date];
    first [ done | apply TimeClip_range | apply parse_range | idtac ].
  all: intros [= <-]; try destruct b; lia.
Qed.

(** The years a time value can fall in have six digits at most. *)
Lemma year_of_time_value (t : Z) :
  Z.abs t <= 8640000000000000 → - 999999 <= YearFromTime t <= 999999.
Proof.
  intros Ht. pose proof (YearFromDay_spec (Day t)) as Hy.
  fold (YearFromTime t) in Hy.
  assert (- 100000000 <= Day t <= 100000000) by (unfold Day, msPerDay; lia).
  unfold DayFromYear in Hy. lia.
Qed.

Lemma take2_sign (c : ascii) (r : string) :
  c = "-"%char ∨ c = "+"%char → take2 (String c r) = None ∧ take4 (String c r) = None.
Proof. intros [-> | ->]; by destruct r as [|? [|? [|? ?]]]. Qed.

Lemma iso_year_four (y : Z) (r : string) :
  0 <= y <= 9999 → take4 (iso_year y +:+ r) = Some (y, r).
Proof.
  intros Hy. unfold iso_year.
  destruct (Z.leb_spec 0 y); [| lia]. destruct (Z.leb_spec y 9999); [| lia].
  cbn [andb]. by apply take4_pad4.
Qed.

Lemma iso_year_six (y : Z) (r : string) :
  - 999999 <= y <= 999999 → ¬ 0 <= y <= 9999 →
  ∃ c, (c = "-"%char ∧ y < 0 ∨ c = "+"%char ∧ 0 < y) ∧
       iso_year y +:+ r =
       String c (pad2 (Z.abs y / 10000) +:+ pad4 (Z.abs y mod 10000) +:+ r).
Proof.
  intros Hy Hn. unfold iso_year, pad6.
  assert (((0 <=? y) && (y <=? 9999)) = false) as ->.
  { destruct (Z.leb_spec 0 y), (Z.leb_spec y 9999); try done; lia. }
  destruct (Z.ltb_spec y 0).
  - exists "-"%char. split; [left; split; [done | lia] |].
    rewrite !string_app_assoc. reflexivity.
  - exists "+"%char. split; [right; split; [done | lia] |].
    rewrite !string_app_assoc. reflexivity.
Qed.

(** The date part is read back from what follows the year. *)
Lemma month_and_day_read_back (m1 d1 m2 d2 : Z) :
  0 <= m1 <= 99 → 0 <= d1 <= 99 → 0 <= m2 <= 99 → 0 <= d2 <= 99 →
  "-" +:+ pad2 m1 +:+ "-" +:+ pad2 d1 = "-" +:+ pad2 m2 +:+ "-" +:+ pad2 d2 →
  m1 = m2 ∧ d1 = d2.
Proof.
  intros Hm1 Hd1 Hm2 Hd2 Heq.
  change ("-" +:+ pad2 m1 +:+ "-" +:+ pad2 d1)
    with (String "-" (pad2 m1 +:+ "-" +:+ pad2 d1)) in Heq.
  change ("-" +:+ pad2 m2 +:+ "-" +:+ pad2 d2)
    with (String "-" (pad2 m2 +:+ "-" +:+ pad2 d2)) in Heq.
  injection Heq as E1 E2 E3 E4.
  apply digit_char_inj in E1, E2, E3, E4; lia.
Qed.

(** Two time values have the same date part in [toISOString] exactly when
    they fall on the same day. *)
Lemma iso_date_same_day (t1 t2 : Z) :
  Z.abs t1 <= 8640000000000000 → Z.abs t2 <= 8640000000000000 →
  iso_date t1 = iso_date t2 ↔ Day t1 = Day t2.
Proof.
  intros Ht1 Ht2. split.
  - intros Heq. unfold iso_date in Heq.
    pose proof (year_of_time_value t1 Ht1) as Hy1.
    pose proof (year_of_time_value t2 Ht2) as Hy2.
    destruct (date_of_time t1) as (Hm1 & Hd1 & <-).
    destruct (date_of_time t2) as (Hm2 & Hd2 & <-).
    pose proof (daysInMonth_bounds (YearFromTime t1) (MonthFromTime t1 + 1)).
    pose proof (daysInMonth_bounds (YearFromTime t2) (MonthFromTime t2 + 1)).
    set (y1 := YearFromTime t1) in *. set (y2 := YearFromTime t2) in *.
    set (m1 := MonthFromTime t1 + 1) in *. set (m2 := MonthFromTime t2 + 1) in *.
    set (d1 := DateFromTime t1) in *. set (d2 := DateFromTime t2) in *.
    set (r1 := "-" +:+ pad2 m1 +:+ "-" +:+ pad2 d1) in Heq.
    set (r2 := "-" +:+ pad2 m2 +:+ "-" +:+ pad2 d2) in Heq.
    assert (Hrest : r1 = r2 → m1 = m2 ∧ d1 = d2).
    { apply month_and_day_read_back; lia. }
    assert (y1 = y2 ∧ r1 = r2) as [-> Hr];
      [| by destruct (Hrest Hr) as [-> ->]].
    clearbody r1 r2. clear Hrest.
    destruct (decide (0 <= y1 <= 9999)) as [Hf1 | Hs1],
             (decide (0 <= y2 <= 9999)) as [Hf2 | Hs2].
    + pose proof (f_equal take4 Heq) as Hy.
      rewrite !iso_year_four in Hy by done. by injection Hy.
    + destruct (iso_year_six y2 r2 Hy2 Hs2) as (c & Hc & Hcs).
      pose proof (f_equal take4 Heq) as Hy.
      rewrite (iso_year_four y1), Hcs in Hy by done.
      destruct (take2_sign c (pad2 (Z.abs y2 / 10000) +:+ pad4 (Z.abs y2 mod 10000) +:+ r2))
        as [_ Hnone]; [destruct Hc as [[-> _] | [-> _]]; auto |].
      by rewrite Hnone in Hy.
    + destruct (iso_year_six y1 r1 Hy1 Hs1) as (c & Hc & Hcs).
      pose proof (f_equal take4 Heq) as Hy.
      rewrite (iso_year_four y2), Hcs in Hy by done.
      destruct (take2_sign c (pad2 (Z.abs y1 / 10000) +:+ pad4 (Z.abs y1 mod 10000) +:+ r1))
        as [_ Hnone]; [destruct Hc as [[-> _] | [-> _]]; auto |].
      by rewrite Hnone in Hy.
    + destruct (iso_year_six y1 r1 Hy1 Hs1) as (c1 & Hc1 & Hcs1).
      destruct (iso_year_six y2 r2 Hy2 Hs2) as (c2 & Hc2 & Hcs2).
      rewrite Hcs1, Hcs2 in Heq. injection Heq as Hc E1 E2 E3 E4 E5 E6 Hr.
      split; [| exact Hr].
      clear Hcs1 Hcs2 Hr Hm1 Hm2 Hd1 Hd2 H H0 Ht1 Ht2.
      assert (0 <= Z.abs y1 <= 999999 ∧ 0 <= Z.abs y2 <= 999999) as [Ha1 Ha2] by lia.
      assert (Z.abs y1 = Z.abs y2) as Habs.
      { clear Hc1 Hc2 Hs1 Hs2 Hy1 Hy2 Hc.
        set (a1 := Z.abs y1) in *. set (a2 := Z.abs y2) in *. clearbody a1 a2.
        apply digit_char_inj in E1, E2, E3, E4, E5, E6; lia. }
      destruct Hc1 as [[-> ?] | [-> ?]], Hc2 as [[-> ?] | [-> ?]]; try done; lia.
  - intros Heq. unfold iso_date, YearFromTime, MonthFromTime, DateFromTime,
      MonthFromTime, DayWithinYear, InLeapYear, YearFromTime.
    by rewrite Heq.
Qed.

End iso_dates.

Section search_dates.
Import ESDate ESLocal Calendar BookSearch.

Local Ltac Zify.zify_post_hook ::= Z.div_mod_to_equations.
Local Arguments digit_char : simpl never.

Lemma before_app_tail (c : ascii) (s r : string) :
  before c s = s → before c (s +:+ String c r) = s.
Proof.
  induction s as [|x s IH]; intros Hs.
  - cbn [before String.append]. change ("" +:+ String c r) with (String c r).
    cbn [before]. by rewrite bool_decide_eq_true_2.
  - change (String x s +:+ String c r) with (String x (s +:+ String c r)).
    cbn [before] in *. destruct (bool_decide (x = c)); [done |].
    injection Hs as Hs. by rewrite IH.
Qed.

Lemma before_keeps_app (c : ascii) (a b : string) :
  before c a = a → before c b = b → before c (a +:+ b) = a +:+ b.
Proof.
  induction a as [|x a IH]; intros Ha Hb; [done |].
  change (String x a +:+ b) with (String x (a +:+ b)).
  cbn [before] in *. destruct (bool_decide (x = c)); [done |].
  injection Ha as Ha. by rewrite IH.
Qed.

Lemma before_T_digit (n : Z) (r : string) :
  0 <= n <= 9 → before "T" r = r →
  before "T" (String (digit_char n) r) = String (digit_char n) r.
Proof.
  intros Hn Hr. cbn [before].
  destruct (digit_char_plain n Hn) as (HT & _).
  by rewrite bool_decide_eq_false_2, Hr.
Qed.

Lemma before_T_pad2 (n : Z) : 0 <= n <= 99 → before "T" (pad2 n) = pad2 n.
Proof. intros Hn. unfold pad2. repeat (apply before_T_digit; [lia |]). done. Qed.

Lemma before_T_pad4 (n : Z) : 0 <= n <= 9999 → before "T" (pad4 n) = pad4 n.
Proof. intros Hn. unfold pad4. repeat (apply before_T_digit; [lia |]). done. Qed.

Lemma before_T_iso_year (y : Z) :
  - 999999 <= y <= 999999 → before "T" (iso_year y) = iso_year y.
Proof.
  intros Hy. unfold iso_year, pad6.
  destruct (Z.leb_spec 0 y), (Z.leb_spec y 9999); cbn [andb].
  - apply before_T_pad4. lia.
  - apply before_keeps_app; [by destruct (y <? 0) |].
    apply before_keeps_app; [apply before_T_pad2 | apply before_T_pad4]; lia.
  - apply before_keeps_app; [by destruct (y <? 0) |].
    apply before_keeps_app; [apply before_T_pad2 | apply before_T_pad4]; lia.
  - lia.
Qed.

(** The date part of [toISOString] is what comes before its [T]. *)
Lemma before_T_toISOString (t : Z) :
  Z.abs t <= 8640000000000000 →
  before "T" (iso_date t +:+ iso_time t) = iso_date t.
Proof.
  intros Ht. apply before_app_tail. unfold iso_date.
  destruct (date_of_time t) as (Hm & Hd & _).
  pose proof (daysInMonth_bounds (YearFromTime t) (MonthFromTime t + 1)).
  repeat (apply before_keeps_app; try done).
  - by apply before_T_iso_year, year_of_time_value.
  - apply before_T_pad2. lia.
  - apply before_T_pad2. lia.
Qed.

Lemma sameDate_eq (tz selected : Z) (flight : jsval) :
  Z.abs selected <= 8640000000000000 →
  has_departure tz flight = true →
  sameDate tz (Some selected) flight = Ok (departs_on tz (Day selected) flight).
Proof.
  intros Hsel Hf. unfold has_departure in Hf. apply andb_true_iff in Hf as [Hp Hd].
  apply negb_true_iff in Hp.
  unfold sameDate, departs_on. rewrite (prop_present flight _ Hp).
  cbn [mbind res_bind].
  destruct (@new_Date (engine tz) (opt_prop flight "departure_time")) as [t |] eqn:Ht;
    [| done].
  apply new_Date_range in Ht.
  cbn [toISOString mbind res_bind]. rewrite !before_T_toISOString by done.
  f_equal. destruct (Z.eqb_spec (Day t) (Day selected)) as [Heq | Hne].
  - apply bool_decide_eq_true_2. by apply iso_date_same_day.
  - apply bool_decide_eq_false_2. intros Heq. by apply iso_date_same_day in Heq.
Qed.

Lemma filter_elements_sameDate (tz selected : Z) (l : list jsval) :
  Z.abs selected <= 8640000000000000 →
  Forall (λ f, has_departure tz f = true) l →
  filter_elements (sameDate tz (Some selected)) l =
  Ok (List.filter (departs_on tz (Day selected)) l).
Proof.
  intros Hsel. induction 1 as [| f l Hf _ IH]; [done |].
  cbn [filter_elements List.filter]. rewrite (sameDate_eq tz selected f Hsel Hf), IH.
  cbn [mbind res_bind]. by destruct (departs_on tz (Day selected) f).
Qed.

Lemma transformFlight_eq (flight : jsval) :
  absent flight = false → transformFlight flight = Ok (shown_flight flight).
Proof.
  intros Hf. unfold transformFlight. rewrite !(prop_present flight) by done.
  reflexivity.
Qed.

Lemma array_map_transformFlight (l : list jsval) :
  Forall (λ f, absent f = false) l →
  array_map transformFlight l = Ok (shown_flight <$> l).
Proof.
  induction 1 as [| f l Hf _ IH]; [done |].
  cbn [array_map]. by rewrite (transformFlight_eq f Hf), IH.
Qed.

Lemma has_departure_present (tz : Z) (l : list jsval) :
  Forall (λ f, has_departure tz f = true) l → Forall (λ f, absent f = false) l.
Proof.
  intros Hl. eapply Forall_impl; [exact Hl |]. intros f Hf.
  unfold has_departure in Hf.
  apply andb_true_iff in Hf as [Hp _]. by apply negb_true_iff in Hp.
Qed.

End search_dates.

Section searching.
Import ESDate ESLocal Calendar BookSearch.

Lemma Day_of_local_noon (tz day : Z) :
  - 86400000 <= tz <= 86400000 →
  Day (UTC tz (MakeDate day 43200000)) =
  day + (if tz <=? - 43200000 then 1 else if 43200000 <? tz then - 1 else 0).
Proof.
  intros Htz. unfold Day, UTC, MakeDate, msPerDay.
  destruct (Z.leb_spec tz (- 43200000)); [| destruct (Z.ltb_spec 43200000 tz)];
    symmetry.
  - apply Z.div_unique with (- 43200000 - tz); lia.
  - apply Z.div_unique with (129600000 - tz); lia.
  - apply Z.div_unique with (43200000 - tz); lia.
Qed.

Lemma filter_nil_length {A} (f : A → bool) (l : list A) :
  (length (List.filter f l) =? 0)%nat = bool_decide (List.filter f l = []).
Proof. by destruct (List.filter f l). Qed.

(** X21. The search lists the flights of one day as counted in UTC: the day
    on which the noon of the selected date, in the local time of the device,
    falls in UTC.  That is the selected day where local time is ahead of UTC
    by twelve hours at most or behind it by less, the day before where it is
    further ahead (UTC+13, UTC+14), and the day after at twelve hours behind.
    With a route and a date the calendar stored, a stored token that is a
    text or none, and an answer that is a list of flights whose departure
    times [new Date] can read: the results shown are the flights whose
    departure time falls on that day in UTC (not in local time), each with
    its eleven fields renamed, in the order of the answer; when there is
    none, the results are first emptied and then set to all flights of the
    answer, with the mark that the date has no flights.  Two requests are
    sent, no alert is shown, and the searching flag ends reset. *)
Theorem search_lists_the_flights_of_the_UTC_day
    (tz : Z) (origin destination : string) (y m d : Z) (flights : list jsval)
    (token : jsval) (net : request → reply) (lat : request → Z) (t0 : Z) :
  let w := fresh token net lat t0 in
  let ping := request_in w "get" "/" VUndefined in
  let search :=
    request_in w "get"
      ("/api/flights/search/" +:+ origin +:+ "/" +:+ destination) VUndefined in
  let selected := Day (UTC tz (MakeDate (MakeDay y (m - 1) d) 43200000)) in
  let matching := List.filter (departs_on tz selected) flights in
  let tr := trace (searchFlights tz origin destination (date_only_string y m d) w).2 in
  - 86400000 <= tz <= 86400000 → valid_date y m d →
  origin ≠ "" → destination ≠ "" →
  sendable token = true →
  answered w ping = true →
  answer w search = Ok (VArr flights) →
  Forall (λ f, has_departure tz f = true) flights →
  selected =
    MakeDay y (m - 1) d +
    (if tz <=? - 43200000 then 1 else if 43200000 <? tz then - 1 else 0) ∧
  requests_of tr = [ping; search] ∧
  alerts_of tr = [] ∧
  states_of "isSearching" tr = [VBool true; VBool false] ∧
  states_of "searchResults" tr =
    (if bool_decide (matching = []) then [VArr []; VArr (shown_flight <$> flights)]
     else [VArr (shown_flight <$> matching)]) ∧
  states_of "noFlightsForSelectedDate" tr = [VBool (bool_decide (matching = []))].
Proof.
  intros w ping search selected matching tr Htz Hv Ho Hd Hsend Hping Hsearch Hflights.
  subst tr. split; [by apply Day_of_local_noon |].
  pose proof (has_departure_present tz flights Hflights) as Hpresent.
  assert (Hsel : parse tz (date_only_string y m d +:+ "T12:00:00") =
                 Some (UTC tz (MakeDate (MakeDay y (m - 1) d) 43200000)))
    by (by apply parse_date_only_at_noon).
  assert (Hrange : Z.abs (UTC tz (MakeDate (MakeDay y (m - 1) d) 43200000))
                   <= 8640000000000000) by by apply parse_range in Hsel.
  destruct (searchFlights tz origin destination (date_only_string y m d) w)
    as [r w'] eqn:Hrun. cbn [snd].
  unfold searchFlights, flightsAPI.searchFlights in Hrun.
  rewrite (bool_decide_eq_false_2 (origin = "")),
    (bool_decide_eq_false_2 (destination = "")) in Hrun by done.
  rewrite bool_decide_eq_false_2 in Hrun by (rewrite date_only_string_chars; done).
  run_in Hrun.
  set (w0 := set_trace _ w) in Hrun.
  change (request_in w0 "get" "/" VUndefined) with ping in Hrun.
  change (answer w0 ping) with (answer w ping) in Hrun.
  unfold answered in Hping.
  destruct (answer w ping) as [b0 |]; [| done]. run_in Hrun.
  cbn [ToString] in Hrun.
  match type of Hrun with context [request_in ?w1 "get" ?u VUndefined] =>
    change (request_in w1 "get" u VUndefined) with search in Hrun end.
  match type of Hrun with context [answer ?w1 search] =>
    change (answer w1 search) with (answer w search) in Hrun end.
  rewrite Hsearch in Hrun. run_in Hrun. rewrite Hsel in Hrun.
  change (array_filter (VArr flights) ?f) with (filter_elements f flights) in Hrun.
  rewrite (filter_elements_sameDate tz _ flights Hrange Hflights) in Hrun.
  fold selected in Hrun. fold matching in Hrun.
  run_in Hrun.
  assert (Hm : Forall (λ f, absent f = false) matching).
  { subst matching. apply Forall_forall. intros f Hf.
    apply list_elem_of_In, filter_In in Hf as [Hf _].
    rewrite Forall_forall in Hpresent. by apply Hpresent, list_elem_of_In. }
  rewrite (array_map_transformFlight matching Hm) in Hrun. run_in Hrun.
  rewrite length_fmap in Hrun. subst matching. rewrite filter_nil_length in Hrun.
  set (matching := List.filter _ flights) in *.
  destruct (bool_decide (matching = [])) eqn:Hempty; run_in Hrun.
  - cbn [map_method] in Hrun. rewrite (array_map_transformFlight flights Hpresent) in Hrun.
    run_in Hrun. injection Hrun as <- <-.
    apply bool_decide_eq_true_1 in Hempty. rewrite Hempty. done.
  - injection Hrun as <- <-. done.
Qed.

End searching.

(** A search for the ninth of March 2025 in Bahrain, and the same search
    where local time is thirteen hours ahead of UTC. *)
Lemma search_lists_the_flights_of_the_UTC_day_witness :
  let late := VObj (list_to_map [("id", VNum 1); ("flight_number", VStr "GF003");
                                 ("departure_time", VStr "2025-03-10T01:30:00")]) in
  let early := VObj (list_to_map [("id", VNum 2); ("flight_number", VStr "GF007");
                                  ("departure_time", VStr "2025-03-09T01:30:00")]) in
  states_of "searchResults"
    (trace (BookSearch.searchFlights 10800000 "BAH" "LHR" "2025-03-09"
              (fresh (VStr "abc") (backend (VArr [late; early])) (λ _, 120)
                 1741500000000)).2) =
  [VArr [shown_flight late]] ∧
  states_of "searchResults"
    (trace (BookSearch.searchFlights 46800000 "BAH" "LHR" "2025-03-09"
              (fresh (VStr "abc") (backend (VArr [late; early])) (λ _, 120)
                 1741500000000)).2) =
  [VArr [shown_flight early]].
Proof.
  intros late early. split.
  - change "2025-03-09" with (Calendar.date_only_string 2025 3 9).
    pose proof (search_lists_the_flights_of_the_UTC_day 10800000 "BAH" "LHR" 2025 3 9
                  [late; early] (VStr "abc") (backend (VArr [late; early])) (λ _, 120)
                  1741500000000) as H.
    cbv zeta in H.
    destruct H as (_ & _ & _ & _ & H & _);
      [lia | by vm_compute | done | done | reflexivity | reflexivity | reflexivity
      | repeat constructor |].
    rewrite H. reflexivity.
  - change "2025-03-09" with (Calendar.date_only_string 2025 3 9).
    pose proof (search_lists_the_flights_of_the_UTC_day 46800000 "BAH" "LHR" 2025 3 9
                  [late; early] (VStr "abc") (backend (VArr [late; early])) (λ _, 120)
                  1741500000000) as H.
    cbv zeta in H.
    destruct H as (_ & _ & _ & _ & H & _);
      [lia | by vm_compute | done | done | reflexivity | reflexivity | reflexivity
      | repeat constructor |].
    rewrite H. reflexivity.
Defined.

Section search_failures.
Import ESDate ESLocal Calendar BookSearch.

(** X22. The search stops at a server that does not answer.  With a route
    and a date, when the connection test is not answered with success, or
    cannot be sent because the stored token is truthy and no text, the
    search sends nothing but that test, if it can be sent, shows the
    connection error, sets no results, and leaves the searching flag
    reset. *)
Theorem search_stops_at_an_unreachable_server
    (tz : Z) (origin destination departureDate : string)
    (token : jsval) (net : request → reply) (lat : request → Z) (t0 : Z) :
  let w := fresh token net lat t0 in
  let ping := request_in w "get" "/" VUndefined in
  let tr := trace (searchFlights tz origin destination departureDate w).2 in
  origin ≠ "" → destination ≠ "" → departureDate ≠ "" →
  sendable token = false ∨ answered w ping = false →
  requests_of tr = (if sendable token then [ping] else []) ∧
  alerts_of tr =
    [("Connection Error",
      "Cannot connect to server. Please check your internet connection.")] ∧
  states_of "isSearching" tr = [VBool true; VBool false] ∧
  states_of "searchResults" tr = [] ∧
  states_of "noFlightsForSelectedDate" tr = [].
Proof.
  intros w ping tr Ho Hd Hdate Hping. subst tr.
  destruct (searchFlights tz origin destination departureDate w) as [r w'] eqn:Hrun.
  cbn [snd]. unfold searchFlights in Hrun.
  rewrite (bool_decide_eq_false_2 (origin = "")),
    (bool_decide_eq_false_2 (destination = "")),
    (bool_decide_eq_false_2 (departureDate = "")) in Hrun by done.
  destruct (sendable token) eqn:Hsend; run_in Hrun.
  2: { by injection Hrun as <- <-. }
  destruct Hping as [| Hping]; [done |].
  set (w0 := set_trace _ w) in Hrun.
  change (request_in w0 "get" "/" VUndefined) with ping in Hrun.
  change (answer w0 ping) with (answer w ping) in Hrun.
  unfold answered in Hping.
  destruct (answer w ping) as [b0 | e]; [done |]. run_in Hrun.
  injection Hrun as <- <-. done.
Qed.

Lemma lacks_departure_unreadable (tz : Z) (f : jsval) :
  lacks_departure f = true → has_departure tz f = false.
Proof.
  unfold lacks_departure, has_departure. intros Hl.
  destruct (absent f); [done |]. cbn [orb negb andb] in *.
  by destruct (opt_prop f "departure_time").
Qed.

Lemma filter_elements_unreadable (tz : Z) (selected : option Z) (l : list jsval) :
  Exists (λ f, lacks_departure f = true) l →
  ∃ e, filter_elements (sameDate tz selected) l = Throw e.
Proof.
  intros Hl.
  assert (Hbad : Exists (λ f, has_departure tz f = false) l).
  { eapply Exists_impl; [exact Hl |]. intros f. apply lacks_departure_unreadable. }
  clear Hl. revert Hbad.
  induction 1 as [f l Hf | f l _ [e IH]]; cbn [filter_elements].
  - destruct (sameDate tz selected f) as [keep | e] eqn:Hs; [| by eexists].
    exfalso. unfold sameDate, has_departure in *.
    destruct (absent f) eqn:Ha.
    + by destruct f.
    + rewrite (prop_present f _ Ha) in Hs. cbn [mbind res_bind] in Hs.
      cbn [negb andb] in Hf.
      by destruct (@new_Date (engine tz) (opt_prop f "departure_time")).
  - destruct (sameDate tz selected f) as [keep | e']; [| by eexists].
    cbn [mbind res_bind]. rewrite IH. by eexists.
Qed.

(** X23. One flight without a departure time fails the whole search.  With
    a route and a date, a stored token that is a text or none, a server that
    answers, and a list of flights of which one is [null] or [undefined], or
    has no departure time: no results are set, also not the other flights;
    one alert titled 'Search Error' is shown, and the searching flag ends
    reset. *)
Theorem search_fails_on_one_unreadable_departure
    (tz : Z) (origin destination departureDate : string) (flights : list jsval)
    (token : jsval) (net : request → reply) (lat : request → Z) (t0 : Z) :
  let w := fresh token net lat t0 in
  let ping := request_in w "get" "/" VUndefined in
  let search :=
    request_in w "get"
      ("/api/flights/search/" +:+ origin +:+ "/" +:+ destination) VUndefined in
  let tr := trace (searchFlights tz origin destination departureDate w).2 in
  origin ≠ "" → destination ≠ "" → departureDate ≠ "" →
  sendable token = true →
  answered w ping = true →
  answer w search = Ok (VArr flights) →
  Exists (λ f, lacks_departure f = true) flights →
  requests_of tr = [ping; search] ∧
  (∃ text, alerts_of tr = [("Search Error", text)]) ∧
  states_of "isSearching" tr = [VBool true; VBool false] ∧
  states_of "searchResults" tr = [] ∧
  states_of "noFlightsForSelectedDate" tr = [].
Proof.
  intros w ping search tr Ho Hd Hdate Hsend Hping Hsearch Hbad. subst tr.
  destruct (filter_elements_unreadable tz
              (parse tz (departureDate +:+ "T12:00:00")) flights Hbad) as [e He].
  destruct (searchFlights tz origin destination departureDate w) as [r w'] eqn:Hrun.
  cbn [snd]. unfold searchFlights, flightsAPI.searchFlights in Hrun.
  rewrite (bool_decide_eq_false_2 (origin = "")),
    (bool_decide_eq_false_2 (destination = "")),
    (bool_decide_eq_false_2 (departureDate = "")) in Hrun by done.
  run_in Hrun.
  set (w0 := set_trace _ w) in Hrun.
  change (request_in w0 "get" "/" VUndefined) with ping in Hrun.
  change (answer w0 ping) with (answer w ping) in Hrun.
  unfold answered in Hping.
  destruct (answer w ping) as [b0 |]; [| done]. run_in Hrun.
  cbn [ToString] in Hrun.
  match type of Hrun with context [request_in ?w1 "get" ?u VUndefined] =>
    change (request_in w1 "get" u VUndefined) with search in Hrun end.
  match type of Hrun with context [answer ?w1 search] =>
    change (answer w1 search) with (answer w search) in Hrun end.
  rewrite Hsearch in Hrun. run_in Hrun.
  change (array_filter (VArr flights) ?f) with (filter_elements f flights) in Hrun.
  rewrite He in Hrun. run_in Hrun. injection Hrun as <- <-.
  repeat split; try done. by eexists.
Qed.

End search_failures.

Lemma search_stops_at_an_unreachable_server_witness :
  alerts_of
    (trace (BookSearch.searchFlights 10800000 "BAH" "LHR" "2025-03-09"
              (fresh (VStr "abc") (λ _, NoResponse) (λ _, 120) 1741500000000)).2) =
  [("Connection Error",
    "Cannot connect to server. Please check your internet connection.")].
Proof.
  exact (proj1 (proj2 (search_stops_at_an_unreachable_server 10800000 "BAH" "LHR"
                         "2025-03-09" (VStr "abc") (λ _, NoResponse) (λ _, 120)
                         1741500000000 ltac:(done) ltac:(done) ltac:(done)
                         (or_intror eq_refl)))).
Defined.

Lemma search_fails_on_one_unreadable_departure_witness :
  let good := VObj (list_to_map [("id", VNum 1);
                                 ("departure_time", VStr "2025-03-09T09:30:00")]) in
  let bad := VObj (list_to_map [("id", VNum 2)]) in
  states_of "searchResults"
    (trace (BookSearch.searchFlights 10800000 "BAH" "LHR" "2025-03-09"
              (fresh (VStr "abc") (backend (VArr [good; bad])) (λ _, 120)
                 1741500000000)).2) = [].
Proof.
  intros good bad.
  pose proof (search_fails_on_one_unreadable_departure 10800000 "BAH" "LHR"
                "2025-03-09" [good; bad] (VStr "abc") (backend (VArr [good; bad]))
                (λ _, 120) 1741500000000) as H.
  cbv zeta in H.
  destruct H as (_ & _ & _ & H & _);
    [done | done | done | reflexivity | reflexivity | reflexivity
    | apply Exists_cons_tl, Exists_cons_hd; reflexivity |].
  exact H.
Defined.

Section grouping.
Import BookSearch.
Variable tz : Z.

Lemma push_flight_keys key flight grouped :
  (push_flight key flight grouped).*1 =
  if bool_decide (key ∈ grouped.*1) then grouped.*1 else (grouped.*1 ++ [key])%list.
Proof.
  induction grouped as [| [k fs] rest IH]; [done |].
  cbn [push_flight fmap list_fmap fst].
  destruct (bool_decide_reflect (k = key)) as [Hk | Hk].
  - subst k. rewrite bool_decide_eq_true_2 by left. done.
  - cbn [fmap list_fmap fst]. fold (fmap (M := list) (@fst string (list jsval))).
    rewrite IH. destruct (bool_decide_reflect (key ∈ rest.*1)) as [Hin | Hin].
    + rewrite bool_decide_eq_true_2 by by right. done.
    + rewrite bool_decide_eq_false_2; [done |].
      intros [-> | ?]%elem_of_cons; done.
Qed.

Lemma group_of_push_flight key' key flight grouped :
  group_of key' (push_flight key flight grouped) =
  if bool_decide (key = key') then (group_of key' grouped ++ [flight])%list
  else group_of key' grouped.
Proof.
  induction grouped as [| [k fs] rest IH].
  - cbn [push_flight group_of]. by case_bool_decide.
  - cbn [push_flight]. destruct (bool_decide_reflect (k = key)) as [Hk | Hk].
    + subst k. cbn [group_of]. by case_bool_decide.
    + cbn [group_of]. rewrite IH.
      destruct (bool_decide_reflect (k = key')) as [Hk' | Hk']; [| done].
      subst k. rewrite bool_decide_eq_false_2 by done. done.
Qed.

Lemma group_of_entry key fs grouped :
  NoDup grouped.*1 →
  (key, fs) ∈ grouped ↔ key ∈ grouped.*1 ∧ fs = group_of key grouped.
Proof.
  induction grouped as [| [k gs] rest IH]; intros Hnd.
  - split; [by intros ?%elem_of_nil | by intros [?%elem_of_nil _]].
  - cbn [fmap list_fmap fst] in Hnd. fold (fmap (M := list) (@fst string (list jsval))) in Hnd.
    apply NoDup_cons in Hnd as [Hk Hnd]. specialize (IH Hnd).
    cbn [group_of fmap list_fmap fst]. fold (fmap (M := list) (@fst string (list jsval))).
    rewrite !elem_of_cons, IH. destruct (bool_decide_reflect (k = key)) as [Heq | Heq].
    + subst k. split.
      * intros [[= ->] | [? _]]; [by split; [left |] | done].
      * intros [_ ->]. by left.
    + split.
      * intros [[= ? ?] | [? ?]]; [by subst | by split; [right |]].
      * intros [[-> | ?] ?]; [done | by right].
Qed.

Lemma listed_under_snoc key flights flight :
  listed_under tz key (flights ++ [flight]) =
  if bool_decide (dateKey tz flight = key)
  then (listed_under tz key flights ++ [flight])%list
  else listed_under tz key flights.
Proof.
  unfold listed_under. rewrite List.filter_app. cbn [List.filter].
  case_bool_decide; [done | by rewrite app_nil_r].
Qed.

Lemma listed_under_nil key flights :
  listed_under tz key flights ≠ [] ↔ key ∈ dateKey tz <$> flights.
Proof.
  unfold listed_under. induction flights as [| f l IH]; cbn [List.filter fmap list_fmap].
  - split; [done | by intros ?%elem_of_nil].
  - fold (fmap (M := list) (dateKey tz)). rewrite elem_of_cons.
    destruct (bool_decide_reflect (dateKey tz f = key)) as [Hk | Hk].
    + split; [by left | done].
    + rewrite IH. split; [by right | by intros [-> | ?]].
Qed.

Lemma dateKey_of_eq flight :
  absent flight = false → dateKey_of tz flight = Ok (dateKey tz flight).
Proof. intros Hf. unfold dateKey_of. by rewrite (prop_present flight _ Hf). Qed.

Lemma group_from_spec (flights seen : list jsval) grouped :
  Forall (λ f, absent f = false) flights →
  NoDup grouped.*1 →
  (∀ key, key ∈ grouped.*1 ↔ key ∈ dateKey tz <$> seen) →
  (∀ key, group_of key grouped = listed_under tz key seen) →
  ∃ groups,
    group_from tz grouped flights = Ok groups ∧
    NoDup groups.*1 ∧
    (∀ key, key ∈ groups.*1 ↔ key ∈ dateKey tz <$> (seen ++ flights)%list) ∧
    (∀ key, group_of key groups = listed_under tz key (seen ++ flights)%list).
Proof.
  intros Hfl. revert seen grouped.
  induction Hfl as [| f l Hf _ IH]; intros seen grouped Hnd Hkeys Hgroups.
  - exists grouped. by rewrite app_nil_r.
  - cbn [group_from]. rewrite (dateKey_of_eq f Hf). cbn [mbind res_bind].
    destruct (IH (seen ++ [f])%list (push_flight (dateKey tz f) f grouped))
      as (groups & Hg & H1 & H2 & H3).
    + rewrite push_flight_keys.
      destruct (bool_decide_reflect (dateKey tz f ∈ grouped.*1)) as [Hin | Hin]; [done |].
      apply NoDup_app. split_and!; [done | | apply NoDup_singleton].
      intros k Hk ->%list_elem_of_singleton. done.
    + intros key. rewrite push_flight_keys, fmap_app, elem_of_app.
      cbn [fmap list_fmap]. rewrite list_elem_of_singleton, <- Hkeys.
      destruct (bool_decide_reflect (dateKey tz f ∈ grouped.*1)) as [Hin | Hin].
      * split; [by left | by intros [? | ->]].
      * by rewrite elem_of_app, list_elem_of_singleton.
    + intros key. rewrite group_of_push_flight, listed_under_snoc, Hgroups. done.
    + exists groups. by rewrite <- (assoc_L (++)) in H2, H3.
Qed.

(** X24. The results are listed by local departure day, each flight once.
    For shown flights none of which is [null], the grouping returns, with no
    day twice; a day heads a group exactly when a flight departs on it, and
    its group holds the flights of that day, all of them, in the order of
    the results.  (A flight whose time cannot be read is listed under
    'Invalid Date'.) *)
Theorem flights_are_grouped_by_local_day (flights : list jsval) :
  Forall (λ f, absent f = false) flights →
  ∃ groups,
    groupFlightsByDate tz flights = Ok groups ∧
    NoDup groups.*1 ∧
    ∀ key group,
      (key, group) ∈ groups ↔
      group ≠ [] ∧ group = listed_under tz key flights.
Proof.
  intros Hfl.
  destruct (group_from_spec flights [] [] Hfl) as (groups & Hg & Hnd & Hkeys & Hgroups).
  - constructor.
  - done.
  - done.
  - exists groups. split_and!; [done.. |]. cbn [app] in *.
    intros key group. rewrite (group_of_entry key group groups Hnd), Hgroups.
    split.
    + intros [Hk ->]. split; [| done]. apply listed_under_nil. by apply Hkeys.
    + intros [Hne ->]. split; [| done]. apply Hkeys. by apply listed_under_nil.
Qed.

End grouping.

Lemma flights_are_grouped_by_local_day_witness :
  let a := VObj (list_to_map [("id", VNum 1);
                              ("departureTime", VStr "2025-03-09T22:30:00Z")]) in
  let b := VObj (list_to_map [("id", VNum 2);
                              ("departureTime", VStr "2025-03-09T09:30:00Z")]) in
  let c := VObj (list_to_map [("id", VNum 3);
                              ("departureTime", VStr "2025-03-10T00:10:00Z")]) in
  ∃ groups,
    BookSearch.groupFlightsByDate 10800000 [a; b; c] = Ok groups ∧
    ∀ group, ("Mon Mar 10 2025", group) ∈ groups ↔ group = [a; c].
Proof.
  intros a b c.
  destruct (flights_are_grouped_by_local_day 10800000 [a; b; c])
    as (groups & Hg & _ & H); [repeat constructor |].
  exists groups. split; [exact Hg |]. intros group. rewrite H.
  assert (listed_under 10800000 "Mon Mar 10 2025" [a; b; c] = [a; c]) as ->
    by (vm_compute; reflexivity).
  split; [intros [_ ->]; reflexivity | intros ->; split; [discriminate | reflexivity]].
Defined.

Section airport_names.
Import MyTrips BookSearch.

(** X25. The booking screen and My Trips name the same cities.  For every
    code, the booking screen shows the city that My Trips has for it,
    followed by the code in brackets, and shows the bare code exactly when
    My Trips has no city for it. *)
Theorem both_screens_name_the_same_cities (code0 : string) :
  getAirportName code0 =
  match airportMap !! code0 with
  | Some city => city +:+ " (" +:+ code0 +:+ ")"
  | None => code0
  end.
Proof.
  assert (Hlisted : code0 ∈ code <$> airports ∨ code0 ∉ code <$> airports)
    by (destruct (decide (code0 ∈ code <$> airports)); [by left | by right]).
  destruct Hlisted as [Hin | Hout].
  - cbn in Hin. repeat (apply elem_of_cons in Hin as [-> | Hin]; [by vm_compute |]).
    by apply elem_of_nil in Hin.
  - cbn in Hout. rewrite !not_elem_of_cons in Hout. destruct_and!.
    unfold getAirportName, airports, airportMap.
    cbn [List.find code]. rewrite !bool_decide_eq_false_2 by done.
    cbn [list_to_map foldr]. cbn [fst snd uncurry].
    rewrite !lookup_insert_ne by done. by rewrite lookup_empty.
Qed.

End airport_names.
